(** * Hotel revenue forecasting: feature builder, model wrapper, search, ingestion

    A shallow embedding of [MODEL/prophet_python.py] (feature engineering,
    model persistence, prediction, hyper-parameter objective) and of the
    ingestion path of [web_old/server/app.py] ([save_hotel_data],
    [health_check]), then of [add_regressors], of the retraining of
    [web_old/server/model/prophet_python.py] and of the other handlers
    of app.py (log-in and sessions, the form, the paginated read, the
    database settings), followed by the properties proved about them.

    Conventions.
    - The floats the handlers convert and compare themselves ([float],
      [int], [<]) are IEEE 754 binary64 values, modelled by primitive
      floats: [float] of an integer rounds to the nearest double, [int]
      of a float truncates its exact value.
    - A float cell of a table is missing ([NaN], also standing for NaT),
      infinite ([Inf]) or finite; a finite float is denoted by the
      rational it represents, as are the hyper-parameters handed to the
      forecasting library.  The program does no arithmetic on cells
      itself: the rolling statistics are computed by pandas, which is a
      parameter, so no rounding is assumed for them.
    - A pandas frame is an ordered list of named columns; assigning a
      column replaces it in place when the name exists and appends it
      otherwise.
    - Exceptions are values of an error type threaded through a result
      monad; [try]/[except]/[finally] are written out as matches.
    - Third-party libraries (holiday calendars, pandas' rolling
      aggregation, the regression model and its random generator,
      pickle, the file system, the database server) are parameters of
      the sections that use them. *)

From Stdlib Require Import Floats ZArith QArith String Ascii List Bool Lia.
From stdpp Require Import base gmap strings list.

Open Scope string_scope.

(* ===================================================================== *)
(** * Python primitives *)
(* ===================================================================== *)

Module Py.

(** Built-in exception classes raised by the modelled code. *)
Inductive exn :=
| KeyError (key : string)
| ValueError (msg : string)
| TypeError (msg : string)
| AttributeError (msg : string)
| IndexError (msg : string)
| OverflowError (msg : string)
| FileNotFoundError (msg : string)
| IsADirectoryError (msg : string).

Inductive result (A : Type) :=
| Ok (a : A)
| Raise (e : exn).
Arguments Ok {A} a.
Arguments Raise {A} e.

Definition bind {A B} (r : result A) (k : A -> result B) : result B :=
  match r with
  | Ok a => k a
  | Raise e => Raise e
  end.

(** [for x in xs: acc = body(acc, x)] where the body may raise. *)
Fixpoint for_each {A S} (body : S -> A -> result S) (xs : list A) (s : S)
  : result S :=
  match xs with
  | [] => Ok s
  | x :: xs' => bind (body s x) (for_each body xs')
  end.

(** [s.startswith(p)] *)
Definition startswith (s p : string) : bool := String.prefix p s.

(** [s.split(sep)] for a one-character separator. *)
Fixpoint split_aux (sep : ascii) (s : string) (cur : string) : list string :=
  match s with
  | EmptyString => [cur]
  | String c rest =>
      if Ascii.eqb c sep
      then cur :: split_aux sep rest EmptyString
      else split_aux sep rest (cur ++ String c EmptyString)
  end.

Definition split (s : string) (sep : ascii) : list string :=
  split_aux sep s EmptyString.

(** [xs[i]] on a Python list, for a non-negative index. *)
Definition getitem {A} (xs : list A) (i : nat) : result A :=
  match xs !! i with
  | Some x => Ok x
  | None => Raise (IndexError "list index out of range")
  end.

Definition is_space (c : ascii) : bool :=
  let n := nat_of_ascii c in
  ((9 <=? n) && (n <=? 13))%nat || (n =? 32)%nat.

Fixpoint lstrip (s : string) : string :=
  match s with
  | String c rest => if is_space c then lstrip rest else s
  | EmptyString => EmptyString
  end.

Fixpoint rev_string (s acc : string) : string :=
  match s with
  | EmptyString => acc
  | String c rest => rev_string rest (String c acc)
  end.

Definition strip (s : string) : string :=
  rev_string (lstrip (rev_string (lstrip s) EmptyString)) EmptyString.

Definition digit_of (c : ascii) : option Z :=
  let n := nat_of_ascii c in
  if ((48 <=? n) && (n <=? 57))%nat then Some (Z.of_nat (n - 48)) else None.

Fixpoint digits_value (s : string) (acc : Z) : option Z :=
  match s with
  | EmptyString => Some acc
  | String c rest =>
      match digit_of c with
      | Some d => digits_value rest (10 * acc + d)
      | None => None
      end
  end.

Definition unsigned_value (s : string) : option Z :=
  match s with
  | EmptyString => None
  | _ => digits_value s 0
  end.

(** [int(s)] for a text [s]: surrounding blanks, an optional sign and
    decimal digits; anything else is a [ValueError]. *)
Definition int_of_str (s : string) : result Z :=
  let t := strip s in
  let signed :=
    match t with
    | String "-"%char rest => option_map Z.opp (unsigned_value rest)
    | String "+"%char rest => unsigned_value rest
    | _ => unsigned_value t
    end in
  match signed with
  | Some z => Ok z
  | None => Raise (ValueError "invalid literal for int() with base 10")
  end.

(** [str(n)] for a non-negative integer. *)
Fixpoint str_of_nat_aux (fuel n : nat) (acc : string) : string :=
  match fuel with
  | O => acc
  | S fuel' =>
      let acc' := String (ascii_of_nat (48 + n mod 10)) acc in
      if (n / 10 =? 0)%nat then acc' else str_of_nat_aux fuel' (n / 10) acc'
  end.

Definition str_of_nat (n : nat) : string := str_of_nat_aux (S n) n EmptyString.

(** [needle in haystack] on texts. *)
Fixpoint contains (haystack needle : string) : bool :=
  String.prefix needle haystack
  || match haystack with
     | EmptyString => false
     | String _ rest => contains rest needle
     end.

Definition lower_char (c : ascii) : ascii :=
  let n := nat_of_ascii c in
  if ((65 <=? n) && (n <=? 90))%nat then ascii_of_nat (n + 32) else c.

(** [s.lower()] on ASCII text. *)
Fixpoint lower (s : string) : string :=
  match s with
  | EmptyString => EmptyString
  | String c rest => String (lower_char c) (lower rest)
  end.

(** ** Floats *)

(** A Python [float]: an IEEE 754 binary64 value. *)
Abbreviation float64 := PrimFloat.float.

(** [float(n)] for an integer [n]: the nearest double, ties to even;
    [OverflowError] when that is beyond the largest finite double. *)
Definition float_of_int (n : Z) : result float64 :=
  let x := SF2Prim (binary_normalize prec emax n 0 false) in
  if PrimFloat.is_infinity x
  then Raise (OverflowError "int too large to convert to float")
  else Ok x.

(** The rational a finite float denotes. *)
Definition exact (x : float64) : option Q :=
  match Prim2SF x with
  | S754_zero _ => Some 0%Q
  | S754_finite s m e =>
      let n := if s then Z.neg m else Z.pos m in
      Some match e with
           | Z.neg k => n # (2 ^ k)
           | _ => inject_Z (n * 2 ^ e)
           end
  | S754_infinity _ | S754_nan => None
  end.

(** Truncation toward zero. *)
Definition trunc (q : Q) : Z := Z.quot (Qnum q) (Z.pos (Qden q)).

(** [int(x)] for a float [x]: its value truncated toward zero;
    [ValueError] for NaN, [OverflowError] for an infinity. *)
Definition int_of_float (x : float64) : result Z :=
  match exact x with
  | Some q => Ok (trunc q)
  | None =>
      if PrimFloat.is_nan x
      then Raise (ValueError "cannot convert float NaN to integer")
      else Raise (OverflowError "cannot convert float infinity to integer")
  end.

End Py.

Notation "'let*' x ':=' c 'in' k" := (Py.bind c (fun x => k))
  (at level 10, x name, c at level 100, k at level 200).

(* ===================================================================== *)
(** * Calendar dates *)
(* ===================================================================== *)

Module Calendar.

(** A calendar day (the [date] part of a timestamp). *)
Record date := mkdate { year : Z; month : Z; day : Z }.

Definition is_leap (y : Z) : bool :=
  (y mod 4 =? 0)%Z && (negb (y mod 100 =? 0)%Z || (y mod 400 =? 0)%Z).

Definition days_before_year (y : Z) : Z :=
  let p := (y - 1)%Z in (p * 365 + p / 4 - p / 100 + p / 400)%Z.

Definition days_in_month (y m : Z) : Z :=
  if (m =? 2)%Z then (if is_leap y then 29 else 28)%Z
  else if (m =? 4)%Z || (m =? 6)%Z || (m =? 9)%Z || (m =? 11)%Z then 30%Z
  else 31%Z.

Fixpoint days_before_month_aux (y : Z) (k : nat) : Z :=
  match k with
  | O => 0%Z
  | S k' => (days_before_month_aux y k' + days_in_month y (Z.of_nat k))%Z
  end.

Definition days_before_month (y m : Z) : Z :=
  days_before_month_aux y (Z.to_nat (m - 1)).

(** [date.toordinal()]: 0001-01-01 is day 1. *)
Definition toordinal (d : date) : Z :=
  (days_before_year (year d) + days_before_month (year d) (month d) + day d)%Z.

(** [.dt.dayofweek]: Monday is 0, Sunday is 6. *)
Definition dayofweek (d : date) : Z := ((toordinal d + 6) mod 7)%Z.

(** [.dt.quarter] *)
Definition quarter (d : date) : Z := ((month d - 1) / 3 + 1)%Z.

(** The two country calendars the program instantiates. *)
Inductive country := US | IN.

(** The [holidays] package: for a country, the membership test
    [x in holidays.<country>()]. *)
Definition holiday_library := country -> date -> bool.

End Calendar.

(* ===================================================================== *)
(** * Data frames *)
(* ===================================================================== *)

Module Frame.
Import Py Calendar.

(** One cell of a column: a missing value, a finite number, an
    infinity or a timestamp. *)
Inductive cell :=
| NaN
| Num (q : Q)
| Inf (negative : bool)
| Stamp (d : date).

Abbreviation column := (list cell).

(** Columns in insertion order. *)
Abbreviation frame := (list (string * list cell)).

Fixpoint getcol (f : frame) (name : string) : option column :=
  match f with
  | [] => None
  | (n, c) :: rest => if String.eqb n name then Some c else getcol rest name
  end.

(** [f[name]] *)
Definition getitem (f : frame) (name : string) : result column :=
  match getcol f name with
  | Some c => Ok c
  | None => Raise (KeyError name)
  end.

(** [f[name] = col]: replace in place, or append a new column. *)
Fixpoint setcol (f : frame) (name : string) (col : column) : frame :=
  match f with
  | [] => [(name, col)]
  | (n, c) :: rest =>
      if String.eqb n name then (n, col) :: rest
      else (n, c) :: setcol rest name col
  end.

(** [f.columns] *)
Definition columns (f : frame) : list string := map fst f.

(** [f[name].iloc[i]] as an optional cell (used to state properties). *)
Definition at_row (f : frame) (name : string) (i : nat) : option cell :=
  match getcol f name with
  | Some c => c !! i
  | None => None
  end.

(** [.astype(int)] of a boolean. *)
Definition of_bool (b : bool) : cell := Num (if b then 1 else 0).

Definition of_int (z : Z) : cell := Num (inject_Z z).

Definition isna (c : cell) : bool :=
  match c with NaN => true | _ => false end.

(** [col.fillna(method='bfill')]: a missing cell takes the next value
    below it that is present; missing cells at the bottom stay missing. *)
Fixpoint bfill (col : column) : column :=
  match col with
  | [] => []
  | x :: rest =>
      let rest' := bfill rest in
      match x with
      | NaN => match rest' with y :: _ => y | [] => NaN end :: rest'
      | _ => x :: rest'
      end
  end.

(** [col.iloc[-1]] *)
Definition iloc_last (col : column) : result cell :=
  match List.last (map Some col) None with
  | Some c => Ok c
  | None => Raise (IndexError "single positional indexer is out-of-bounds")
  end.

(** The [.dt] accessor exists on date-like columns only. *)
Definition datetimelike (col : column) : bool :=
  forallb (fun c => match c with Num _ | Inf _ => false | _ => true end) col.

(** [col.dt.<field>]: the field of every timestamp, missing for NaT. *)
Definition dt_field (field : date -> Z) (col : column) : result (list (option Z)) :=
  if datetimelike col
  then Ok (map (fun c => match c with Stamp d => Some (field d) | _ => None end) col)
  else Raise (AttributeError "Can only use .dt accessor with datetimelike values").

(** [(s == k).astype(int)] *)
Definition eq_int (k : Z) (s : list (option Z)) : column :=
  map (fun o => of_bool match o with Some z => (z =? k)%Z | None => false end) s.

(** [s.isin(ks).astype(int)] *)
Definition isin_int (ks : list Z) (s : list (option Z)) : column :=
  map (fun o => of_bool match o with
                        | Some z => existsb (Z.eqb z) ks
                        | None => false
                        end) s.

Definition int_column (s : list (option Z)) : column :=
  map (fun o => match o with Some z => of_int z | None => NaN end) s.

(** [col.dt.date.apply(lambda x: x in cal).astype(int)]; the calendar
    rejects a value that is not a date. *)
Fixpoint in_calendar (cal : date -> bool) (col : column) : result column :=
  match col with
  | [] => Ok []
  | Stamp d :: rest =>
      let* rest' := in_calendar cal rest in Ok (of_bool (cal d) :: rest')
  | _ :: _ => Raise (TypeError "Cannot parse date")
  end.

(** ** Statistics in exact arithmetic

    Used for [col.mean()] in the search and to state what a direct
    computation on a window gives; the rolling statistics of the tables
    are pandas' own (below). *)

Definition Qsum (qs : list Q) : Q := fold_right Qplus 0%Q qs.

Definition mean (qs : list Q) : Q :=
  (Qsum qs / inject_Z (Z.of_nat (length qs)))%Q.

(** Sample variance (one delta degree of freedom, the pandas default). *)
Definition var (qs : list Q) : Q :=
  let m := mean qs in
  (Qsum (map (fun x => (x - m) * (x - m)) qs)
     / inject_Z (Z.of_nat (length qs) - 1))%Q.

(** ** Rolling windows *)

(** Rows [i - W + 1 .. i] of a column (0-based [i]). *)
Definition window (W i : nat) (col : column) : column :=
  firstn W (skipn (S i - W) col).

(** The observations of a window when each is a finite number. *)
Fixpoint observations (col : column) : option (list Q) :=
  match col with
  | [] => Some []
  | Num q :: rest => option_map (cons q) (observations rest)
  | _ :: _ => None
  end.

(** The statistics [prepare_prophet_data] asks of a rolling window. *)
Inductive statistic := Mean | Std.

(** pandas' rolling aggregation: [rolling stat W history] is what
    [col.rolling(window=W).<stat>()] holds in the row that ends
    [history], when the last [W] rows of [history] are finite numbers.
    pandas slides floating-point sums down the column, so the value
    depends on the rows before the window too. *)
Definition rolling_library := statistic -> nat -> list cell -> cell.

Definition numeric (col : column) : bool :=
  forallb (fun c => match c with Stamp _ => false | _ => true end) col.

(** [col.rolling(window=W).<agg>().values]: the minimum number of
    observations defaults to [W] and an infinite value is replaced by a
    missing one before the aggregation, so a row is missing until the
    window is full and whenever the window holds a missing or infinite
    value; otherwise it holds what the library computes. *)
Definition rolling_values (W : nat) (agg : column -> cell) (col : column) : column :=
  imap (fun i _ =>
          if (W <=? S i)%nat
          then match observations (window W i col) with
               | Some _ => agg (firstn (S i) col)
               | None => NaN
               end
          else NaN) col.

Definition rolling (W : nat) (agg : column -> cell) (col : column) : result column :=
  if numeric col
  then Ok (rolling_values W agg col)
  else Raise (TypeError "No numeric types to aggregate").

End Frame.

(* ===================================================================== *)
(** * MODEL/prophet_python.py: features, persistence, prediction *)
(* ===================================================================== *)

Module Pipeline.
Import Py Calendar Frame.

(** The input table: a date index and its named columns. *)
Record dataframe := mkdf { index : list date; data : frame }.

(** The [dates] argument: one date or a list of dates. *)
Inductive dates_arg :=
| OneDate (d : date)
| DateList (ds : list date).

Definition blob := list Byte.byte.

(** The files and their content, each file under one name. *)
Abbreviation files := (gmap string blob).

(** What a path names: nothing that exists or can be created (the empty
    path, a path through a directory that does not exist), a directory,
    or a file, present or not.  Two paths can name the same file. *)
Inductive location :=
| Nowhere
| Directory
| File (name : string).

Section WithLibraries.

(** The [holidays] package. *)
Variable holidays : holiday_library.
(** pandas' rolling mean and standard deviation. *)
Variable pandas_rolling : rolling_library.
(** A fitted model and the state of the random generator its interval
    sampler draws from.  [model.predict] returns the forecast and leaves
    the generator in a new state. *)
Variable Model : Type.
Variable random_state : Type.
Variable predict : Model -> frame -> random_state -> result (frame * random_state).
(** [pickle.dump(model, f)]: the bytes written to [f] and the exception
    raised, if any (the bytes are then those written before it). *)
Variable pickle_dump : Model -> blob * option exn.
(** [pickle.load(f)] on a file that holds the given bytes. *)
Variable pickle_loads : blob -> result Model.
(** The directory tree, which the program does not change: what each
    path names.  Access rights are not modelled. *)
Variable resolve : string -> location.

(** ** Data preparation *)

(** [if exogenous_cols: for col in exogenous_cols: if col in df.columns: ...] *)
Definition add_exogenous (df : dataframe) (exogenous_cols : list string)
           (prophet_df : frame) : frame :=
  fold_left (fun f col =>
               match getcol (data df) col with
               | Some c => setcol f col c
               | None => f
               end) exogenous_cols prophet_df.

(** [for i in range(7): prophet_df[f'day_{i}'] = (ds.dt.dayofweek == i).astype(int)] *)
Definition add_day_of_week (prophet_df : frame) : result frame :=
  for_each (fun f i =>
              let* ds := getitem f "ds" in
              let* dow := dt_field dayofweek ds in
              Ok (setcol f ("day_" ++ str_of_nat i) (eq_int (Z.of_nat i) dow)))
           (seq 0 7) prophet_df.

(** [for window in [7, 14]: rolling mean and standard deviation] *)
Definition add_rolling (target : column) (prophet_df : frame) : result frame :=
  for_each (fun f window =>
              let* m := rolling window (pandas_rolling Mean window) target in
              let f := setcol f ("rolling_mean_" ++ str_of_nat window ++ "d") m in
              let* s := rolling window (pandas_rolling Std window) target in
              Ok (setcol f ("rolling_std_" ++ str_of_nat window ++ "d") s))
           [7%nat; 14%nat] prophet_df.

Definition prepare_prophet_data (df : dataframe) (target_col : string)
           (exogenous_cols : list string) : result frame :=
  let* y := getitem (data df) target_col in
  let prophet_df := [("ds", map Stamp (index df)); ("y", y)] in
  let prophet_df := add_exogenous df exogenous_cols prophet_df in
  let* prophet_df := add_day_of_week prophet_df in
  let* ds := getitem prophet_df "ds" in
  let* dow := dt_field dayofweek ds in
  let prophet_df := setcol prophet_df "is_weekend" (isin_int [5%Z; 6%Z] dow) in
  let* ds := getitem prophet_df "ds" in
  let* m := dt_field month ds in
  let prophet_df := setcol prophet_df "month" (int_column m) in
  let* ds := getitem prophet_df "ds" in
  let* q := dt_field quarter ds in
  let prophet_df := setcol prophet_df "quarter" (int_column q) in
  let us_holidays := holidays US in
  let* ds := getitem prophet_df "ds" in
  let* h := in_calendar us_holidays ds in
  let prophet_df := setcol prophet_df "is_holiday" h in
  let* target := getitem (data df) target_col in
  let* prophet_df :=
    if negb (forallb isna target)
    then add_rolling target prophet_df
    else Ok prophet_df in
  Ok (map (fun nc => (fst nc, bfill (snd nc))) prophet_df).

(** ** Persistence *)

(** [with open(filepath, 'wb') as f: pickle.dump(model, f)]: what the
    call returns or raises, and the files afterwards.  Opening truncates
    the file, so after a failed dump the file holds what was written
    before the failure, not its former content. *)
Definition save_model (model : Model) (filepath : string) (fs : files)
  : result unit * files :=
  match resolve filepath with
  | Nowhere =>
      (Raise (FileNotFoundError ("No such file or directory: " ++ filepath)), fs)
  | Directory =>
      (Raise (IsADirectoryError ("Is a directory: " ++ filepath)), fs)
  | File file =>
      let '(written, failure) := pickle_dump model in
      (match failure with
       | None => Ok tt
       | Some e => Raise e
       end, <[file := written]> fs)
  end.

(** [os.path.exists(filepath)] *)
Definition path_exists (filepath : string) (fs : files) : bool :=
  match resolve filepath with
  | Nowhere => false
  | Directory => true
  | File file => bool_decide (is_Some (fs !! file))
  end.

Definition load_model (filepath : string) (fs : files) : result Model :=
  if negb (path_exists filepath fs)
  then Raise (FileNotFoundError ("No model file found at " ++ filepath))
  else
    match resolve filepath with
    | File file =>
        match fs !! file with
        | Some bytes => pickle_loads bytes
        | None => Raise (FileNotFoundError ("No such file or directory: " ++ filepath))
        end
    | Directory => Raise (IsADirectoryError ("Is a directory: " ++ filepath))
    | Nowhere => Raise (FileNotFoundError ("No such file or directory: " ++ filepath))
    end.

(** ** Prediction *)

Definition to_datetime (dates : dates_arg) : list date :=
  match dates with
  | OneDate d => [d]
  | DateList ds => ds
  end.

Definition in_list (s : string) (xs : list string) : bool :=
  existsb (String.eqb s) xs.

(** The body of [for col in reference_df.columns] in [predict_for_dates]. *)
Definition future_regressor (reference_df : frame) (us_holidays : date -> bool)
           (future_dates : frame) (col : string) : result frame :=
  if negb (in_list col ["ds"; "y"]) then
    if startswith col "day_" then
      let* part := Py.getitem (split col "_"%char) 1 in
      let* day_num := int_of_str part in
      let* ds := getitem future_dates "ds" in
      let* dow := dt_field dayofweek ds in
      Ok (setcol future_dates col (eq_int day_num dow))
    else if String.eqb col "is_weekend" then
      let* ds := getitem future_dates "ds" in
      let* dow := dt_field dayofweek ds in
      Ok (setcol future_dates col (isin_int [5%Z; 6%Z] dow))
    else if String.eqb col "month" then
      let* ds := getitem future_dates "ds" in
      let* m := dt_field month ds in
      Ok (setcol future_dates col (int_column m))
    else if String.eqb col "quarter" then
      let* ds := getitem future_dates "ds" in
      let* q := dt_field quarter ds in
      Ok (setcol future_dates col (int_column q))
    else if String.eqb col "is_holiday" then
      let* ds := getitem future_dates "ds" in
      let* h := in_calendar us_holidays ds in
      Ok (setcol future_dates col h)
    else
      let* ref := getitem reference_df col in
      let* v := iloc_last ref in
      let* ds := getitem future_dates "ds" in
      Ok (setcol future_dates col (map (fun _ => v) ds))
  else Ok future_dates.

(** The regressor frame [predict_for_dates] hands to the model. *)
Definition future_frame (dates : dates_arg) (reference_df : frame)
  : result frame :=
  let dates := to_datetime dates in
  let future_dates := [("ds", map Stamp dates)] in
  let us_holidays := holidays IN in
  for_each (future_regressor reference_df us_holidays)
           (columns reference_df) future_dates.

(** [forecast[[c1, ..., cn]]] *)
Fixpoint select (f : frame) (cols : list string) : result frame :=
  match cols with
  | [] => Ok []
  | c :: rest =>
      let* col := getitem f c in
      let* rest' := select f rest in
      Ok ((c, col) :: rest')
  end.

(** [predict_for_dates]: the forecast rows and the state in which the
    call leaves the random generator. *)
Definition predict_for_dates (dates : dates_arg) (model : Model)
           (reference_df : frame) (rs : random_state)
  : result (frame * random_state) :=
  let* future_dates := future_frame dates reference_df in
  let* drawn := predict model future_dates rs in
  let* rows := select (fst drawn) ["ds"; "yhat"; "yhat_lower"; "yhat_upper"] in
  Ok (rows, snd drawn).

Definition predict_with_loaded_model (filepath : string) (dates : dates_arg)
           (reference_df : frame) (fs : files) (rs : random_state)
  : result (frame * random_state) :=
  let* model := load_model filepath fs in
  predict_for_dates dates model reference_df rs.

End WithLibraries.

End Pipeline.

(* ===================================================================== *)
(** * MODEL/prophet_python.py: hyper-parameter search *)
(* ===================================================================== *)

Module Search.
Import Py Frame.

Record hyperparams := mkparams {
  changepoint_prior_scale : Q;
  seasonality_prior_scale : Q;
  holidays_prior_scale : Q;
  seasonality_mode : string
}.

(** The dictionary an objective returns to the optimiser. *)
Record trial_result := mktrial { loss : cell; status : string }.

Definition STATUS_OK : string := "ok".

(** [col.mean()]: the mean of the values present, missing when none
    is; an infinite value makes the mean infinite, and infinities of both
    signs make it missing. *)
Definition series_mean (col : column) : cell :=
  let present :=
    flat_map (fun c => match c with Num q => [q] | _ => [] end) col in
  let above := existsb (fun c => match c with Inf false => true | _ => false end) col in
  let below := existsb (fun c => match c with Inf true => true | _ => false end) col in
  if above && below then NaN
  else if above then Inf false
  else if below then Inf true
  else match present with
       | [] => NaN
       | _ => Num (mean present)
       end.

(** The forecasting library and the optimiser, as the script uses them. *)
Record library := mklib {
  Model : Type;
(** [Prophet(changepoint_prior_scale=..., ...)] *)
Prophet : hyperparams -> result Model;
add_regressor : Model -> string -> result Model;
fit : Model -> frame -> result Model;
(** [cross_validation(model, initial='366 days', period='30 days',
    horizon='30 days', parallel="processes")] *)
cross_validation : Model -> result frame;
performance_metrics : frame -> result frame;
(** [tpe.suggest]: the next candidate, given the trials so far. *)
suggest : list (hyperparams * trial_result) -> hyperparams
}.

Section WithLibrary.

Variable lib : library.
(** The module-level table [prophet_data]. *)
Variable prophet_data : frame.

Definition objective (params : hyperparams) : result trial_result :=
  let* model := Prophet lib params in
  let* model :=
    for_each (fun m col =>
                if negb (Pipeline.in_list col ["ds"; "y"])
                then add_regressor lib m col
                else Ok m)
             (columns prophet_data) model in
  let* model := fit lib model prophet_data in
  let* df_cv := cross_validation lib model in
  let* df_p := performance_metrics lib df_cv in
  let* rmse_col := getitem df_p "rmse" in
  let rmse := series_mean rmse_col in
  Ok (mktrial rmse STATUS_OK).

(** [fmin(fn, space, algo, max_evals, trials)]: one evaluation of [fn]
    per trial; an exception raised by [fn] is not caught by the
    optimiser (its [catch_eval_exceptions] option is off by default). *)
Fixpoint fmin (fn : hyperparams -> result trial_result) (max_evals : nat)
         (trials : list (hyperparams * trial_result))
  : result (list (hyperparams * trial_result)) :=
  match max_evals with
  | O => Ok trials
  | S n =>
      let params := suggest lib trials in
      let* r := fn params in
      fmin fn n (trials ++ [(params, r)])
  end.

(** [best = fmin(fn=objective, ..., max_evals=30, trials=Trials())] *)
Definition search : result (list (hyperparams * trial_result)) :=
  fmin objective 30 [].

End WithLibrary.

End Search.

(* ===================================================================== *)
(** * web_old/server/app.py: ingestion and health check *)
(* ===================================================================== *)

Module Ingest.
Import Calendar.

(** A submitted field: form text, or a JSON number (an integer of any
    size or a float). *)
Inductive pyval :=
| Text (s : string)
| Int (n : Z)
| Float (x : Py.float64).

(** The classes of [mysql.connector] errors the handlers tell apart. *)
Inductive mysql_class := IntegrityError | DataError | OtherError.

(** A connector error with its text, [str(e)]. *)
Record mysql_error := mkerr { cls : mysql_class; text : string }.

(** The messages of the [Exception]s the module raises itself. *)
Inductive message :=
| ConnectionFailed (detail : string)
| ConnectionNotActive
| OccupancyOutOfRange (occupancy_pct : Py.float64)
| RoomsSoldExceedInventory (rooms_sold total_inventory : Z)
| NegativeRevenue (room_revenue : Py.float64)
| NegativeARR (arr : Py.float64)
| DuplicateRecord
| InvalidUserReference
| ConstraintViolation (detail : string)
| ValuesOutOfRange
| DataValidationError (detail : string)
| SaveFailed (detail : string).

Inductive exn :=
| Builtin (e : Py.exn)
| MySQL (e : mysql_error)
| Exception (m : message)
(** [Exception(f"Unexpected error occurred: {e}")] *)
| Unexpected (cause : exn).

(** One row of the [hotel_data] table, in the order of the INSERT. *)
Record hotel_row := mkrow {
  total_room_inventory : Z;
  rooms_sold : Z;
  arrival_rooms : Z;
  compliment_rooms : Z;
  house_use : Z;
  individual_confirm : Z;
  occupancy_percentage : Py.float64;
  room_revenue : Py.float64;
  arr : Py.float64;
  departure_rooms : Z;
  ooo_rooms : Z;
  pax : Z;
  snapshot_date : date;
  arrival_date : date;
  actual_or_forecast : pyval;
  day_of_week : pyval;
  revenue_diff : Py.float64;
  created_by : string
}.

(** What the handlers ask of the connector, in order. *)
Inductive event :=
| Connect
| OpenCursor
| CallProc (total_inventory rooms_sold : Z) (occupancy_pct : Py.float64)
| ExecuteInsert (r : hotel_row)
| ExecuteSelect
| Commit
| CloseCursor
| CloseConnection.

(** The database server as seen during one request: which calls fail,
    and the name of the unique index of [hotel_data]. *)
Record server := mkserver {
  connect_fault : option string;
  active_after_connect : bool;
  procedure_fault : option mysql_error;
  insert_fault : option mysql_error;
  commit_fault : option mysql_error;
  select_fault : option mysql_error;
  connected_at_exit : bool;
  unique_key : string
}.

(** Local variables of a handler and the state of the store. *)
Record state := mkstate {
  connection : bool;
  cursor : bool;
  table : list hotel_row;
  pending : list hotel_row;
  trace : list event
}.

Definition M (A : Type) : Type := state -> (exn + A) * state.

Definition ret {A} (a : A) : M A := fun st => (inr a, st).

Definition raise {A} (e : exn) : M A := fun st => (inl e, st).

Definition bind {A B} (c : M A) (k : A -> M B) : M B :=
  fun st =>
    match c st with
    | (inr a, st') => k a st'
    | (inl e, st') => (inl e, st')
    end.

Definition emit (ev : event) : M unit :=
  fun st => (inr tt, mkstate (connection st) (cursor st) (table st)
                             (pending st) (trace st ++ [ev])).

Definition assign_connection : M unit :=
  fun st => (inr tt, mkstate true (cursor st) (table st) (pending st) (trace st)).

Definition assign_cursor : M unit :=
  fun st => (inr tt, mkstate (connection st) true (table st) (pending st) (trace st)).

Definition pyval_eqb (a b : pyval) : bool :=
  match a, b with
  | Text s, Text t => String.eqb s t
  | Int m, Int n => (m =? n)%Z
  | Float x, Float y => PrimFloat.Leibniz.eqb x y
  | _, _ => false
  end.

Definition date_eqb (a b : date) : bool :=
  (year a =? year b)%Z && (month a =? month b)%Z && (day a =? day b)%Z.

(** Two rows with the same (snapshot date, arrival date, actual/forecast). *)
Definition same_key (r1 r2 : hotel_row) : bool :=
  date_eqb (snapshot_date r1) (snapshot_date r2)
  && date_eqb (arrival_date r1) (arrival_date r2)
  && pyval_eqb (actual_or_forecast r1) (actual_or_forecast r2).

End Ingest.

Notation "'do' x <- c ; k" := (Ingest.bind c (fun x => k))
  (at level 10, x name, c at level 100, k at level 200).

Module App.
Import Calendar Ingest.

Section WithServer.

(** [float(s)] on a text: the float it reads ([nan] and the infinities
    among them), or [None] for its [ValueError]. *)
Variable float_of_str : string -> option Py.float64.
Variable srv : server.
(** [session.get('user')] *)
Variable session_user : option string.

(** [data[key]] *)
Definition item (data : gmap string pyval) (key : string) : M pyval :=
  match data !! key with
  | Some v => ret v
  | None => raise (Builtin (Py.KeyError key))
  end.

(** A built-in that returns or raises. *)
Definition builtin {A} (r : Py.result A) : M A :=
  match r with
  | Py.Ok a => ret a
  | Py.Raise e => raise (Builtin e)
  end.

(** [float(v)] *)
Definition float (v : pyval) : M Py.float64 :=
  match v with
  | Float x => ret x
  | Int n => builtin (Py.float_of_int n)
  | Text s =>
      match float_of_str s with
      | Some x => ret x
      | None => raise (Builtin (Py.ValueError "could not convert string to float"))
      end
  end.

(** [float(data[key])] *)
Definition float_item (data : gmap string pyval) (key : string) : M Py.float64 :=
  do v <- item data key; float v.

(** [int(float(data[key]))] *)
Definition int_item (data : gmap string pyval) (key : string) : M Z :=
  do x <- float_item data key; builtin (Py.int_of_float x).

Definition get_db_connection : M unit :=
  match connect_fault srv with
  | Some detail => raise (Exception (ConnectionFailed detail))
  | None =>
      do _ <- emit Connect;
      if active_after_connect srv
      then ret tt
      else raise (Exception ConnectionNotActive)
  end.

(** [cursor.callproc('ValidateHotelData', ...)] inside its own
    [try]/[except Error]: a failure is logged and ignored. *)
Definition validate_with_procedure (total_inventory rooms_sold : Z)
           (occupancy_pct : Py.float64) : M unit :=
  do _ <- emit (CallProc total_inventory rooms_sold occupancy_pct);
  match procedure_fault srv with
  | Some _ => ret tt
  | None => ret tt
  end.

Definition duplicate_text : string :=
  "1062 (23000): Duplicate entry for key '" ++ unique_key srv ++ "'".

(** Modelled from the spec: the schema of [hotel_data] is not part of
    the sources.  The store holds one row per (snapshot date, arrival
    date, actual/forecast) triple and enforces uniqueness on that
    triple; the connector reports a violation as an [IntegrityError]
    whose text names the violated index. *)
Definition execute_insert (r : hotel_row) : M unit :=
  do _ <- emit (ExecuteInsert r);
  match insert_fault srv with
  | Some e => raise (MySQL e)
  | None =>
      fun st =>
        if existsb (same_key r) (table st ++ pending st)
        then (inl (MySQL (mkerr IntegrityError duplicate_text)), st)
        else (inr tt, mkstate (connection st) (cursor st) (table st)
                              (pending st ++ [r]) (trace st))
  end.

(** [connection.commit()] *)
Definition commit : M unit :=
  do _ <- emit Commit;
  match commit_fault srv with
  | Some e => raise (MySQL e)
  | None =>
      fun st => (inr tt, mkstate (connection st) (cursor st)
                                 (table st ++ pending st) [] (trace st))
  end.

(** The [try] block of [save_hotel_data], up to the tuple [values]. *)
Definition build_values (data : gmap string pyval)
           (snapshot_date arrival_date : date) : M hotel_row :=
  do _ <- get_db_connection;
  do _ <- assign_connection;
  do _ <- emit OpenCursor;
  do _ <- assign_cursor;
  do occupancy_pct <- float_item data "Occupancy %";
  if PrimFloat.ltb occupancy_pct 0%float || PrimFloat.ltb 100%float occupancy_pct
  then raise (Exception (OccupancyOutOfRange occupancy_pct))
  else
  do total_inventory <- int_item data "Total Room Inventory";
  do rooms_sold <- int_item data "Rooms Sold";
  if (rooms_sold >? total_inventory)%Z
  then raise (Exception (RoomsSoldExceedInventory rooms_sold total_inventory))
  else
  do _ <- validate_with_procedure total_inventory rooms_sold occupancy_pct;
  do room_revenue <- float_item data "Room Revenue";
  do arr <- float_item data "ARR";
  if PrimFloat.ltb room_revenue 0%float
  then raise (Exception (NegativeRevenue room_revenue))
  else
  if PrimFloat.ltb arr 0%float
  then raise (Exception (NegativeARR arr))
  else
  do arrival_rooms <- int_item data "Arrival Rooms";
  do compliment_rooms <- int_item data "Compliment Rooms";
  do house_use <- int_item data "House Use";
  do individual_confirm <- int_item data "Individual Confirm";
  do departure_rooms <- int_item data "Departure Rooms";
  do ooo_rooms <- int_item data "OOO Rooms";
  do pax <- int_item data "Pax";
  do actual_or_forecast <- item data "actual_or_forecast";
  do day <- item data "Day";
  do revenue_diff <- float_item data "revenue_diff";
  ret (mkrow total_inventory rooms_sold arrival_rooms compliment_rooms
             house_use individual_confirm occupancy_pct room_revenue arr
             departure_rooms ooo_rooms pax snapshot_date arrival_date
             actual_or_forecast day revenue_diff
             (default "unknown" session_user)).

(** The whole [try] block: [cursor.execute(query, values)] and
    [connection.commit()] follow. *)
Definition save_try (data : gmap string pyval)
           (snapshot_date arrival_date : date) : M unit :=
  do values <- build_values data snapshot_date arrival_date;
  do _ <- execute_insert values;
  commit.

(** The [except] clauses of [save_hotel_data]: what is raised instead
    of the exception [e] that left the [try] block. *)
Definition save_except (e : exn) : exn :=
  match e with
  | MySQL (mkerr IntegrityError t) =>
      if Py.contains t "unique_entry" then Exception DuplicateRecord
      else if Py.contains (Py.lower t) "foreign key constraint"
           then Exception InvalidUserReference
           else Exception (ConstraintViolation t)
  | MySQL (mkerr DataError t) =>
      if Py.contains (Py.lower t) "out of range"
      then Exception ValuesOutOfRange
      else Exception (DataValidationError t)
  | MySQL (mkerr OtherError t) => Exception (SaveFailed t)
  | _ => Unexpected e
  end.

(** The [finally] clause shared by the handlers. *)
Definition close_all (st : state) : state :=
  let tr := trace st in
  let tr := if cursor st then (tr ++ [CloseCursor])%list else tr in
  let tr := if connection st && connected_at_exit srv
            then (tr ++ [CloseConnection])%list else tr in
  mkstate (connection st) (cursor st) (table st) [] tr.

(** The result of one call: the exception raised, if any, the table
    afterwards, and the calls made on the connector. *)
Record run := mkrun {
  outcome : option exn;
  table_after : list hotel_row;
  events : list event
}.

Definition initial (db : list hotel_row) : state :=
  mkstate false false db [] [].

Definition save_hotel_data (data : gmap string pyval)
           (snapshot_date arrival_date : date) (db : list hotel_row) : run :=
  let '(r, st) := save_try data snapshot_date arrival_date (initial db) in
  let st := close_all st in
  match r with
  | inr _ => mkrun None (table st) (trace st)
  | inl e => mkrun (Some (save_except e)) (table st) (trace st)
  end.

(** [health_check]: the status code of the response and the calls made. *)
Definition health_try : M unit :=
  do _ <- get_db_connection;
  do _ <- assign_connection;
  do _ <- emit OpenCursor;
  do _ <- assign_cursor;
  do _ <- emit ExecuteSelect;
  match select_fault srv with
  | Some e => raise (MySQL e)
  | None =>
      do _ <- emit CloseCursor;
      emit CloseConnection
  end.

Definition health_check (db : list hotel_row) : Z * list event :=
  let '(r, st) := health_try (initial db) in
  match r with
  | inr _ => (200%Z, trace st)
  | inl _ => (500%Z, trace st)
  end.

End WithServer.

End App.

(* ===================================================================== *)
(** * MODEL/prophet_python.py: regressors of a future frame *)
(* ===================================================================== *)

Module Forecasts.
Import Py Calendar Frame Pipeline.

Section WithLibraries.

Variable holidays : holiday_library.

(** [add_regressors(future_df, reference_df)]: the loop of
    [predict_for_dates] over the reference columns, run on the frame it
    is given and with the calendar [holidays.US()]. *)
Definition add_regressors (future_df reference_df : frame) : result frame :=
  let us_holidays := holidays US in
  for_each (future_regressor reference_df us_holidays)
           (columns reference_df) future_df.

End WithLibraries.

End Forecasts.

(* ===================================================================== *)
(** * web_old/server/model/prophet_python.py: retraining *)
(* ===================================================================== *)

Module Retraining.
Import Py Frame Pipeline.

(** The keyword arguments of [Prophet(...)]. *)
Record settings := mksettings {
  changepoint_prior_scale : Q;
  seasonality_prior_scale : Q;
  holidays_prior_scale : Q;
  seasonality_mode : string;
  weekly_seasonality : bool;
  yearly_seasonality : bool;
  daily_seasonality : bool
}.

(** The forecasting library and the serialiser, as the retraining uses
    them. *)
Record forecaster := mkforecaster {
  Model : Type;
  Prophet : settings -> result Model;
  add_regressor : Model -> string -> result Model;
  fit : Model -> frame -> result Model;
  pickle_dump : Model -> blob * option exn
}.

Section WithLibraries.

Variable holidays : Calendar.holiday_library.
Variable pandas_rolling : rolling_library.
Variable lib : forecaster.
Variable resolve : string -> location.

(** The statements of [retrain_model_with_new_data] before the model is
    saved. *)
Definition retrain (df : dataframe) (exog_cols : list string)
  : result (Model lib * frame) :=
  let* prophet_data :=
    prepare_prophet_data holidays pandas_rolling df "Room Revenue" exog_cols in
  let* model :=
    Prophet lib (mksettings (5 # 100) 10 10 "multiplicative" true true false) in
  let* model :=
    for_each (fun m col =>
                if negb (in_list col ["ds"; "y"])
                then add_regressor lib m col
                else Ok m)
             (columns prophet_data) model in
  let* model := fit lib model prophet_data in
  Ok (model, prophet_data).

(** [if model_path:] is false for [None] and for the empty text. *)
Definition path_given (model_path : option string) : option string :=
  match model_path with
  | Some path => if String.eqb path "" then None else Some path
  | None => None
  end.

(** [retrain_model_with_new_data(df, exog_cols, model_path)]: the value
    returned or the exception raised, and the files afterwards. *)
Definition retrain_model_with_new_data (df : dataframe)
           (exog_cols : list string) (model_path : option string)
           (fs : files)
  : result (Model lib * frame) * files :=
  match retrain df exog_cols with
  | Ok (model, prophet_data) =>
      match path_given model_path with
      | Some path =>
          match save_model (Model lib) (pickle_dump lib) resolve model path fs with
          | (Ok _, fs') => (Ok (model, prophet_data), fs')
          | (Raise e, fs') => (Raise e, fs')
          end
      | None => (Ok (model, prophet_data), fs)
      end
  | Raise e => (Raise e, fs)
  end.

End WithLibraries.

End Retraining.

(* ===================================================================== *)
(** * web_old/server/app.py: the connector, as the other handlers use it *)
(* ===================================================================== *)

Module Db.
Import Ingest.

(** What a handler asks of the connector; [Q] is the type of the
    statements it executes. *)
Inductive call (Q : Type) :=
| Connect
| OpenCursor
| Execute (q : Q)
| Commit
| CloseCursor
| CloseConnection.
Arguments Connect {Q}.
Arguments OpenCursor {Q}.
Arguments Execute {Q} q.
Arguments Commit {Q}.
Arguments CloseCursor {Q}.
Arguments CloseConnection {Q}.

(** Local variables of a handler, the state [S] of the store and the
    calls made so far. *)
Record state (S Q : Type) := mkstate {
  connection : bool;
  cursor : bool;
  store : S;
  trace : list (call Q)
}.
Arguments mkstate {S Q} connection cursor store trace.
Arguments connection {S Q} s.
Arguments cursor {S Q} s.
Arguments store {S Q} s.
Arguments trace {S Q} s.

Section Monad.

Context {S Q : Type}.

Definition M (A : Type) : Type := state S Q -> (exn + A) * state S Q.

Definition ret {A} (a : A) : M A := fun st => (inr a, st).

Definition raise {A} (e : exn) : M A := fun st => (inl e, st).

Definition bind {A B} (c : M A) (k : A -> M B) : M B :=
  fun st =>
    match c st with
    | (inr a, st') => k a st'
    | (inl e, st') => (inl e, st')
    end.

Definition emit (ev : call Q) : M unit :=
  fun st => (inr tt, mkstate (connection st) (cursor st) (store st)
                             (trace st ++ [ev])).

Definition assign_connection : M unit :=
  fun st => (inr tt, mkstate true (cursor st) (store st) (trace st)).

Definition assign_cursor : M unit :=
  fun st => (inr tt, mkstate (connection st) true (store st) (trace st)).

(** A built-in exception raised by a pure computation. *)
Definition lift {A} (r : Py.result A) : M A :=
  match r with
  | Py.Ok a => ret a
  | Py.Raise e => raise (Builtin e)
  end.

Variable srv : server.

(** [get_db_connection()], over the calls of these handlers. *)
Definition get_db_connection : M unit :=
  match connect_fault srv with
  | Some detail => raise (Exception (ConnectionFailed detail))
  | None =>
      bind (emit Connect)
           (fun _ => if active_after_connect srv
                     then ret tt
                     else raise (Exception ConnectionNotActive))
  end.

(** [cursor.execute(q)]: the statement fails with [fault], or the server
    answers [answer]. *)
Definition execute {A} (q : Q) (fault : option mysql_error)
           (answer : S -> A) : M A :=
  bind (emit (Execute q))
       (fun _ => match fault with
                 | Some e => raise (MySQL e)
                 | None => fun st => (inr (answer (store st)), st)
                 end).

(** The [finally] clause shared by the handlers. *)
Definition close_all (st : state S Q) : state S Q :=
  let tr := trace st in
  let tr := if cursor st then (tr ++ [CloseCursor])%list else tr in
  let tr := if connection st && connected_at_exit srv
            then (tr ++ [CloseConnection])%list else tr in
  mkstate (connection st) (cursor st) (store st) tr.

Definition initial (s : S) : state S Q := mkstate false false s [].

End Monad.

Arguments M S Q A : clear implicits.

End Db.

Notation "'exec' x <- c ; k" := (Db.bind c (fun x => k))
  (at level 10, x name, c at level 100, k at level 200).

(* ===================================================================== *)
(** * web_old/server/app.py: sessions and log-in *)
(* ===================================================================== *)

Module Auth.
Import Ingest Db.

(** One row of the [users] table, with the columns the queries name. *)
Record user_row := mkuser {
  id : Z;
  username : string;
  password_hash : string;
  full_name : string;
  role : string;
  is_active : bool;
  last_login : option Z
}.

(** The dictionary [verify_user] returns. *)
Record account := mkaccount {
  account_id : Z;
  account_username : string;
  account_full_name : string;
  account_role : string;
  account_is_active : bool
}.

(** The two statements of [verify_user]. *)
Inductive statement :=
| SelectUser (username password_hash : string)
| UpdateLastLogin (username : string).

(** The table, and the user name whose [last_login] update awaits the
    commit. *)
Record users_store := mkstore {
  users : list user_row;
  touched : option string
}.

(** The result of one call of [verify_user]. *)
Record verification := mkverification {
  verified : option account;
  users_after : list user_row;
  calls : list (call statement)
}.

(** Computations of [verify_user]. *)
Abbreviation Run := (M users_store statement).

(** The Flask session. *)
Abbreviation session := (gmap string string).

(** What [require_login] makes of a handler: the 401 JSON answer, the
    redirect to the log-in page, or the answer of the handler. *)
Inductive guarded (A : Type) :=
| AuthenticationRequired
| RedirectToLogin
| Served (a : A).
Arguments AuthenticationRequired {A}.
Arguments RedirectToLogin {A}.
Arguments Served {A} a.

(** [require_login(f)], for a request that is JSON or not. *)
Definition require_login {A} (s : session) (is_json : bool) (f : A) : guarded A :=
  match s !! "user" with
  | None => if is_json then AuthenticationRequired else RedirectToLogin
  | Some _ => Served f
  end.

(** The answers of [login]: the log-in page, with an error or without,
    or the redirect to the form. *)
Inductive login_reply :=
| LoginPage (error : option string)
| RedirectToForm.

(** [logout] and [api_logout]: the session after [session.pop('user', None)]. *)
Definition logout (s : session) : session := delete "user" s.

Section WithServer.

Variable srv : server.
(** The fault of the UPDATE statement, if it fails. *)
Variable update_fault : option mysql_error.
(** [hashlib.sha256(text.encode()).hexdigest()] *)
Variable sha256_hex : string -> string.
(** The comparison [=] of the server on the text columns of [users]. *)
Variable same_text : string -> string -> bool.
(** [CURRENT_TIMESTAMP] at the time of the request. *)
Variable now : Z.

Definition hash_password (password : string) : string := sha256_hex password.

(** [WHERE username = %s AND password_hash = %s AND is_active = TRUE] *)
Definition matches (name hash : string) (u : user_row) : bool :=
  same_text (username u) name && same_text (password_hash u) hash && is_active u.

(** [UPDATE users SET last_login = CURRENT_TIMESTAMP WHERE username = %s] *)
Definition touch (name : string) (u : user_row) : user_row :=
  if same_text (username u) name
  then mkuser (id u) (username u) (password_hash u) (full_name u) (role u)
              (is_active u) (Some now)
  else u.

(** [cursor.execute(update_query, (username,))]: the change is pending
    until the commit. *)
Definition execute_update (name : string) : Run unit :=
  exec _ <- execute (UpdateLastLogin name) update_fault (fun _ => tt);
  fun st => (inr tt, mkstate (connection st) (cursor st)
                             (mkstore (users (store st)) (Some name)) (trace st)).

(** [connection.commit()] *)
Definition commit : Run unit :=
  exec _ <- emit Commit;
  match commit_fault srv with
  | Some e => raise (MySQL e)
  | None =>
      fun st =>
        let table :=
          match touched (store st) with
          | Some name => map (touch name) (users (store st))
          | None => users (store st)
          end in
        (inr tt, mkstate (connection st) (cursor st) (mkstore table None) (trace st))
  end.

(** The [try] block of [verify_user]. *)
Definition verify_user_try (name password : string) : Run (option account) :=
  exec _ <- get_db_connection srv;
  exec _ <- assign_connection;
  exec _ <- emit OpenCursor;
  exec _ <- assign_cursor;
  let password_hash := hash_password password in
  exec user <- execute (SelectUser name password_hash) (select_fault srv)
                       (fun s => List.find (matches name password_hash) (users s));
  match user with
  | Some u =>
      exec _ <- execute_update name;
      exec _ <- commit;
      ret (Some (mkaccount (id u) (username u) (full_name u) (role u) (is_active u)))
  | None => ret None
  end.

(** [verify_user(username, password)]: both [except] clauses return
    [None]; the [finally] clause closes what was opened. *)
Definition verify_user (name password : string) (db : list user_row)
  : verification :=
  let '(r, st) := verify_user_try name password (initial (mkstore db None)) in
  let st := close_all srv st in
  mkverification match r with inr v => v | inl _ => None end
                 (users (store st)) (trace st).

(** [login]: the answer, the session and the table afterwards, and the
    calls made.  [is_get] tells a GET from a POST. *)
Definition login (is_get : bool) (form : gmap string string) (s : session)
           (db : list user_row)
  : login_reply * session * list user_row * list (call statement) :=
  if is_get then (LoginPage None, s, db, [])
  else
    let name := Py.strip (default "" (form !! "username")) in
    let password := Py.strip (default "" (form !! "password")) in
    if String.eqb name "" || String.eqb password ""
    then (LoginPage (Some "Username and password are required"), s, db, [])
    else
      let v := verify_user name password db in
      match verified v with
      | Some user =>
          let s := <["user" := account_username user]> s in
          let s := <["user_role" := account_role user]> s in
          let s := <["user_full_name" := account_full_name user]> s in
          (RedirectToForm, s, users_after v, calls v)
      | None =>
          (LoginPage (Some "Invalid username or password"), s, users_after v, calls v)
      end.

End WithServer.

End Auth.

(* ===================================================================== *)
(** * web_old/server/app.py: the form handler *)
(* ===================================================================== *)

Module Forms.
Import Calendar Ingest App Auth.

Definition required_fields : list string :=
  ["Total Room Inventory"; "Rooms Sold"; "Arrival Rooms"; "Compliment Rooms";
   "House Use"; "Individual Confirm"; "Occupancy %"; "Room Revenue"; "ARR";
   "Departure Rooms"; "OOO Rooms"; "Pax"; "snapshot_date"; "arrival_date";
   "actual_or_forecast"; "Day"; "revenue_diff"].

Definition numeric_fields : list string :=
  ["Total Room Inventory"; "Rooms Sold"; "Arrival Rooms"; "Compliment Rooms";
   "House Use"; "Individual Confirm"; "Occupancy %"; "Room Revenue"; "ARR";
   "Departure Rooms"; "OOO Rooms"; "Pax"; "revenue_diff"].

(** The answers of [submit]: four error texts and [redirect('/')]. *)
Inductive submit_reply :=
| MissingFields (fields : list string)
| InvalidDate
| InvalidNumber (field value : string)
| InternalError (e : exn)
| Saved.

(** The status code sent with each answer. *)
Definition status (r : submit_reply) : Z :=
  match r with
  | MissingFields _ | InvalidDate | InvalidNumber _ _ => 400
  | InternalError _ => 500
  | Saved => 302
  end.

(** The answer, the table afterwards and the calls made on the
    connector. *)
Record handled := mkhandled {
  reply : submit_reply;
  rows_after : list hotel_row;
  connector_calls : list event
}.

Section WithServer.

Variable float_of_str : string -> option Py.float64.
(** [datetime.strptime(text, "%Y-%m-%d").date()]; [None] is its
    [ValueError]. *)
Variable strptime : string -> option date.
Variable srv : server.

(** [field not in request.form or not request.form[field].strip()] *)
Definition blank (form : gmap string string) (field : string) : bool :=
  match form !! field with
  | None => true
  | Some v => String.eqb (Py.strip v) ""
  end.

Definition missing_fields (form : gmap string string) : list string :=
  List.filter (blank form) required_fields.

(** [{field: request.form[field].strip() for field in required_fields}] *)
Definition cleaned (form : gmap string string) : gmap string pyval :=
  fold_left (fun data field =>
               match form !! field with
               | Some v => <[field := Text (Py.strip v)]> data
               | None => data
               end) required_fields ∅.

(** [datetime.strptime(data[key], "%Y-%m-%d").date()]: the answer that
    ends the request, or the date. *)
Definition parse_date (data : gmap string pyval) (key : string)
  : submit_reply + date :=
  match data !! key with
  | Some (Text v) =>
      match strptime v with
      | Some d => inr d
      | None => inl InvalidDate
      end
  | Some (Int _) | Some (Float _) =>
      inl (InternalError (Builtin (Py.TypeError "strptime() argument 1 must be str")))
  | None => inl (InternalError (Builtin (Py.KeyError key)))
  end.

(** [for field in numeric_fields: float(data[field])], up to the first
    answer that ends the request. *)
Fixpoint check_numbers (data : gmap string pyval) (fields : list string)
  : option submit_reply :=
  match fields with
  | [] => None
  | field :: rest =>
      match data !! field with
      | Some (Text v) =>
          match float_of_str v with
          | Some _ => check_numbers data rest
          | None => Some (InvalidNumber field v)
          end
      | Some (Int n) =>
          match Py.float_of_int n with
          | Py.Ok _ => check_numbers data rest
          | Py.Raise e => Some (InternalError (Builtin e))
          end
      | Some (Float _) => check_numbers data rest
      | None => Some (InternalError (Builtin (Py.KeyError field)))
      end
  end.

(** The body of [submit]. *)
Definition submit_body (s : session) (form : gmap string string)
           (db : list hotel_row) : handled :=
  match missing_fields form with
  | _ :: _ => mkhandled (MissingFields (missing_fields form)) db []
  | [] =>
      let data := cleaned form in
      match parse_date data "snapshot_date" with
      | inl r => mkhandled r db []
      | inr snapshot_date =>
          match parse_date data "arrival_date" with
          | inl r => mkhandled r db []
          | inr arrival_date =>
              match check_numbers data numeric_fields with
              | Some r => mkhandled r db []
              | None =>
                  let r := save_hotel_data float_of_str srv (s !! "user") data
                                           snapshot_date arrival_date db in
                  match outcome r with
                  | Some e => mkhandled (InternalError e) (table_after r) (events r)
                  | None => mkhandled Saved (table_after r) (events r)
                  end
              end
          end
      end
  end.

(** [submit], behind [require_login]. *)
Definition submit (s : session) (is_json : bool) (form : gmap string string)
           (db : list hotel_row) : guarded handled :=
  require_login s is_json (submit_body s form db).

End WithServer.

End Forms.

(* ===================================================================== *)
(** * web_old/server/app.py: the paginated read *)
(* ===================================================================== *)

Module Reads.
Import Calendar Ingest Db Auth.

Definition upper_char (c : ascii) : ascii :=
  let n := nat_of_ascii c in
  if ((97 <=? n) && (n <=? 122))%nat then ascii_of_nat (n - 32) else c.

(** [s.upper()] on ASCII text. *)
Fixpoint upper (s : string) : string :=
  match s with
  | EmptyString => EmptyString
  | String c rest => String (upper_char c) (upper rest)
  end.

Definition valid_sort_fields : list string :=
  ["id"; "arrival_date"; "snapshot_date"; "occupancy_percentage";
   "room_revenue"; "arr"; "rooms_sold"; "total_room_inventory";
   "created_at"; "updated_at"].

(** The conditions of the WHERE clause, each with its parameter. *)
Inductive condition :=
| ArrivalFrom (day : string)
| ArrivalTo (day : string)
| KindIs (kind : string).

(** The two statements of [api_get_data]. *)
Inductive statement :=
| CountRows (conditions : list condition)
| SelectRows (conditions : list condition) (sort_by sort_order : string)
             (limit offset : Z).

Record pagination := mkpagination {
  page : Z;
  limit : Z;
  total_records : Z;
  total_pages : Z;
  has_next : bool;
  has_prev : bool
}.

(** The answers of [api_get_data]: an error with its status and code,
    or a page of records with the sort that was applied. *)
Inductive reply (J : Type) :=
| Failure (status : Z) (error_code : string)
| Page (records : list J) (p : pagination) (sort_by sort_order : string).
Arguments Failure {J} status error_code.
Arguments Page {J} records p sort_by sort_order.

(** The answer and the calls made on the connector. *)
Record fetched (J : Type) := mkfetched {
  answer : reply J;
  calls : list (call statement)
}.
Arguments mkfetched {J} answer calls.
Arguments answer {J} f.
Arguments calls {J} f.

(** [if value:] on an optional text. *)
Definition given (value : option string) : bool :=
  match value with
  | Some text => negb (String.eqb text "")
  | None => false
  end.

Section WithServer.

Variable srv : server.
(** The fault of the main SELECT, if it fails. *)
Variable page_fault : option mysql_error.
Variable strptime : string -> option date.
(** The rows of [hotel_data], and what is sent for each. *)
Variable R J : Type.
(** The rows that satisfy the conditions, and [ORDER BY]. *)
Variable matching : list condition -> list R.
Variable ordered : string -> string -> list R -> list R.
(** The conversion of the date fields of a record. *)
Variable jsonable : R -> J.

(** [int(request.args.get(name, default))] *)
Definition int_arg (args : gmap string string) (name : string) (default : Z)
  : Py.result Z :=
  match args !! name with
  | Some text => Py.int_of_str text
  | None => Py.Ok default
  end.

(** One date filter: the conditions with the new one, or [None] when
    the text is not a date (the handler answers 400). *)
Definition date_filter (value : option string) (make : string -> condition)
           (conditions : list condition) : option (list condition) :=
  match value with
  | Some text =>
      if given value
      then match strptime text with
           | Some _ => Some (conditions ++ [make text])%list
           | None => None
           end
      else Some conditions
  | None => Some conditions
  end.

(** [if actual_or_forecast and actual_or_forecast in ['actual', 'forecast']] *)
Definition kind_filter (value : option string) (conditions : list condition)
  : list condition :=
  match value with
  | Some text =>
      if given value && Pipeline.in_list text ["actual"; "forecast"]
      then (conditions ++ [KindIs text])%list
      else conditions
  | None => conditions
  end.

(** [LIMIT limit OFFSET offset] *)
Definition limited (limit offset : Z) (rows : list R) : list R :=
  firstn (Z.to_nat limit) (skipn (Z.to_nat offset) rows).

(** The [try] block of [api_get_data]. *)
Definition api_get_data_try (args : gmap string string)
  : M unit statement (reply J) :=
  let start_date := args !! "start_date" in
  let end_date := args !! "end_date" in
  let actual_or_forecast := args !! "actual_or_forecast" in
  exec page <- lift (int_arg args "page" 1);
  exec limit <- lift (int_arg args "limit" 50);
  let limit := Z.min limit 500 in
  let sort_by := default "arrival_date" (args !! "sort_by") in
  let sort_order := upper (default "desc" (args !! "sort_order")) in
  if (page <? 1)%Z then ret (Failure 400 "INVALID_PAGE")
  else if (limit <? 1)%Z then ret (Failure 400 "INVALID_LIMIT")
  else
  let sort_order :=
    if Pipeline.in_list sort_order ["ASC"; "DESC"] then sort_order else "DESC" in
  let sort_by :=
    if Pipeline.in_list sort_by valid_sort_fields then sort_by else "arrival_date" in
  exec _ <- get_db_connection srv;
  exec _ <- assign_connection;
  exec _ <- emit OpenCursor;
  exec _ <- assign_cursor;
  match date_filter start_date ArrivalFrom [] with
  | None => ret (Failure 400 "INVALID_DATE_FORMAT")
  | Some conditions =>
  match date_filter end_date ArrivalTo conditions with
  | None => ret (Failure 400 "INVALID_DATE_FORMAT")
  | Some conditions =>
  let conditions := kind_filter actual_or_forecast conditions in
  exec total_records <-
    execute (CountRows conditions) (select_fault srv)
            (fun _ => Z.of_nat (length (matching conditions)));
  let offset := ((page - 1) * limit)%Z in
  let total_pages := ((total_records + limit - 1) / limit)%Z in
  exec records <-
    execute (SelectRows conditions sort_by sort_order limit offset) page_fault
            (fun _ => limited limit offset
                              (ordered sort_by sort_order (matching conditions)));
  ret (Page (map jsonable records)
            (mkpagination page limit total_records total_pages
                          (page <? total_pages)%Z (page >? 1)%Z)
            sort_by (Py.lower sort_order))
  end
  end.

(** The body of [api_get_data]: any exception is answered with 500;
    the [finally] clause closes what was opened. *)
Definition api_get_data_body (args : gmap string string) : fetched J :=
  let '(r, st) := api_get_data_try args (initial tt) in
  let st := close_all srv st in
  mkfetched match r with
            | inr a => a
            | inl _ => Failure 500 "FETCH_ERROR"
            end
            (trace st).

(** [api_get_data], behind [require_login]. *)
Definition api_get_data (s : session) (is_json : bool)
           (args : gmap string string) : guarded (fetched J) :=
  require_login s is_json (api_get_data_body args).

End WithServer.

End Reads.

(* ===================================================================== *)
(** * The database settings of app.py and config.py *)
(* ===================================================================== *)

Module Settings.
Import Py.

Record db_config := mkconfig {
  host : string;
  database : string;
  user : string;
  password : string;
  port : Z
}.

(** [os.getenv(key, default)] *)
Definition getenv (env : gmap string string) (key default : string) : string :=
  match env !! key with
  | Some v => v
  | None => default
  end.

(** [os.environ.get(key) or default] *)
Definition get_or (env : gmap string string) (key default : string) : string :=
  match env !! key with
  | Some v => if String.eqb v "" then default else v
  | None => default
  end.

(** [DB_CONFIG] of app.py. *)
Definition DB_CONFIG (env : gmap string string) : result db_config :=
  let host := getenv env "DB_HOST" "localhost" in
  let database := getenv env "DB_NAME" "hotel_management_system" in
  let user := getenv env "DB_USER" "root" in
  let password := getenv env "DB_PASSWORD" "" in
  let* port := match env !! "DB_PORT" with
               | Some v => int_of_str v
               | None => Ok 3306%Z
               end in
  Ok (mkconfig host database user password port).

(** [Config.get_db_config()] of config.py. *)
Definition get_db_config (env : gmap string string) : result db_config :=
  let DB_HOST := get_or env "DB_HOST" "localhost" in
  let DB_USER := get_or env "DB_USER" "root" in
  let DB_PASSWORD := get_or env "DB_PASSWORD" "" in
  let DB_NAME := get_or env "DB_NAME" "hotel_management_system" in
  let* DB_PORT := match env !! "DB_PORT" with
                  | Some v => if String.eqb v "" then Ok 3306%Z else int_of_str v
                  | None => Ok 3306%Z
                  end in
  Ok (mkconfig DB_HOST DB_NAME DB_USER DB_PASSWORD DB_PORT).

End Settings.

(* ===================================================================== *)
(** * Vocabulary of the statements *)
(* ===================================================================== *)

(** ** Feature tables *)

Section FeatureVocabulary.
Import Py Calendar Frame Pipeline.

(** The name [f'day_{i}']. *)
Definition day_name (i : nat) : string := "day_" ++ str_of_nat i.

(** The dates of a column that holds timestamps only. *)
Fixpoint stamps (col : column) : option (list date) :=
  match col with
  | [] => Some []
  | Stamp d :: rest => option_map (cons d) (stamps rest)
  | _ :: _ => None
  end.

(** The table before the calendar columns are added. *)
Definition base_columns (df : dataframe) (exog : list string) (y : column) : frame :=
  add_exogenous df exog [("ds", map Stamp (index df)); ("y", y)].

(** The calendar columns, once the [ds] column is known to hold [dl]. *)
Definition calendar_columns (holidays : holiday_library) (f1 : frame) (dl : list date) : frame :=
  let dow := map (fun d => Some (dayofweek d)) dl in
  let f := fold_left (fun f i => setcol f (day_name i) (eq_int (Z.of_nat i) dow))
                     (seq 0 7) f1 in
  let f := setcol f "is_weekend" (isin_int [5%Z; 6%Z] dow) in
  let f := setcol f "month" (int_column (map (fun d => Some (month d)) dl)) in
  let f := setcol f "quarter" (int_column (map (fun d => Some (quarter d)) dl)) in
  setcol f "is_holiday" (map (fun d => of_bool (holidays US d)) dl).

(** The four rolling columns, as assigned by the loop over [7, 14]. *)
Definition rolled (pandas_rolling : rolling_library) (y : column) (fc : frame)
  : frame :=
  setcol
    (setcol
       (setcol
          (setcol fc "rolling_mean_7d" (rolling_values 7 (pandas_rolling Mean 7) y))
          "rolling_std_7d" (rolling_values 7 (pandas_rolling Std 7) y))
       "rolling_mean_14d" (rolling_values 14 (pandas_rolling Mean 14) y))
    "rolling_std_14d" (rolling_values 14 (pandas_rolling Std 14) y).

(** The column assigned for the reference column [col], when the
    requested dates are [dl]. *)
Definition regressor_column (holidays : holiday_library)
           (reference_df : frame) (dl : list date)
           (col : string) : result column :=
  let dow := map (fun d => Some (dayofweek d)) dl in
  if startswith col "day_" then
    let* part := Py.getitem (split col "_"%char) 1 in
    let* day_num := int_of_str part in
    Ok (eq_int day_num dow)
  else if String.eqb col "is_weekend" then Ok (isin_int [5%Z; 6%Z] dow)
  else if String.eqb col "month" then
    Ok (int_column (map (fun d => Some (month d)) dl))
  else if String.eqb col "quarter" then
    Ok (int_column (map (fun d => Some (quarter d)) dl))
  else if String.eqb col "is_holiday" then
    Ok (map (fun d => of_bool (holidays IN d)) dl)
  else
    let* ref := getitem reference_df col in
    let* v := iloc_last ref in
    Ok (map (fun _ => v) (map Stamp dl)).

(** Exactly one of [day_0 .. day_6] is 1 in row [i], the others are 0. *)
Definition exactly_one_day (f : frame) (i : nat) : Prop :=
  exists k, (k < 7)%nat /\
    forall j, (j < 7)%nat ->
      at_row f (day_name j) i = Some (Num (if (j =? k)%nat then 1 else 0)).

(** The last [W] cells up to row [r] (rows counted from 1), read by
    position. *)
Definition trailing_cells (W r : nat) (y : list cell) : list cell :=
  map (fun j => nth j y NaN) (seq (r - W) W).

(** The standard deviation, for a square root on the numbers. *)
Definition std (sqrt : Q -> Q) (qs : list Q) : Q := sqrt (var qs).

(** The statistic computed directly, in exact arithmetic, on the last
    [W] observations up to row [r]; it is undefined when one of them is
    missing. *)
Definition direct (agg : list Q -> Q) (W r : nat) (y : list cell) : cell :=
  match observations (trailing_cells W r y) with
  | Some qs => Num (agg qs)
  | None => NaN
  end.

(** The rows of the two rolling columns of one window size: what rows
    [W] to the end hold is given by [row_mean] and [row_std], and each
    earlier row holds what row [W] holds, which is not a missing
    value. *)
Definition rolling_rows (row_mean row_std : nat -> cell)
           (f : frame) (y : list cell) (W : nat) (suffix : string) : Prop :=
  exists mcol scol,
    getcol f ("rolling_mean_" ++ suffix) = Some mcol
    /\ getcol f ("rolling_std_" ++ suffix) = Some scol
    /\ (forall r, (W <= r <= length y)%nat ->
          mcol !! (r - 1)%nat = Some (row_mean r)
          /\ scol !! (r - 1)%nat = Some (row_std r))
    /\ (forall r, (1 <= r < W)%nat ->
          mcol !! (r - 1)%nat = mcol !! (W - 1)%nat
          /\ scol !! (r - 1)%nat = scol !! (W - 1)%nat
          /\ mcol !! (r - 1)%nat <> Some NaN
          /\ scol !! (r - 1)%nat <> Some NaN).

(** The claim about one window size: rows [W] to the end hold the
    statistic computed directly on the window. *)
Definition rolling_as_claimed (sqrt : Q -> Q) (f : frame) (y : list cell) (W : nat)
           (suffix : string) : Prop :=
  rolling_rows (fun r => direct mean W r y) (fun r => direct (std sqrt) W r y)
               f y W suffix.

(** What the code ensures: rows [W] to the end hold what pandas computes
    for the window that ends there, given the rows down to it. *)
Definition rolling_as_computed (pandas_rolling : rolling_library)
           (f : frame) (y : list cell) (W : nat) (suffix : string) : Prop :=
  rolling_rows (fun r => pandas_rolling Mean W (firstn r y))
               (fun r => pandas_rolling Std W (firstn r y))
               f y W suffix.

(** Every value of the series is a finite number. *)
Definition finite (y : list cell) : bool :=
  forallb (fun c => match c with Num _ => true | _ => false end) y.

(** pandas' statistics are defined (not NaN) on every full window of the
    series. *)
Definition defined_on (pandas_rolling : rolling_library) (y : list cell)
           (W : nat) : Prop :=
  forall stat r, (W <= r <= length y)%nat ->
    isna (pandas_rolling stat W (firstn r y)) = false.

(** The two window sizes with the suffix of their column names. *)
Definition windows : list (nat * string) := [(7%nat, "7d"); (14%nat, "14d")].

End FeatureVocabulary.

(** ** Sample data used to instantiate the statements *)

Module Sample.
Import Py Calendar Frame Pipeline.

(** Fixed-date national holidays of the two countries (a fragment of
    what the package knows, enough to tell the calendars apart). *)
Definition fixed_holidays : holiday_library :=
  fun c d =>
    match c with
    | US => existsb (fun md => (month d =? fst md)%Z && (day d =? snd md)%Z)
                    [(1, 1); (7, 4); (11, 11); (12, 25)]%Z
    | IN => existsb (fun md => (month d =? fst md)%Z && (day d =? snd md)%Z)
                    [(1, 26); (8, 15); (10, 2)]%Z
    end.

(** A rational approximation of the square root, to six decimals. *)
Definition approx_sqrt (q : Q) : Q :=
  Z.sqrt (Qnum q * Z.pos (Qden q) * 10 ^ 12) # (Qden q * 10 ^ 6).

Definition july (k : nat) : date := mkdate 2025 7 (Z.of_nat k).

Definition revenue (k : nat) : Q := inject_Z (1000 + 10 * Z.of_nat (k * k)).

(** Fifteen days of revenue, 1 to 15 July 2025. *)
Definition history : dataframe :=
  mkdf (map july (seq 1 15))
       [("Room Revenue", map (fun k => Num (revenue k)) (seq 1 15));
        ("Pax", map (fun k => Num (inject_Z (Z.of_nat (20 + k)))) (seq 1 15))].

(** A stand-in for pandas that computes in exact arithmetic, on the last
    [W] rows of the history alone. *)
Definition exact_rolling : rolling_library :=
  fun stat W history =>
    match observations (skipn (length history - W) history) with
    | Some qs => Num match stat with
                     | Mean => mean qs
                     | Std => approx_sqrt (var qs)
                     end
    | None => NaN
    end.

Definition prepared : frame :=
  Eval vm_compute in
    match prepare_prophet_data fixed_holidays exact_rolling history
                               "Room Revenue" ["Pax"; "ARR"] with
    | Ok f => f
    | Raise _ => []
    end.

Definition requested : dates_arg :=
  DateList [mkdate 2025 7 4; mkdate 2025 8 15; mkdate 2025 9 15].

Definition future : frame :=
  Eval vm_compute in
    match future_frame fixed_holidays requested prepared with
    | Ok f => f
    | Raise _ => []
    end.

(** Eight days whose first revenue is missing. *)
Definition gapped : dataframe :=
  mkdf (map july (seq 1 8))
       [("Room Revenue",
         NaN :: map (fun k => Num (inject_Z (Z.of_nat k))) (seq 1 7))].

(** Seven days without any revenue. *)
Definition blank : dataframe :=
  mkdf (map july (seq 1 7)) [("Room Revenue", repeat NaN 7)].

End Sample.

(** ** A toy model and a failing library *)

Section ModelVocabulary.
Import Py Calendar Frame Pipeline.

(** A toy model for instantiating the statements: its state is the
    list of bytes it is stored as; it forecasts the number of bytes and
    widens the interval by the random state. *)
Definition toy_predict (m : list Byte.byte) (future : frame) (rs : Z)
  : result (frame * Z) :=
  let* ds := getitem future "ds" in
  let level := Z.of_nat (length m) in
  Ok ([("ds", ds);
       ("yhat", map (fun _ => of_int level) ds);
       ("yhat_lower", map (fun _ => of_int (level - rs)) ds);
       ("yhat_upper", map (fun _ => of_int (level + rs)) ds);
       ("trend", map (fun _ => of_int level) ds)],
      (rs + 1)%Z).

(** The claim's scenario: predict with the model, save it, predict with
    the model loaded back.  The result holds the two forecasts. *)
Definition before_and_after (holidays : holiday_library) (Model random_state : Type)
           (predict : Model -> frame -> random_state -> result (frame * random_state))
           (pickle_dump : Model -> blob * option exn)
           (pickle_loads : blob -> result Model)
           (resolve : string -> location)
           (model : Model) (filepath : string) (dates : dates_arg)
           (reference_df : frame) (fs : files) (rs : random_state)
  : result (frame * frame) :=
  let* first := predict_for_dates holidays Model random_state predict
                                  dates model reference_df rs in
  let saved := save_model Model pickle_dump resolve model filepath fs in
  let* _ := fst saved in
  let* second := predict_with_loaded_model holidays Model random_state predict
                   pickle_loads resolve filepath dates reference_df
                   (snd saved) (snd first) in
  Ok (fst first, fst second).

(** One directory: every path but the empty one names the file of that
    name. *)
Definition flat (path : string) : location :=
  if String.eqb path "" then Nowhere else File path.

(** The toy model is stored as the bytes it consists of. *)
Definition toy_dump (m : list Byte.byte) : blob * option exn := (m, None).

End ModelVocabulary.

Section SearchVocabulary.
Import Py Frame Search.

(** A library whose cross-validation always fails for lack of history. *)
Definition short_history : exn :=
  ValueError "Less data than horizon after initial window".

Definition failing_library : library :=
  mklib unit
        (fun _ => Ok tt)
        (fun m _ => Ok m)
        (fun m _ => Ok m)
        (fun _ => Raise short_history)
        (fun df => Ok df)
        (fun _ => mkparams (1 # 20) 10 10 "additive").

(** The model on which a trial runs the cross-validation. *)
Definition fitted (lib : library) (prophet_data : frame) (params : hyperparams)
  : result (Model lib) :=
  let* model := Prophet lib params in
  let* model :=
    for_each (fun m col =>
                if negb (Pipeline.in_list col ["ds"; "y"])
                then add_regressor lib m col
                else Ok m)
             (columns prophet_data) model in
  fit lib model prophet_data.

End SearchVocabulary.

(** ** Ingestion *)

Section IngestVocabulary.
Import Calendar Ingest App.

(** What a built-in returns, when it returns. *)
Definition returned {A} (r : Py.result A) : option A :=
  match r with Py.Ok a => Some a | Py.Raise _ => None end.

(** [float(v)] as a partial function. *)
Definition as_float (float_of_str : string -> option Py.float64) (v : pyval)
  : option Py.float64 :=
  match v with
  | Float x => Some x
  | Int n => returned (Py.float_of_int n)
  | Text s => float_of_str s
  end.

(** [float(data[key])], when it returns. *)
Definition submitted (float_of_str : string -> option Py.float64)
           (data : gmap string pyval) (key : string) : option Py.float64 :=
  match data !! key with Some v => as_float float_of_str v | None => None end.

(** [int(float(data[key]))], when it returns. *)
Definition submitted_int (float_of_str : string -> option Py.float64)
           (data : gmap string pyval) (key : string) : option Z :=
  match submitted float_of_str data key with
  | Some x => returned (Py.int_of_float x)
  | None => None
  end.

(** The number a submitted value denotes: an integer is itself, a float
    its exact value, a text what [float] reads in it. *)
Definition denoted (float_of_str : string -> option Py.float64) (v : pyval)
  : option Q :=
  match v with
  | Int n => Some (inject_Z n)
  | Float x => Py.exact x
  | Text s => match float_of_str s with Some x => Py.exact x | None => None end
  end.

(** The number submitted under [key], when there is one. *)
Definition number_submitted (float_of_str : string -> option Py.float64)
           (data : gmap string pyval) (key : string) : option Q :=
  match data !! key with Some v => denoted float_of_str v | None => None end.

(** The calls that neither write nor close. *)
Definition quiet (ev : event) : bool :=
  match ev with Connect | OpenCursor | CallProc _ _ _ => true | _ => false end.

(** The state after one more call on the connector. *)
Definition logged (st : state) (ev : event) : state :=
  mkstate (connection st) (cursor st) (table st) (pending st) (trace st ++ [ev]).

(** [wp c st Q]: running [c] from [st] ends in a result and a state that
    satisfy [Q]. *)
Definition wp {A} (c : M A) (st : state) (Q : (exn + A) -> state -> Prop) : Prop :=
  Q (fst (c st)) (snd (c st)).

(** The submission breaks a range condition, as the code tests them:
    [float] of the occupancy below 0 or above 100 (neither holds of
    NaN), [int(float(...))] of the rooms sold above that of the
    inventory, [float] of the revenue or of the ARR below 0. *)
Definition range_violation (float_of_str : string -> option Py.float64)
           (data : gmap string pyval) : Prop :=
  (exists x, submitted float_of_str data "Occupancy %" = Some x
             /\ (PrimFloat.ltb x 0%float = true \/ PrimFloat.ltb 100%float x = true))
  \/ (exists sold inv,
        submitted_int float_of_str data "Rooms Sold" = Some sold
        /\ submitted_int float_of_str data "Total Room Inventory" = Some inv
        /\ (sold > inv)%Z)
  \/ (exists x, submitted float_of_str data "Room Revenue" = Some x
                /\ PrimFloat.ltb x 0%float = true)
  \/ (exists x, submitted float_of_str data "ARR" = Some x
                /\ PrimFloat.ltb x 0%float = true).

(** The range conditions as the claim words them, on the numbers
    submitted: occupancy outside [0, 100], rooms sold above the
    inventory, negative revenue, negative ARR. *)
Definition claimed_range_violation (float_of_str : string -> option Py.float64)
           (data : gmap string pyval) : Prop :=
  (exists q, number_submitted float_of_str data "Occupancy %" = Some q
             /\ (q < 0 \/ 100 < q)%Q)
  \/ (exists sold inv,
        number_submitted float_of_str data "Rooms Sold" = Some sold
        /\ number_submitted float_of_str data "Total Room Inventory" = Some inv
        /\ (inv < sold)%Q)
  \/ (exists q, number_submitted float_of_str data "Room Revenue" = Some q /\ (q < 0)%Q)
  \/ (exists q, number_submitted float_of_str data "ARR" = Some q /\ (q < 0)%Q).

(** The exceptions [save_hotel_data] raises for a range condition. *)
Definition range_error (e : exn) : bool :=
  match e with
  | Unexpected (Exception (OccupancyOutOfRange _))
  | Unexpected (Exception (RoomsSoldExceedInventory _ _))
  | Unexpected (Exception (NegativeRevenue _))
  | Unexpected (Exception (NegativeARR _)) => true
  | _ => false
  end.

Definition is_mysql (e : exn) : bool :=
  match e with MySQL _ => true | _ => false end.

Definition int_fields : list (string * (hotel_row -> Z)) :=
  [("Total Room Inventory", total_room_inventory);
   ("Rooms Sold", rooms_sold);
   ("Arrival Rooms", arrival_rooms);
   ("Compliment Rooms", compliment_rooms);
   ("House Use", house_use);
   ("Individual Confirm", individual_confirm);
   ("Departure Rooms", departure_rooms);
   ("OOO Rooms", ooo_rooms);
   ("Pax", pax)].

Definition float_fields : list (string * (hotel_row -> Py.float64)) :=
  [("Occupancy %", occupancy_percentage);
   ("Room Revenue", room_revenue);
   ("ARR", arr);
   ("revenue_diff", revenue_diff)].

(** How the row handed to the INSERT relates to the submission: a float
    field holds [float] of the value submitted, an integer field holds
    the exact value of that float truncated toward zero. *)
Definition stored_as (float_of_str : string -> option Py.float64)
           (session_user : option string) (data : gmap string pyval) (s a : date) (row : hotel_row)
  : Prop :=
  (forall key get, In (key, get) float_fields ->
      submitted float_of_str data key = Some (get row))
  /\ (forall key get, In (key, get) int_fields ->
        exists x q, submitted float_of_str data key = Some x
                    /\ Py.exact x = Some q /\ get row = Py.trunc q)
  /\ data !! "actual_or_forecast" = Some (actual_or_forecast row)
  /\ data !! "Day" = Some (day_of_week row)
  /\ snapshot_date row = s
  /\ arrival_date row = a
  /\ created_by row = default "unknown" session_user.

(** Every numeric field of the row equals the number submitted. *)
Definition persisted_as_submitted (float_of_str : string -> option Py.float64)
           (data : gmap string pyval) (row : hotel_row) : Prop :=
  (forall key get, In (key, get) float_fields ->
      exists q p, number_submitted float_of_str data key = Some q
                  /\ Py.exact (get row) = Some p /\ (p == q)%Q)
  /\ (forall key get, In (key, get) int_fields ->
        exists q, number_submitted float_of_str data key = Some q
                  /\ (inject_Z (get row) == q)%Q).

(** A computation whose result does not depend on the state it starts in. *)
Definition state_blind {A} (c : M A) : Prop :=
  forall st st', fst (c st) = fst (c st').

(** The [finally] clause, as the events it adds. *)
Definition closing (srv : server) (st : state) : list event :=
  ((if cursor st then [CloseCursor] else [])
     ++ (if connection st && connected_at_exit srv then [CloseConnection] else []))%list.

(** The four ways a call of [save_hotel_data] can go. *)
Inductive save_path (float_of_str : string -> option Py.float64) (srv : server)
          (session_user : option string)
          (data : gmap string pyval) (s a : date)
          (db : list hotel_row) (r : run) : Prop :=
| path_rejected e st1 :
    build_values float_of_str srv session_user data s a (initial db) = (inl e, st1) ->
    outcome r = Some (save_except e) ->
    table_after r = db ->
    events r = (trace st1 ++ closing srv st1)%list ->
    save_path float_of_str srv session_user data s a db r
| path_insert_refused row st1 me :
    build_values float_of_str srv session_user data s a (initial db) = (inr row, st1) ->
    insert_fault srv = Some me
    \/ (insert_fault srv = None /\ existsb (same_key row) db = true
        /\ me = mkerr IntegrityError (duplicate_text srv)) ->
    outcome r = Some (save_except (MySQL me)) ->
    table_after r = db ->
    events r = (trace st1 ++ [ExecuteInsert row] ++ closing srv st1)%list ->
    save_path float_of_str srv session_user data s a db r
| path_commit_failed row st1 me :
    build_values float_of_str srv session_user data s a (initial db) = (inr row, st1) ->
    insert_fault srv = None ->
    existsb (same_key row) db = false ->
    commit_fault srv = Some me ->
    outcome r = Some (save_except (MySQL me)) ->
    table_after r = db ->
    events r = (trace st1 ++ [ExecuteInsert row; Commit] ++ closing srv st1)%list ->
    save_path float_of_str srv session_user data s a db r
| path_stored row st1 :
    build_values float_of_str srv session_user data s a (initial db) = (inr row, st1) ->
    insert_fault srv = None ->
    existsb (same_key row) db = false ->
    commit_fault srv = None ->
    outcome r = None ->
    table_after r = (db ++ [row])%list ->
    events r = (trace st1 ++ [ExecuteInsert row; Commit] ++ closing srv st1)%list ->
    save_path float_of_str srv session_user data s a db r.

End IngestVocabulary.

(** ** Sample submissions *)

Module Submissions.
Import Calendar Ingest App.

(** A server on which every call succeeds. *)
Definition healthy : server :=
  mkserver None true None None None None true "unique_entry".

(** A server that accepts the connection and loses it during the query. *)
Definition dropping : server :=
  mkserver None true None None None
           (Some (mkerr OtherError "2013 (HY000): Lost connection to MySQL server during query"))
           true "unique_entry".

(** No text is accepted by [float]; the samples submit JSON numbers. *)
Definition numbers_only : string -> option Py.float64 := fun _ => None.

Definition submission (sold inventory occupancy revenue : pyval)
  : gmap string pyval :=
  list_to_map
    [("Total Room Inventory", inventory); ("Rooms Sold", sold);
     ("Arrival Rooms", Int 3); ("Compliment Rooms", Int 0);
     ("House Use", Int 0); ("Individual Confirm", Int 2);
     ("Occupancy %", occupancy); ("Room Revenue", revenue);
     ("ARR", Float 150.5); ("Departure Rooms", Int 1);
     ("OOO Rooms", Int 0); ("Pax", Int 12);
     ("snapshot_date", Text "2025-01-01"); ("arrival_date", Text "2025-01-02");
     ("actual_or_forecast", Text "actual"); ("Day", Text "Thursday");
     ("revenue_diff", Float 0)].

(** 2 to the power 53: from here on not every integer is a double. *)
Definition two53 : Z := 9007199254740992.

Definition snapshot : date := mkdate 2025 1 1.
Definition arrival : date := mkdate 2025 1 2.

Definition save (data : gmap string pyval) (db : list hotel_row) : run :=
  save_hotel_data numbers_only healthy (Some "alice") data snapshot arrival db.

End Submissions.

(** ** Further vocabulary: feature tables, retraining, handlers *)

Section MoreFeatureVocabulary.
Import Py Calendar Frame Pipeline.

(** The columns [prepare_prophet_data] derives from the dates. *)
Definition calendar_names : list string :=
  map day_name (seq 0 7) ++ ["is_weekend"; "month"; "quarter"; "is_holiday"].

Definition rolling_names : list string :=
  ["rolling_mean_7d"; "rolling_std_7d"; "rolling_mean_14d"; "rolling_std_14d"].

End MoreFeatureVocabulary.

Section RetrainVocabulary.
Import Py Frame Pipeline Retraining.

(** A library whose model is the bytes it is stored as, one per
    regressor; fitting needs at least two rows. *)
Definition counting_forecaster : forecaster :=
  mkforecaster (list Byte.byte)
               (fun _ => Ok [])
               (fun m _ => Ok (m ++ [Byte.x01])%list)
               (fun m df =>
                  match getcol df "ds" with
                  | Some (_ :: _ :: _) => Ok m
                  | _ => Raise (ValueError "Dataframe has less than 2 non-NaN rows.")
                  end)
               (fun m => (m, None)).

(** The same library with a serialiser that fails on a model with
    regressors, after writing the first byte. *)
Definition unpicklable_forecaster : forecaster :=
  mkforecaster (list Byte.byte)
               (Prophet counting_forecaster)
               (add_regressor counting_forecaster)
               (fit counting_forecaster)
               (fun m => match m with
                         | [] => ([], None)
                         | b :: _ => ([b], Some (TypeError "cannot pickle object"))
                         end).

End RetrainVocabulary.

Section MoreIngestVocabulary.
Import Calendar Ingest App.

(** A server that accepts the INSERT and loses the connection at the
    commit. *)
Definition commit_failing : server :=
  mkserver None true None None
           (Some (mkerr OtherError "2013 (HY000): Lost connection to MySQL server during query"))
           None true "unique_entry".

(** The calls that release a cursor or a connection. *)
Definition releases (ev : event) : bool :=
  match ev with CloseCursor | CloseConnection => true | _ => false end.

End MoreIngestVocabulary.

Section HandlerVocabulary.
Import Calendar Ingest Db Auth.

(** The calls that release a cursor or a connection. *)
Definition released {Q} (ev : call Q) : bool :=
  match ev with CloseCursor | CloseConnection => true | _ => false end.

(** The calls that execute a statement. *)
Definition executes {Q} (ev : call Q) : bool :=
  match ev with Execute _ => true | _ => false end.

(** The calls of [verify_user] that change the table. *)
Definition updates (ev : call statement) : bool :=
  match ev with
  | Execute (UpdateLastLogin _) | Commit => true
  | _ => false
  end.

(** The dictionary built from a row of [users]. *)
Definition account_of (u : user_row) : account :=
  mkaccount (id u) (username u) (full_name u) (role u) (is_active u).

End HandlerVocabulary.

Module Accounts.
Import Calendar Ingest Db Auth.

(** A toy digest: the text itself between two marks. *)
Definition toy_digest (text : string) : string := "<" ++ text ++ ">".

Definition alice : user_row :=
  mkuser 1 "alice" (toy_digest "secret") "Alice A." "manager" true None.

Definition bob : user_row :=
  mkuser 2 "bob" (toy_digest "hunter2") "Bob B." "clerk" false None.

Definition people : list user_row := [alice; bob].

Definition check (name password : string) : verification :=
  verify_user Submissions.healthy None toy_digest String.eqb 1700000000
              name password people.

End Accounts.

Module Posted.
Import Calendar Ingest App Auth Forms.

(** [float] on the decimal integers the sample form holds. *)
Definition float_of_digits (s : string) : option Py.float64 :=
  match Py.int_of_str s with
  | Py.Ok z => returned (Py.float_of_int z)
  | Py.Raise _ => None
  end.

(** [strptime] on the two dates the sample forms hold. *)
Definition two_dates (s : string) : option date :=
  if String.eqb s "2025-01-01" then Some (mkdate 2025 1 1)
  else if String.eqb s "2025-01-02" then Some (mkdate 2025 1 2)
  else None.

(** A filled-in form; [sold] is the text typed for the rooms sold. *)
Definition filled (sold : string) : gmap string string :=
  list_to_map
    [("Total Room Inventory", "10"); ("Rooms Sold", sold);
     ("Arrival Rooms", "3"); ("Compliment Rooms", "0");
     ("House Use", "0"); ("Individual Confirm", "2");
     ("Occupancy %", " 50 "); ("Room Revenue", "1000");
     ("ARR", "150"); ("Departure Rooms", "1");
     ("OOO Rooms", "0"); ("Pax", "12");
     ("snapshot_date", "2025-01-01"); ("arrival_date", "2025-01-02 ");
     ("actual_or_forecast", "actual"); ("Day", "Thursday");
     ("revenue_diff", "0")].

Definition signed_in : session := list_to_map [("user", "alice")].

Definition post (form : gmap string string) : handled :=
  submit_body float_of_digits two_dates Submissions.healthy signed_in form [].

End Posted.

Module Listing.
Import Calendar Ingest Db Auth Reads.

(** A table of seven records, numbered; no filter, no reordering. *)
Definition seven (conditions : list condition) : list nat := seq 1 7.

Definition as_stored (sort_by sort_order : string) (rows : list nat) : list nat :=
  rows.

Definition no_dates (text : string) : option date := None.

Definition read (args : gmap string string) : fetched nat :=
  api_get_data_body Submissions.healthy None no_dates nat nat seven as_stored
                    (fun r => r) args.

(** The second page of three records, sorted by a column that is not
    among the valid ones. *)
Definition second_page : gmap string string :=
  list_to_map [("page", "2"); ("limit", "3"); ("sort_by", "id; DROP TABLE hotel_data");
               ("sort_order", "asc")].

End Listing.

(* ===================================================================== *)
(** * Properties *)
(* ===================================================================== *)

(** ** Sanity checks of the primitives *)

Example str_of_nat_examples :
  map Py.str_of_nat [0; 7; 14; 100]%nat = ["0"; "7"; "14"; "100"].
Proof. reflexivity. Qed.

Example split_day_column : Py.split "day_3" "_"%char = ["day"; "3"].
Proof. reflexivity. Qed.

Example int_of_str_examples :
  Py.int_of_str "3" = Py.Ok 3%Z
  /\ Py.int_of_str " -42 " = Py.Ok (-42)%Z
  /\ Py.int_of_str "of" = Py.Raise (Py.ValueError "invalid literal for int() with base 10").
Proof. repeat split; reflexivity. Qed.

Example int_of_float_truncates :
  Py.int_of_float 10.5 = Py.Ok 10%Z
  /\ Py.int_of_float (-3.5) = Py.Ok (-3)%Z
  /\ Py.int_of_float PrimFloat.nan
     = Py.Raise (Py.ValueError "cannot convert float NaN to integer")
  /\ Py.int_of_float PrimFloat.infinity
     = Py.Raise (Py.OverflowError "cannot convert float infinity to integer").
Proof. repeat split; vm_compute; reflexivity. Qed.

(** [float] of an integer rounds to the nearest double, ties to even:
    2^53 + 1 becomes 2^53 and 2^53 + 3 becomes 2^53 + 4; an integer
    beyond the largest double raises. *)
Example float_of_int_rounds :
  Py.float_of_int 10 = Py.Ok 10%float
  /\ Py.float_of_int 9007199254740993 = Py.Ok 9007199254740992%float
  /\ Py.float_of_int 9007199254740995 = Py.Ok 9007199254740996%float
  /\ Py.float_of_int (-9007199254740993) = Py.Ok (-9007199254740992)%float
  /\ Py.float_of_int (2 ^ 1024)
     = Py.Raise (Py.OverflowError "int too large to convert to float").
Proof. repeat split; vm_compute; reflexivity. Qed.

(** NaN is neither below 0 nor above 100. *)
Example nan_passes_comparisons :
  PrimFloat.ltb PrimFloat.nan 0 = false /\ PrimFloat.ltb 100 PrimFloat.nan = false.
Proof. split; reflexivity. Qed.

(** 4 July 2025 is a Friday; 29 February 2024 is a Thursday. *)
Example dayofweek_examples :
  Calendar.dayofweek (Calendar.mkdate 2025 7 4) = 4%Z
  /\ Calendar.dayofweek (Calendar.mkdate 2024 2 29) = 3%Z
  /\ Calendar.toordinal (Calendar.mkdate 2025 7 4) = 739436%Z.
Proof. repeat split; reflexivity. Qed.

Example bfill_example :
  Frame.bfill [Frame.NaN; Frame.NaN; Frame.Num 4; Frame.NaN; Frame.Num 5; Frame.NaN]
  = [Frame.Num 4; Frame.Num 4; Frame.Num 4; Frame.Num 5; Frame.Num 5; Frame.NaN].
Proof. reflexivity. Qed.

Lemma some_eq {A} (x y : A) : Some x = Some y -> x = y.
Proof. intros H. congruence. Qed.

(** ** Frames: reading back what was assigned *)

Section FrameFacts.
Import Py Calendar Frame.

Lemma getcol_setcol (f : frame) (n m : string) (c : column) :
  getcol (setcol f n c) m = if String.eqb n m then Some c else getcol f m.
Proof.
  induction f as [|[k v] f IH]; simpl.
  - reflexivity.
  - destruct (String.eqb k n) eqn:Hkn; simpl.
    + apply String.eqb_eq in Hkn. subst k.
      destruct (String.eqb n m); reflexivity.
    + destruct (String.eqb k m) eqn:Hkm.
      * apply String.eqb_eq in Hkm. subst k.
        rewrite String.eqb_sym, Hkn. reflexivity.
      * exact IH.
Qed.

Lemma getcol_setcol_same (f : frame) (n : string) (c : column) :
  getcol (setcol f n c) n = Some c.
Proof. rewrite getcol_setcol, String.eqb_refl. reflexivity. Qed.

Lemma getcol_bfill_all (f : frame) (n : string) :
  getcol (map (fun nc => (fst nc, bfill (snd nc))) f) n
  = option_map bfill (getcol f n).
Proof.
  induction f as [|[k v] f IH]; simpl; [reflexivity|].
  destruct (String.eqb k n); [reflexivity | exact IH].
Qed.

Lemma getitem_Ok (f : frame) (n : string) (c : column) :
  getitem f n = Ok c <-> getcol f n = Some c.
Proof.
  unfold getitem. destruct (getcol f n); split; intros H;
    inversion H; reflexivity.
Qed.

(** *** Backward fill, by row *)

Lemma bfill_length (col : column) : length (bfill col) = length col.
Proof.
  induction col as [|x col IH]; simpl; [reflexivity|].
  destruct x; simpl; rewrite IH; reflexivity.
Qed.

Lemma bfill_cons (x : cell) (col : column) :
  exists y, bfill (x :: col) = y :: bfill col.
Proof. destruct x; simpl; eexists; reflexivity. Qed.

(** A value that is present stays. *)
Lemma bfill_present (col : column) (i : nat) (x : cell) :
  col !! i = Some x -> isna x = false -> bfill col !! i = Some x.
Proof.
  revert i. induction col as [|a col IH]; intros i Hi Hx.
  - destruct i; discriminate.
  - destruct i as [|i].
    + simpl in Hi. inversion Hi. subst a. destruct x; simpl in *;
        first [discriminate | reflexivity].
    + destruct (bfill_cons a col) as [y Hy]. rewrite Hy. simpl.
      apply IH; assumption.
Qed.

(** A run of missing rows [i .. k-1] followed by a value at row [k]:
    row [i] takes that value. *)
Lemma bfill_gap (col : column) (i k : nat) (x : cell) :
  (i <= k)%nat ->
  (forall j, (i <= j < k)%nat -> col !! j = Some NaN) ->
  col !! k = Some x -> isna x = false ->
  bfill col !! i = Some x.
Proof.
  revert i k. induction col as [|a col IH]; intros i k Hik Hrun Hk Hx.
  - destruct k; discriminate.
  - destruct i as [|i].
    + destruct k as [|k].
      * apply bfill_present; assumption.
      * assert (Ha : a = NaN).
        { specialize (Hrun 0%nat ltac:(lia)). simpl in Hrun. congruence. }
        subst a. simpl.
        assert (Hhead : bfill col !! 0%nat = Some x).
        { apply (IH 0%nat k); [lia | | exact Hk | exact Hx].
          intros j Hj. apply (Hrun (S j)). lia. }
        destruct (bfill col); simpl in *; congruence.
    + destruct k as [|k]; [lia|].
      destruct (bfill_cons a col) as [y Hy]. rewrite Hy. simpl.
      apply (IH i k); [lia | | exact Hk | exact Hx].
      intros j Hj. apply (Hrun (S j)). lia.
Qed.

(** A column without missing values is left as it is. *)
Lemma bfill_complete (col : column) :
  forallb (fun c => negb (isna c)) col = true -> bfill col = col.
Proof.
  induction col as [|a col IH]; simpl; [reflexivity|].
  intros H. apply andb_prop in H as [Ha Hc].
  destruct a; simpl in *; try discriminate; rewrite (IH Hc); reflexivity.
Qed.

End FrameFacts.

(** ** The feature table built by [prepare_prophet_data] *)

Section PrepareFacts.
Import Py Calendar Frame Pipeline.

Variable holidays : holiday_library.
Variable pandas_rolling : rolling_library.

Lemma getcol_setcol_ne (f : frame) (n m : string) (c : column) :
  String.eqb n m = false -> getcol (setcol f n c) m = getcol f m.
Proof. intros H. rewrite getcol_setcol, H. reflexivity. Qed.

Lemma getitem_setcol_ne (f : frame) (n m : string) (c : column) :
  String.eqb n m = false -> getitem (setcol f n c) m = getitem f m.
Proof.
  intros H. unfold getitem. rewrite getcol_setcol_ne by exact H. reflexivity.
Qed.

Lemma add_exogenous_keeps (df : dataframe) (exog : list string)
      (f : frame) (n : string) :
  is_Some (getcol f n) -> is_Some (getcol (add_exogenous df exog f) n).
Proof.
  unfold add_exogenous. revert f.
  induction exog as [|c exog IH]; intros f Hf; simpl; [exact Hf|].
  apply IH. destruct (getcol (data df) c); [|exact Hf].
  rewrite getcol_setcol.
  destruct (String.eqb c n); [eexists; reflexivity | exact Hf].
Qed.

Lemma stamps_Some (col : column) (dl : list date) :
  stamps col = Some dl -> col = map Stamp dl.
Proof.
  revert dl. induction col as [|a col IH]; intros dl H; simpl in H.
  - inversion H. reflexivity.
  - destruct a; try discriminate.
    destruct (stamps col) as [l|] eqn:E; try discriminate.
    inversion H. simpl. rewrite (IH l); reflexivity.
Qed.

Lemma in_calendar_stamps (cal : date -> bool) (col : column) :
  in_calendar cal col
  = match stamps col with
    | Some dl => Ok (map (fun d => of_bool (cal d)) dl)
    | None => Raise (TypeError "Cannot parse date")
    end.
Proof.
  induction col as [|a col IH]; simpl; [reflexivity|].
  destruct a; try reflexivity. rewrite IH. destruct (stamps col); reflexivity.
Qed.

Lemma in_calendar_on_stamps (cal : date -> bool) (dl : list date) :
  in_calendar cal (map Stamp dl) = Ok (map (fun d => of_bool (cal d)) dl).
Proof.
  induction dl as [|d dl IH]; simpl; [reflexivity|]. rewrite IH. reflexivity.
Qed.

Lemma dt_field_stamps (field : date -> Z) (dl : list date) :
  dt_field field (map Stamp dl) = Ok (map (fun d => Some (field d)) dl).
Proof.
  unfold dt_field.
  assert (datetimelike (map Stamp dl) = true) as ->.
  { unfold datetimelike. induction dl; simpl; auto. }
  f_equal. rewrite map_map. reflexivity.
Qed.

Ltac step_ds H :=
  repeat first
    [ rewrite H
    | rewrite getitem_setcol_ne by reflexivity
    | rewrite dt_field_stamps
    | rewrite in_calendar_on_stamps
    | progress cbn [bind] ].

Lemma prepare_on_stamps df target exog y dl :
  getcol (data df) target = Some y ->
  getcol (base_columns df exog y) "ds" = Some (map Stamp dl) ->
  prepare_prophet_data holidays pandas_rolling df target exog
  = (let* fr := if negb (forallb isna y)
                then add_rolling pandas_rolling y (calendar_columns holidays (base_columns df exog y) dl)
                else Ok (calendar_columns holidays (base_columns df exog y) dl) in
     Ok (map (fun nc => (fst nc, bfill (snd nc))) fr)).
Proof.
  intros Hy Hds. unfold prepare_prophet_data, base_columns in *.
  apply getitem_Ok in Hy. rewrite !Hy. cbn [bind].
  set (f1 := add_exogenous _ _ _) in *.
  apply getitem_Ok in Hds.
  unfold add_day_of_week. cbn [for_each seq bind].
  step_ds Hds. reflexivity.
Qed.

Lemma dt_field_like (field : date -> Z) (col : column) :
  datetimelike col = true -> exists s, dt_field field col = Ok s.
Proof. intros H. unfold dt_field. rewrite H. eexists; reflexivity. Qed.

(** A [ds] column with a cell that is not a timestamp makes the
    preparation fail. *)
Lemma prepare_needs_dates df target exog y dsc :
  getcol (data df) target = Some y ->
  getcol (base_columns df exog y) "ds" = Some dsc ->
  stamps dsc = None ->
  exists e, prepare_prophet_data holidays pandas_rolling df target exog = Raise e.
Proof.
  intros Hy Hds Hst. unfold prepare_prophet_data, base_columns in *.
  apply getitem_Ok in Hy. rewrite !Hy. cbn [bind].
  set (f1 := add_exogenous _ _ _) in *.
  apply getitem_Ok in Hds.
  unfold add_day_of_week. cbn [for_each seq bind].
  destruct (datetimelike dsc) eqn:Hlike.
  - destruct (dt_field_like dayofweek dsc Hlike) as [dow Hdow].
    destruct (dt_field_like month dsc Hlike) as [mo Hmo].
    destruct (dt_field_like quarter dsc Hlike) as [qu Hqu].
    repeat first
      [ rewrite Hds | rewrite Hdow | rewrite Hmo | rewrite Hqu
      | rewrite getitem_setcol_ne by reflexivity
      | progress cbn [bind] ].
    rewrite in_calendar_stamps, Hst. cbn [bind]. eexists; reflexivity.
  - rewrite Hds. cbn [bind]. unfold dt_field. rewrite Hlike. cbn [bind].
    eexists; reflexivity.
Qed.

Lemma prepare_inv df target exog f :
  prepare_prophet_data holidays pandas_rolling df target exog = Ok f ->
  exists y dl fr,
    getcol (data df) target = Some y
    /\ getcol (base_columns df exog y) "ds" = Some (map Stamp dl)
    /\ (if negb (forallb isna y)
        then add_rolling pandas_rolling y (calendar_columns holidays (base_columns df exog y) dl)
        else Ok (calendar_columns holidays (base_columns df exog y) dl)) = Ok fr
    /\ f = map (fun nc => (fst nc, bfill (snd nc))) fr.
Proof.
  intros H.
  destruct (getcol (data df) target) as [y|] eqn:Hy.
  2:{ unfold prepare_prophet_data, getitem in H. rewrite Hy in H. discriminate. }
  destruct (add_exogenous_keeps df exog [("ds", map Stamp (index df)); ("y", y)] "ds")
    as [dsc Hds]; [eexists; reflexivity|].
  fold (base_columns df exog y) in Hds.
  destruct (stamps dsc) as [dl|] eqn:Hst.
  - apply stamps_Some in Hst. subst dsc.
    rewrite (prepare_on_stamps df target exog y dl Hy Hds) in H.
    destruct (if negb (forallb isna y) then _ else _) as [fr|e] eqn:Hfr;
      cbn [bind] in H; [|discriminate].
    inversion H. exists y, dl, fr. repeat split; assumption.
  - destruct (prepare_needs_dates df target exog y dsc Hy Hds Hst) as [e He].
    congruence.
Qed.

End PrepareFacts.

Section PrepareColumns.
Import Py Calendar Frame Pipeline.

Variable holidays : holiday_library.
Variable pandas_rolling : rolling_library.

Lemma add_rolling_unfold (y : column) (fc : frame) :
  add_rolling pandas_rolling y fc
  = if numeric y then Ok (rolled pandas_rolling y fc)
    else Raise (TypeError "No numeric types to aggregate").
Proof.
  unfold add_rolling, rolling, rolled. cbn [for_each bind].
  destruct (numeric y); reflexivity.
Qed.

Lemma eq_int_complete (k : Z) (s : list (option Z)) :
  forallb (fun c => negb (isna c)) (eq_int k s) = true.
Proof.
  unfold eq_int. induction s as [|o s IH]; simpl; [reflexivity|]. exact IH.
Qed.

Lemma stamps_complete (dl : list date) :
  forallb (fun c => negb (isna c)) (map Stamp dl) = true.
Proof. induction dl as [|d dl IH]; simpl; [reflexivity|]. exact IH. Qed.

Lemma of_bool_complete {A} (p : A -> bool) (l : list A) :
  forallb (fun c => negb (isna c)) (map (fun a => of_bool (p a)) l) = true.
Proof. induction l as [|a l IH]; simpl; [reflexivity|]. exact IH. Qed.

Ltac read_col :=
  repeat first
    [ rewrite getcol_setcol_same
    | rewrite getcol_setcol_ne by reflexivity ].

(** A column that is not a rolling column is read from the calendar
    columns, whether or not the rolling columns were added. *)
Lemma getcol_after_rolling (y : column) (fc fr : frame) (n : string) :
  (if negb (forallb isna y) then add_rolling pandas_rolling y fc else Ok fc) = Ok fr ->
  Pipeline.in_list n ["rolling_mean_7d"; "rolling_std_7d";
                      "rolling_mean_14d"; "rolling_std_14d"] = false ->
  getcol fr n = getcol fc n.
Proof.
  intros Hfr Hn. simpl in Hn.
  rewrite !orb_false_r in Hn.
  repeat (apply orb_false_elim in Hn as [? Hn]).
  destruct (negb (forallb isna y)).
  - rewrite add_rolling_unfold in Hfr. destruct (numeric y); [|discriminate].
    inversion Hfr. unfold rolled.
    rewrite !getcol_setcol.
    rewrite (String.eqb_sym "rolling_std_14d"), (String.eqb_sym "rolling_mean_14d"),
      (String.eqb_sym "rolling_std_7d"), (String.eqb_sym "rolling_mean_7d").
    repeat match goal with H : String.eqb n _ = false |- _ => rewrite H; clear H end.
    reflexivity.
  - inversion Hfr. reflexivity.
Qed.

(** What [prepare_prophet_data] leaves in the columns the properties
    below talk about. *)
Lemma prepare_reads df target exog f :
  prepare_prophet_data holidays pandas_rolling df target exog = Ok f ->
  exists y dl,
    getcol (data df) target = Some y
    /\ getcol f "ds" = Some (map Stamp dl)
    /\ (forall k, (k < 7)%nat ->
          getcol f (day_name k)
          = Some (eq_int (Z.of_nat k) (map (fun d => Some (dayofweek d)) dl)))
    /\ getcol f "is_holiday" = Some (map (fun d => of_bool (holidays US d)) dl)
    /\ (forallb isna y = false ->
          numeric y = true
          /\ getcol f "rolling_mean_7d" = Some (bfill (rolling_values 7 (pandas_rolling Mean 7) y))
          /\ getcol f "rolling_std_7d" = Some (bfill (rolling_values 7 (pandas_rolling Std 7) y))
          /\ getcol f "rolling_mean_14d" = Some (bfill (rolling_values 14 (pandas_rolling Mean 14) y))
          /\ getcol f "rolling_std_14d" = Some (bfill (rolling_values 14 (pandas_rolling Std 14) y))).
Proof.
  intros H. apply prepare_inv in H as (y & dl & fr & Hy & Hds & Hfr & ->).
  exists y, dl. split; [exact Hy|].
  set (fc := calendar_columns holidays (base_columns df exog y) dl) in *.
  assert (Hfc_ds : getcol fc "ds" = Some (map Stamp dl)).
  { unfold fc, calendar_columns. cbn [fold_left seq]. read_col. exact Hds. }
  split.
  { rewrite getcol_bfill_all,
      (getcol_after_rolling y fc fr "ds" Hfr eq_refl), Hfc_ds.
    simpl. rewrite bfill_complete by apply stamps_complete. reflexivity. }
  split.
  { intros k Hk. rewrite getcol_bfill_all.
    assert (Hcol : getcol fc (day_name k)
                   = Some (eq_int (Z.of_nat k) (map (fun d => Some (dayofweek d)) dl))).
    { unfold fc, calendar_columns. cbn [fold_left seq].
      do 7 (destruct k as [|k]; [read_col; reflexivity|]). lia. }
    assert (Hnot : Pipeline.in_list (day_name k)
                     ["rolling_mean_7d"; "rolling_std_7d";
                      "rolling_mean_14d"; "rolling_std_14d"] = false)
      by reflexivity.
    rewrite (getcol_after_rolling y fc fr _ Hfr Hnot), Hcol. simpl.
    rewrite bfill_complete by apply eq_int_complete. reflexivity. }
  split.
  { rewrite getcol_bfill_all,
      (getcol_after_rolling y fc fr "is_holiday" Hfr eq_refl).
    unfold fc, calendar_columns. read_col. simpl.
    rewrite bfill_complete by apply of_bool_complete. reflexivity. }
  intros Hna. rewrite Hna in Hfr. cbn [negb] in Hfr.
  rewrite add_rolling_unfold in Hfr.
  destruct (numeric y); [|discriminate]. inversion Hfr.
  split; [reflexivity|].
  rewrite !getcol_bfill_all. unfold rolled.
  repeat split; read_col; reflexivity.
Qed.

(** *** The preparation returns a table *)

Lemma add_exogenous_other (df : dataframe) (exog : list string)
      (f : frame) (n : string) :
  ~ In n exog -> getcol (add_exogenous df exog f) n = getcol f n.
Proof.
  unfold add_exogenous. revert f.
  induction exog as [|c exog IH]; intros f Hn; simpl; [reflexivity|].
  rewrite IH by (intros H; apply Hn; right; exact H).
  destruct (getcol (data df) c); [|reflexivity].
  apply getcol_setcol_ne. apply String.eqb_neq. intros E. apply Hn. left. exact E.
Qed.

(** With a numeric target column present and no exogenous column named
    [ds], [prepare_prophet_data] raises nothing. *)
Lemma prepare_prophet_data_returns df target exog y :
  getcol (data df) target = Some y ->
  numeric y = true ->
  ~ In "ds" exog ->
  exists f, prepare_prophet_data holidays pandas_rolling df target exog = Ok f.
Proof.
  intros Hy Hn Hds.
  assert (Hbase : getcol (base_columns df exog y) "ds" = Some (map Stamp (index df))).
  { unfold base_columns. rewrite add_exogenous_other by exact Hds. reflexivity. }
  rewrite (prepare_on_stamps holidays pandas_rolling df target exog y (index df) Hy Hbase).
  destruct (negb (forallb isna y)).
  - rewrite add_rolling_unfold, Hn. eexists. reflexivity.
  - eexists. reflexivity.
Qed.

Lemma getcol_In (f : frame) (n : string) (c : list cell) :
  getcol f n = Some c -> In n (columns f).
Proof.
  induction f as [|[k v] f IH]; simpl; [discriminate|].
  destruct (String.eqb k n) eqn:E.
  - apply String.eqb_eq in E. intros _. left. exact E.
  - intros H. right. exact (IH H).
Qed.

(** Every prepared table carries the seven indicator columns and the
    holiday flag. *)
Lemma prepared_has_calendar_columns df target exog f :
  prepare_prophet_data holidays pandas_rolling df target exog = Ok f ->
  (forall k, (k < 7)%nat -> In (day_name k) (columns f))
  /\ In "is_holiday" (columns f).
Proof.
  intros H. apply prepare_reads in H as (y & dl & _ & _ & Hdays & Hhol & _).
  split.
  - intros k Hk. exact (getcol_In _ _ _ (Hdays k Hk)).
  - exact (getcol_In _ _ _ Hhol).
Qed.

End PrepareColumns.

(** ** The regressor frame built by [predict_for_dates] *)

Section FutureFacts.
Import Py Calendar Frame Pipeline.

Variable holidays : holiday_library.

Lemma future_regressor_on_stamps reference_df fd dl col :
  getcol fd "ds" = Some (map Stamp dl) ->
  in_list col ["ds"; "y"] = false ->
  future_regressor reference_df (holidays IN) fd col
  = (let* c := regressor_column holidays reference_df dl col in Ok (setcol fd col c)).
Proof.
  intros Hds Hcol. apply getitem_Ok in Hds.
  unfold future_regressor, regressor_column. rewrite Hcol. cbn [negb].
  destruct (startswith col "day_").
  { destruct (Py.getitem (split col "_"%char) 1); cbn [bind]; [|reflexivity].
    destruct (int_of_str a); cbn [bind]; [|reflexivity].
    rewrite Hds. cbn [bind]. rewrite dt_field_stamps. reflexivity. }
  repeat match goal with
         | |- context [String.eqb col ?s] => destruct (String.eqb col s)
         end;
    rewrite ?Hds; cbn [bind];
    rewrite ?dt_field_stamps, ?in_calendar_on_stamps; cbn [bind];
    try reflexivity.
  destruct (getitem reference_df col); cbn [bind]; [|reflexivity].
  destruct (iloc_last a); cbn [bind]; reflexivity.
Qed.

Lemma in_list_ds_y (c : string) :
  in_list c ["ds"; "y"] = false -> String.eqb c "ds" = false.
Proof.
  unfold in_list. simpl. intros H.
  apply orb_false_elim in H as [H _]. exact H.
Qed.

(** The loop over the reference columns keeps [ds] and ends with every
    column it assigned holding the column computed for its name. *)
Lemma future_loop reference_df dl cols fd ff :
  for_each (future_regressor reference_df (holidays IN)) cols fd = Ok ff ->
  getcol fd "ds" = Some (map Stamp dl) ->
  getcol ff "ds" = Some (map Stamp dl)
  /\ forall c v,
      in_list c ["ds"; "y"] = false ->
      regressor_column holidays reference_df dl c = Ok v ->
      In c cols \/ getcol fd c = Some v ->
      getcol ff c = Some v.
Proof.
  revert fd. induction cols as [|a cols IH]; intros fd Hrun Hds.
  - simpl in Hrun. inversion Hrun. subst ff. split; [exact Hds|].
    intros c v _ _ [[]|H]. exact H.
  - cbn [for_each] in Hrun.
    destruct (in_list a ["ds"; "y"]) eqn:Ha.
    + assert (Hskip : future_regressor reference_df (holidays IN) fd a = Ok fd).
      { unfold future_regressor. rewrite Ha. reflexivity. }
      rewrite Hskip in Hrun. cbn [bind] in Hrun.
      destruct (IH fd Hrun Hds) as [Hds' Hcols]. split; [exact Hds'|].
      intros c v Hc Hv [[Heq|Hin]|Hfd].
      * subst a. congruence.
      * apply Hcols; auto.
      * apply Hcols; auto.
    + rewrite (future_regressor_on_stamps reference_df fd dl a Hds Ha) in Hrun.
      destruct (regressor_column holidays reference_df dl a) as [va|e] eqn:Hva;
        cbn [bind] in Hrun; [|discriminate].
      assert (Hds1 : getcol (setcol fd a va) "ds" = Some (map Stamp dl)).
      { rewrite getcol_setcol, (in_list_ds_y a Ha). exact Hds. }
      destruct (IH (setcol fd a va) Hrun Hds1) as [Hds' Hcols].
      split; [exact Hds'|].
      intros c v Hc Hv Hwhere. apply Hcols; [exact Hc | exact Hv |].
      destruct (String.eqb a c) eqn:Hac.
      * apply String.eqb_eq in Hac. subst c. right.
        rewrite getcol_setcol_same. congruence.
      * destruct Hwhere as [[Heq|Hin]|Hfd].
        -- subst c. rewrite String.eqb_refl in Hac. discriminate.
        -- left. exact Hin.
        -- right. rewrite getcol_setcol, Hac. exact Hfd.
Qed.

Lemma future_frame_reads dates reference_df ff :
  future_frame holidays dates reference_df = Ok ff ->
  getcol ff "ds" = Some (map Stamp (to_datetime dates))
  /\ forall c v,
      In c (columns reference_df) ->
      in_list c ["ds"; "y"] = false ->
      regressor_column holidays reference_df (to_datetime dates) c = Ok v ->
      getcol ff c = Some v.
Proof.
  unfold future_frame. intros Hrun.
  destruct (future_loop reference_df (to_datetime dates) _ _ ff Hrun eq_refl)
    as [Hds Hcols].
  split; [exact Hds|]. intros c v Hin Hc Hv. apply (Hcols c v Hc Hv). left. exact Hin.
Qed.

(** When a column can be computed for every reference column, the
    regressor frame is built. *)
Lemma future_frame_returns dates reference_df :
  (forall c, In c (columns reference_df) ->
             in_list c ["ds"; "y"] = false ->
             exists v, regressor_column holidays reference_df (to_datetime dates) c = Ok v) ->
  exists ff, future_frame holidays dates reference_df = Ok ff.
Proof.
  unfold future_frame.
  generalize (columns reference_df) as cols.
  assert (Hloop : forall cols fd,
             getcol fd "ds" = Some (map Stamp (to_datetime dates)) ->
             (forall c, In c cols -> in_list c ["ds"; "y"] = false ->
                        exists v, regressor_column holidays reference_df (to_datetime dates) c = Ok v) ->
             exists ff, for_each (future_regressor reference_df (holidays IN)) cols fd
                        = Ok ff).
  { induction cols as [|a cols IH]; intros fd Hds Hall.
    - eexists. reflexivity.
    - cbn [for_each].
      destruct (in_list a ["ds"; "y"]) eqn:Ha.
      + assert (Hskip : future_regressor reference_df (holidays IN) fd a = Ok fd).
        { unfold future_regressor. rewrite Ha. reflexivity. }
        rewrite Hskip. cbn [bind].
        apply IH; [exact Hds|]. intros c Hc. apply Hall. right. exact Hc.
      + rewrite (future_regressor_on_stamps reference_df fd _ a Hds Ha).
        destruct (Hall a (or_introl eq_refl) Ha) as [v Hv]. rewrite Hv. cbn [bind].
        apply IH.
        * rewrite getcol_setcol, (in_list_ds_y a Ha). exact Hds.
        * intros c Hc. apply Hall. right. exact Hc. }
  intros cols Hall. apply Hloop; [reflexivity|exact Hall].
Qed.

End FutureFacts.

(** ** Day-of-week indicators and the holiday flag *)

Section CalendarFeatures.
Import Py Calendar Frame Pipeline.

Lemma lookup_map {A B} (g : A -> B) (l : list A) (i : nat) :
  map g l !! i = option_map g (l !! i).
Proof.
  revert i. induction l as [|a l IH]; intros [|i]; simpl; auto.
Qed.

Lemma lookup_stamps (dl : list date) (i : nat) (c : cell) :
  map Stamp dl !! i = Some c -> exists d, dl !! i = Some d /\ c = Stamp d.
Proof.
  rewrite lookup_map. destruct (dl !! i) as [d|]; simpl; intros H;
    inversion H. exists d. split; reflexivity.
Qed.

Lemma dayofweek_range (d : date) : (0 <= dayofweek d < 7)%Z.
Proof. unfold dayofweek. apply Z.mod_pos_bound. lia. Qed.

(** In a frame whose [ds] column holds [dl] and whose indicator columns
    compare the day of the week with their index, every row is one-hot. *)
Lemma one_hot_rows (f : frame) (dl : list date) (i : nat) (c : cell) :
  getcol f "ds" = Some (map Stamp dl) ->
  (forall k, (k < 7)%nat ->
     getcol f (day_name k)
     = Some (eq_int (Z.of_nat k) (map (fun d => Some (dayofweek d)) dl))) ->
  at_row f "ds" i = Some c ->
  exists d, c = Stamp d
            /\ at_row f (day_name (Z.to_nat (dayofweek d))) i = Some (Num 1)
            /\ exactly_one_day f i.
Proof.
  intros Hds Hdays Hrow. unfold at_row in Hrow. rewrite Hds in Hrow.
  apply lookup_stamps in Hrow as (d & Hd & ->).
  pose proof (dayofweek_range d) as Hrange.
  assert (Hcell : forall j, (j < 7)%nat ->
            at_row f (day_name j) i
            = Some (Num (if (j =? Z.to_nat (dayofweek d))%nat then 1 else 0))).
  { intros j Hj. unfold at_row. rewrite (Hdays j Hj).
    unfold eq_int. rewrite !lookup_map, Hd. simpl. unfold of_bool.
    replace (dayofweek d =? Z.of_nat j)%Z with (j =? Z.to_nat (dayofweek d))%nat;
      [reflexivity|].
    destruct (Nat.eqb_spec j (Z.to_nat (dayofweek d))) as [E|E];
      symmetry; [apply Z.eqb_eq | apply Z.eqb_neq]; lia. }
  exists d. split; [reflexivity|]. split.
  - rewrite Hcell by lia. rewrite Nat.eqb_refl. reflexivity.
  - exists (Z.to_nat (dayofweek d)). split; [lia | exact Hcell].
Qed.

Lemma regressor_column_day holidays reference_df dl k :
  (k < 7)%nat ->
  regressor_column holidays reference_df dl (day_name k)
  = Ok (eq_int (Z.of_nat k) (map (fun d => Some (dayofweek d)) dl)).
Proof.
  intros Hk. do 7 (destruct k as [|k]; [reflexivity|]). lia.
Qed.

(** C9 (amended). In every feature row produced for a date by
    [prepare_prophet_data], and in every feature row produced by
    [predict_for_dates] for a requested date when the reference table
    carries the seven indicator columns, exactly one of
    [day_0 .. day_6] is 1 and the other six are 0. *)
Theorem day_of_week_one_hot :
  (forall holidays pandas_rolling df target exog f i c,
      prepare_prophet_data holidays pandas_rolling df target exog = Ok f ->
      at_row f "ds" i = Some c ->
      exactly_one_day f i)
  /\
  (forall holidays dates reference_df ff i c,
      future_frame holidays dates reference_df = Ok ff ->
      (forall k, (k < 7)%nat -> In (day_name k) (columns reference_df)) ->
      at_row ff "ds" i = Some c ->
      exactly_one_day ff i).
Proof.
  split.
  - intros holidays pandas_rolling df target exog f i c Hrun Hrow.
    apply prepare_reads in Hrun as (y & dl & _ & Hds & Hdays & _).
    destruct (one_hot_rows f dl i c Hds Hdays Hrow) as (d & _ & _ & H).
    exact H.
  - intros holidays dates reference_df ff i c Hrun Hcols Hrow.
    apply future_frame_reads in Hrun as [Hds Hread].
    assert (Hdays : forall k, (k < 7)%nat ->
              getcol ff (day_name k)
              = Some (eq_int (Z.of_nat k)
                             (map (fun d => Some (dayofweek d)) (to_datetime dates)))).
    { intros k Hk. apply Hread.
      - apply Hcols, Hk.
      - do 7 (destruct k as [|k]; [reflexivity|]). lia.
      - apply regressor_column_day, Hk. }
    destruct (one_hot_rows ff _ i c Hds Hdays Hrow) as (d & _ & _ & H).
    exact H.
Qed.

Lemma day_of_week_one_hot_witness :
  exactly_one_day Sample.prepared 3 /\ exactly_one_day Sample.future 1.
Proof.
  split.
  - apply (proj1 day_of_week_one_hot Sample.fixed_holidays Sample.exact_rolling
                 Sample.history "Room Revenue" ["Pax"; "ARR"] Sample.prepared
                 3%nat (Stamp (mkdate 2025 7 4))).
    + vm_compute. reflexivity.
    + vm_compute. reflexivity.
  - apply (proj2 day_of_week_one_hot Sample.fixed_holidays Sample.requested
                 Sample.prepared Sample.future 1%nat (Stamp (mkdate 2025 8 15))).
    + vm_compute. reflexivity.
    + intros k Hk. do 7 (destruct k as [|k]; [vm_compute; tauto|]). lia.
    + vm_compute. reflexivity.
Defined.

(** C9 as stated fails for [predict_for_dates]: it derives the
    indicator columns its reference table has, and no other.  With a
    reference table that has [day_0] alone, the row built for Friday
    4 July 2025 has a single indicator, which is 0. *)
Lemma day_of_week_one_hot_counterexample :
  exists ff,
    future_frame Sample.fixed_holidays (OneDate (mkdate 2025 7 4))
                 [("ds", [Stamp (mkdate 2025 7 1)]); ("y", [Num 1]);
                  ("day_0", [Num 0])]
    = Ok ff
    /\ columns ff = ["ds"; "day_0"]
    /\ at_row ff "ds" 0 = Some (Stamp (mkdate 2025 7 4))
    /\ at_row ff "day_0" 0 = Some (Num 0)
    /\ ~ exactly_one_day ff 0.
Proof.
  eexists. split; [vm_compute; reflexivity|].
  split; [reflexivity|]. split; [reflexivity|]. split; [reflexivity|].
  intros (k & _ & Hk). specialize (Hk 1%nat ltac:(lia)).
  vm_compute in Hk. discriminate.
Qed.

Lemma of_bool_inj (a b : bool) : of_bool a = of_bool b -> a = b.
Proof. destruct a, b; unfold of_bool; intros H; congruence. Qed.

Lemma regressor_column_holiday holidays reference_df dl :
  regressor_column holidays reference_df dl "is_holiday"
  = Ok (map (fun d => of_bool (holidays IN d)) dl).
Proof. reflexivity. Qed.

(** The flag of a historical row is looked up in the US calendar. *)
Lemma historical_holiday_flag holidays pandas_rolling df target exog f i d :
  prepare_prophet_data holidays pandas_rolling df target exog = Ok f ->
  at_row f "ds" i = Some (Stamp d) ->
  at_row f "is_holiday" i = Some (of_bool (holidays US d)).
Proof.
  intros Hrun Hrow.
  apply prepare_reads in Hrun as (y & dl & _ & Hds & _ & Hhol & _).
  unfold at_row in *. rewrite Hds in Hrow. rewrite Hhol.
  apply lookup_stamps in Hrow as (d' & Hd & E). inversion E. subst d'.
  rewrite lookup_map, Hd. reflexivity.
Qed.

(** The flag of a requested date is looked up in the Indian calendar. *)
Lemma requested_holiday_flag holidays dates reference_df ff j d :
  future_frame holidays dates reference_df = Ok ff ->
  In "is_holiday" (columns reference_df) ->
  at_row ff "ds" j = Some (Stamp d) ->
  at_row ff "is_holiday" j = Some (of_bool (holidays IN d)).
Proof.
  intros Hrun Hcol Hrow.
  apply future_frame_reads in Hrun as [Hds Hread].
  unfold at_row in *. rewrite Hds in Hrow.
  rewrite (Hread "is_holiday" _ Hcol eq_refl
                 (regressor_column_holiday holidays reference_df _)).
  apply lookup_stamps in Hrow as (d' & Hd & E). inversion E. subst d'.
  rewrite lookup_map, Hd. reflexivity.
Qed.

(** C1. The holiday flag of the historical features is derived from one
    national calendar (US) and the flag of the requested prediction
    dates from another (IN): for a date on which the two calendars
    disagree, the [is_holiday] value computed by [prepare_prophet_data]
    differs from the one computed by [predict_for_dates] for that date. *)
Theorem holiday_calendars_differ :
  forall (holidays : holiday_library) (d : date),
    holidays US d <> holidays IN d ->
    forall pandas_rolling df target exog f i dates reference_df ff j,
      prepare_prophet_data holidays pandas_rolling df target exog = Ok f ->
      at_row f "ds" i = Some (Stamp d) ->
      future_frame holidays dates reference_df = Ok ff ->
      In "is_holiday" (columns reference_df) ->
      at_row ff "ds" j = Some (Stamp d) ->
      at_row f "is_holiday" i = Some (of_bool (holidays US d))
      /\ at_row ff "is_holiday" j = Some (of_bool (holidays IN d))
      /\ at_row f "is_holiday" i <> at_row ff "is_holiday" j.
Proof.
  intros holidays d Hdiff pandas_rolling df target exog f i dates reference_df ff j
         Hprep Hi Hfut Hcol Hj.
  pose proof (historical_holiday_flag _ _ _ _ _ _ _ _ Hprep Hi) as Hhist.
  pose proof (requested_holiday_flag _ _ _ _ _ _ Hfut Hcol Hj) as Hreq.
  split; [exact Hhist|]. split; [exact Hreq|].
  rewrite Hhist, Hreq. intros E. inversion E as [E'].
  apply Hdiff. apply of_bool_inj. unfold of_bool. rewrite E'. reflexivity.
Qed.

Lemma holiday_calendars_differ_witness :
  at_row Sample.prepared "is_holiday" 3 = Some (Num 1)
  /\ at_row Sample.future "is_holiday" 0 = Some (Num 0)
  /\ at_row Sample.prepared "is_holiday" 3 <> at_row Sample.future "is_holiday" 0.
Proof.
  apply (holiday_calendars_differ Sample.fixed_holidays (mkdate 2025 7 4)
           ltac:(vm_compute; discriminate)
           Sample.exact_rolling Sample.history "Room Revenue" ["Pax"; "ARR"]
           Sample.prepared 3%nat Sample.requested Sample.prepared
           Sample.future 0%nat).
  - vm_compute. reflexivity.
  - vm_compute. reflexivity.
  - vm_compute. reflexivity.
  - vm_compute. tauto.
  - vm_compute. reflexivity.
Defined.

End CalendarFeatures.

(** ** Rolling statistics *)

Section RollingStatistics.
Import Py Calendar Frame Pipeline.

Lemma take_drop_by_position {A} (l : list A) (d : A) (k W : nat) :
  (k + W <= length l)%nat ->
  firstn W (skipn k l) = map (fun j => nth j l d) (seq k W).
Proof.
  intros Hlen. apply list_eq. intros i.
  rewrite lookup_map.
  destruct (Nat.lt_ge_cases i W) as [Hi|Hi].
  - rewrite lookup_take_lt, lookup_drop, lookup_seq_lt by lia. simpl.
    rewrite nth_lookup.
    destruct (lookup_lt_is_Some_2 l (k + i)%nat ltac:(lia)) as [x Hx].
    rewrite Hx. reflexivity.
  - rewrite lookup_take_ge, lookup_seq_ge by lia. reflexivity.
Qed.

Lemma window_by_position (W r : nat) (y : list cell) :
  (1 <= W <= r)%nat -> (r <= length y)%nat ->
  window W (r - 1) y = trailing_cells W r y.
Proof.
  intros HW Hr. unfold window, trailing_cells.
  replace (S (r - 1) - W)%nat with (r - W)%nat by lia.
  apply take_drop_by_position. lia.
Qed.

(** A column of finite numbers is a list of numbers: it has no missing
    value and pandas can aggregate it. *)
Lemma finite_numbers (y : list cell) :
  finite y = true -> exists qs, y = map Num qs.
Proof.
  unfold finite. induction y as [|a y IH]; simpl; intros H.
  - exists []. reflexivity.
  - apply andb_prop in H as [Ha H]. destruct (IH H) as [qs ->].
    destruct a as [|q|s|d]; try discriminate.
    exists (q :: qs). reflexivity.
Qed.

Lemma numbers_complete (qs : list Q) :
  forallb (fun c => negb (isna c)) (map Num qs) = true.
Proof. induction qs as [|q qs IH]; simpl; [reflexivity|exact IH]. Qed.

Lemma numbers_numeric (qs : list Q) : numeric (map Num qs) = true.
Proof. unfold numeric. induction qs as [|q qs IH]; simpl; [reflexivity|exact IH]. Qed.

Lemma observations_numbers (qs : list Q) : observations (map Num qs) = Some qs.
Proof. induction qs as [|q qs IH]; simpl; [reflexivity|]. rewrite IH. reflexivity. Qed.

Lemma window_numbers (W i : nat) (qs : list Q) :
  window W i (map Num qs) = map Num (firstn W (skipn (S i - W) qs)).
Proof. unfold window. rewrite skipn_map, firstn_map. reflexivity. Qed.

Lemma rolling_values_row (W : nat) (agg : column -> cell) (y : list cell) (i : nat) :
  (i < length y)%nat ->
  rolling_values W agg y !! i
  = Some (if (W <=? S i)%nat
          then match observations (window W i y) with
               | Some _ => agg (firstn (S i) y)
               | None => NaN
               end
          else NaN).
Proof.
  intros Hi. unfold rolling_values. rewrite list_lookup_imap.
  destruct (lookup_lt_is_Some_2 y i Hi) as [x Hx]. rewrite Hx. reflexivity.
Qed.

(** Back-filled rolling column of a series of finite numbers, row by
    row, when the library's value is defined on every full window. *)
Lemma rolling_bfill_rows (W : nat) (agg : column -> cell) (y : list cell) :
  finite y = true ->
  (1 <= W <= length y)%nat ->
  (forall r, (W <= r <= length y)%nat -> isna (agg (firstn r y)) = false) ->
  (forall r, (W <= r <= length y)%nat ->
     bfill (rolling_values W agg y) !! (r - 1)%nat = Some (agg (firstn r y)))
  /\ (forall r, (1 <= r < W)%nat ->
        bfill (rolling_values W agg y) !! (r - 1)%nat
        = bfill (rolling_values W agg y) !! (W - 1)%nat
        /\ bfill (rolling_values W agg y) !! (r - 1)%nat <> Some NaN).
Proof.
  intros Hfin HW Hdef.
  destruct (finite_numbers y Hfin) as [qs ->].
  assert (Hfull : forall r, (W <= r <= length (map Num qs))%nat ->
            rolling_values W agg (map Num qs) !! (r - 1)%nat
            = Some (agg (firstn r (map Num qs)))).
  { intros r Hr. rewrite rolling_values_row by lia.
    replace (W <=? S (r - 1))%nat with true by (symmetry; apply Nat.leb_le; lia).
    rewrite window_numbers, observations_numbers.
    replace (S (r - 1)) with r by lia. reflexivity. }
  assert (Hrows : forall r, (W <= r <= length (map Num qs))%nat ->
            bfill (rolling_values W agg (map Num qs)) !! (r - 1)%nat
            = Some (agg (firstn r (map Num qs)))).
  { intros r Hr. apply bfill_present; [apply Hfull, Hr | apply Hdef, Hr]. }
  split; [exact Hrows|].
  intros r Hr. rewrite (Hrows W) by lia.
  pose proof (Hdef W ltac:(lia)) as Hpres.
  assert (Hfilled : bfill (rolling_values W agg (map Num qs)) !! (r - 1)%nat
                    = Some (agg (firstn W (map Num qs)))).
  { apply (bfill_gap _ (r - 1) (W - 1)); [lia | | apply Hfull; lia | exact Hpres].
    intros j Hj. rewrite rolling_values_row by lia.
    replace (W <=? S j)%nat with false by (symmetry; apply Nat.leb_gt; lia).
    reflexivity. }
  split; [exact Hfilled|].
  rewrite Hfilled. intros E. inversion E as [E']. rewrite E' in Hpres. discriminate.
Qed.

Lemma complete_not_blank (y : list cell) :
  forallb (fun c => negb (isna c)) y = true -> (1 <= length y)%nat ->
  forallb isna y = false.
Proof.
  destruct y as [|a y]; simpl; [lia|]. intros H _.
  apply andb_prop in H as [Ha _]. destruct (isna a); [discriminate|reflexivity].
Qed.

(** The rolling columns of a prepared table, for a series of finite
    numbers. *)
Lemma prepared_rolling_rows holidays pandas_rolling df target exog f y W suffix
      (row_mean row_std : nat -> cell) :
  In (W, suffix) windows ->
  prepare_prophet_data holidays pandas_rolling df target exog = Ok f ->
  getcol (data df) target = Some y ->
  finite y = true ->
  (W <= length y)%nat ->
  defined_on pandas_rolling y W ->
  (forall r, (W <= r <= length y)%nat ->
     row_mean r = pandas_rolling Mean W (firstn r y)
     /\ row_std r = pandas_rolling Std W (firstn r y)) ->
  rolling_rows row_mean row_std f y W suffix.
Proof.
  intros HW Hrun Hy Hfin Hlen Hdef Hrow.
  apply prepare_reads in Hrun as (y' & dl & Hy' & _ & _ & _ & Hroll).
  rewrite Hy in Hy'. inversion Hy'. subst y'.
  assert (H1 : (1 <= W)%nat).
  { destruct HW as [E|[E|[]]]; inversion E; lia. }
  assert (Hc : forallb (fun c => negb (isna c)) y = true).
  { destruct (finite_numbers y Hfin) as [qs ->]. apply numbers_complete. }
  destruct (Hroll (complete_not_blank y Hc ltac:(lia)))
    as (Hn & Hm7 & Hs7 & Hm14 & Hs14).
  destruct (rolling_bfill_rows W (pandas_rolling Mean W) y Hfin ltac:(lia)
              (Hdef Mean)) as [Ma Mb].
  destruct (rolling_bfill_rows W (pandas_rolling Std W) y Hfin ltac:(lia)
              (Hdef Std)) as [Sa Sb].
  exists (bfill (rolling_values W (pandas_rolling Mean W) y)),
         (bfill (rolling_values W (pandas_rolling Std W) y)).
  split.
  { destruct HW as [E|[E|[]]]; inversion E; subst W suffix; assumption. }
  split.
  { destruct HW as [E|[E|[]]]; inversion E; subst W suffix; assumption. }
  split.
  - intros r Hr. destruct (Hrow r Hr) as [-> ->]. split; auto.
  - intros r Hr. destruct (Mb r Hr) as [Mb1 Mb2]. destruct (Sb r Hr) as [Sb1 Sb2].
    auto.
Qed.

End RollingStatistics.

Section RollingTheorems.
Import Py Calendar Frame Pipeline.

(** C2 (amended). For every target series of finite numbers (no missing
    and no infinite value) of length at least [W], [W] in {7, 14}, on
    which pandas' rolling mean and standard deviation are defined for
    every full window: the [rolling_mean_Wd] and [rolling_std_Wd]
    columns produced by [prepare_prophet_data] hold, on rows [W] to the
    end, the values pandas computes for the window of the last [W]
    observations that ends in that row, and each of the first [W-1] rows
    holds the value of row [W], not a missing value. *)
Theorem rolling_statistics_backfilled :
  forall holidays pandas_rolling df target exog f y W suffix,
    In (W, suffix) windows ->
    prepare_prophet_data holidays pandas_rolling df target exog = Ok f ->
    getcol (data df) target = Some y ->
    finite y = true ->
    (W <= length y)%nat ->
    defined_on pandas_rolling y W ->
    rolling_as_computed pandas_rolling f y W suffix.
Proof.
  intros holidays pandas_rolling df target exog f y W suffix HW Hrun Hy Hfin Hlen Hdef.
  apply (prepared_rolling_rows holidays pandas_rolling df target exog);
    try assumption.
  intros r Hr. split; reflexivity.
Qed.

Lemma rolling_statistics_backfilled_witness :
  rolling_as_computed Sample.exact_rolling Sample.prepared
    (map (fun k => Num (Sample.revenue k)) (seq 1 15)) 14 "14d".
Proof.
  apply (rolling_statistics_backfilled Sample.fixed_holidays Sample.exact_rolling
           Sample.history "Room Revenue" ["Pax"; "ARR"]).
  - right. left. reflexivity.
  - vm_compute. reflexivity.
  - reflexivity.
  - reflexivity.
  - simpl. lia.
  - intros stat r Hr. simpl in Hr.
    assert (Hcases : r = 14%nat \/ r = 15%nat) by lia.
    destruct Hcases as [->| ->]; destruct stat; vm_compute; reflexivity.
Defined.

(** With a library that computes the statistics in exact arithmetic, the
    columns are as the claim words them: the mean and the standard
    deviation computed directly on the last [W] observations. *)
Lemma rolling_exact_when_library_is :
  forall holidays pandas_rolling sqrt df target exog f y W suffix,
    In (W, suffix) windows ->
    prepare_prophet_data holidays pandas_rolling df target exog = Ok f ->
    getcol (data df) target = Some y ->
    finite y = true ->
    (W <= length y)%nat ->
    (forall r, (W <= r <= length y)%nat ->
       pandas_rolling Mean W (firstn r y) = direct mean W r y
       /\ pandas_rolling Std W (firstn r y) = direct (std sqrt) W r y) ->
    rolling_as_claimed sqrt f y W suffix.
Proof.
  intros holidays pandas_rolling sqrt df target exog f y W suffix
         HW Hrun Hy Hfin Hlen Hexact.
  assert (H1 : (1 <= W)%nat).
  { destruct HW as [E|[E|[]]]; inversion E; lia. }
  assert (Hdirect : forall agg r, (W <= r <= length y)%nat ->
             isna (direct agg W r y) = false).
  { intros agg r Hr. destruct (finite_numbers y Hfin) as [qs ->].
    unfold direct. rewrite <- (window_by_position W r) by lia.
    rewrite window_numbers, observations_numbers. reflexivity. }
  apply (prepared_rolling_rows holidays pandas_rolling df target exog);
    try assumption.
  - intros stat r Hr. destruct (Hexact r Hr) as [Hm Hs].
    destruct stat; [rewrite Hm|rewrite Hs]; apply Hdirect, Hr.
  - intros r Hr. destruct (Hexact r Hr) as [Hm Hs]. split; congruence.
Qed.

(** C2 as stated fails on a series with a missing value, whatever the
    rolling aggregation computes.  With the first of eight revenues
    missing, the window of rows 1 to 7 has no mean, while row 7 of
    [rolling_mean_7d] holds what row 8 holds, filled in from below (4,
    the mean of rows 2 to 8, when computed exactly).  With no revenue at
    all, the rolling columns are not produced. *)
Lemma rolling_statistics_counterexample :
  (forall pandas_rolling sqrt f,
      prepare_prophet_data Sample.fixed_holidays pandas_rolling
                           Sample.gapped "Room Revenue" [] = Ok f ->
      ~ rolling_as_claimed sqrt f
          (NaN :: map (fun k => Num (inject_Z (Z.of_nat k))) (seq 1 7)) 7 "7d")
  /\
  (exists f,
      prepare_prophet_data Sample.fixed_holidays Sample.exact_rolling
                           Sample.gapped "Room Revenue" [] = Ok f
      /\ at_row f "rolling_mean_7d" 6 = Some (Num (28 # 7))
      /\ at_row f "rolling_mean_7d" 7 = Some (Num (28 # 7))
      /\ direct mean 7 7 (NaN :: map (fun k => Num (inject_Z (Z.of_nat k))) (seq 1 7))
         = NaN)
  /\
  (exists f,
      prepare_prophet_data Sample.fixed_holidays Sample.exact_rolling
                           Sample.blank "Room Revenue" [] = Ok f
      /\ getcol f "rolling_mean_7d" = None
      /\ ~ rolling_as_claimed Sample.approx_sqrt f (repeat NaN 7) 7 "7d").
Proof.
  split; [|split].
  - intros pandas_rolling sqrt f Hrun (mcol & scol & Hm & _ & Hrows & _).
    apply prepare_reads in Hrun as (y & dl & Hy & _ & _ & _ & Hroll).
    vm_compute in Hy. apply some_eq in Hy. subst y.
    destruct (Hroll eq_refl) as (_ & Hm7 & _).
    change (getcol f "rolling_mean_7d" = Some mcol) in Hm.
    rewrite Hm7 in Hm. apply some_eq in Hm. subst mcol.
    destruct (Hrows 7%nat ltac:(simpl; lia)) as [H7 _].
    destruct (Hrows 8%nat ltac:(simpl; lia)) as [H8 _].
    cbv in H7, H8.
    match type of H8 with
    | context [pandas_rolling Mean 7%nat ?h] =>
        destruct (pandas_rolling Mean 7%nat h)
    end; discriminate.
  - eexists. split; [vm_compute; reflexivity|].
    split; [vm_compute; reflexivity|].
    split; [vm_compute; reflexivity|].
    vm_compute. reflexivity.
  - eexists. split; [vm_compute; reflexivity|].
    split; [vm_compute; reflexivity|].
    intros (mcol & scol & Hm & _). vm_compute in Hm. discriminate.
Qed.

End RollingTheorems.

(** ** Saving, loading and predicting *)

Section RoundTrip.
Import Py Calendar Frame Pipeline.

Lemma save_model_written (Model : Type) (pickle_dump : Model -> blob * option exn)
      (resolve : string -> location) (model : Model) (filepath file : string)
      (fs : files) :
  resolve filepath = File file ->
  save_model Model pickle_dump resolve model filepath fs
  = (match snd (pickle_dump model) with
     | None => Ok tt
     | Some e => Raise e
     end, <[file := fst (pickle_dump model)]> fs).
Proof.
  intros H. unfold save_model. rewrite H.
  destruct (pickle_dump model) as [written failure]. reflexivity.
Qed.

(** A path that names no file is not written: the call raises and the
    files are as they were. *)
Lemma save_model_refused (Model : Type) (pickle_dump : Model -> blob * option exn)
      (resolve : string -> location) (model : Model) (filepath : string)
      (fs : files) :
  (forall file, resolve filepath <> File file) ->
  exists e, save_model Model pickle_dump resolve model filepath fs = (Raise e, fs).
Proof.
  intros H. unfold save_model.
  destruct (resolve filepath) as [| |file]; [eexists; reflexivity ..|].
  destruct (H file eq_refl).
Qed.

(** After a save that returned, loading from that path, or from any path
    that names the same file, unpickles the bytes written. *)
Lemma load_model_after_save (Model : Type) (pickle_dump : Model -> blob * option exn)
      (pickle_loads : blob -> result Model)
      (resolve : string -> location) (model : Model)
      (filepath other file : string) (fs : files) :
  resolve filepath = File file ->
  resolve other = File file ->
  load_model Model pickle_loads resolve other
    (snd (save_model Model pickle_dump resolve model filepath fs))
  = pickle_loads (fst (pickle_dump model)).
Proof.
  intros Hfile Hother. rewrite (save_model_written _ _ _ _ _ file _ Hfile).
  unfold load_model, path_exists. cbn [snd]. rewrite Hother, lookup_insert_eq.
  rewrite bool_decide_eq_true_2 by (eexists; reflexivity). reflexivity.
Qed.

(** The scenario of the claim amounts to two predictions in a row, the
    second one starting from the state in which the first one left the
    random generator. *)
Lemma before_and_after_in_a_row
      (holidays : holiday_library) (Model random_state : Type)
      (predict : Model -> frame -> random_state -> result (frame * random_state))
      (pickle_dump : Model -> blob * option exn) (pickle_loads : blob -> result Model)
      (resolve : string -> location)
      (model : Model) (filepath file : string) (dates : dates_arg)
      (reference_df : frame) (fs : files) (rs : random_state) :
  resolve filepath = File file ->
  snd (pickle_dump model) = None ->
  pickle_loads (fst (pickle_dump model)) = Ok model ->
  before_and_after holidays Model random_state predict pickle_dump pickle_loads
                   resolve model filepath dates reference_df fs rs
  = (let* first := predict_for_dates holidays Model random_state predict
                                     dates model reference_df rs in
     let* second := predict_for_dates holidays Model random_state predict
                                      dates model reference_df (snd first) in
     Ok (fst first, fst second)).
Proof.
  intros Hfile Hdump Hload. unfold before_and_after.
  destruct (predict_for_dates _ _ _ _ dates model reference_df rs)
    as [first|e]; cbn [bind]; [|reflexivity].
  unfold predict_with_loaded_model.
  rewrite (load_model_after_save _ _ _ _ _ filepath filepath file fs Hfile Hfile), Hload.
  rewrite (save_model_written _ _ _ _ _ file _ Hfile), Hdump.
  reflexivity.
Qed.

(** C8 (amended). Saving a trained model under a path that can be
    written, with a serialiser that restores the model it stored, and
    predicting with the model loaded back from that path yields the same
    forecast rows ([ds], [yhat], [yhat_lower], [yhat_upper]) as
    predicting with the model itself from the same state of the random
    generator.  Run one after the other, the prediction before the save
    and the one after it are two predictions in a row with the same
    model: the second starts from the state in which the first left the
    generator, and the rows are the same when the forecast of the model
    does not depend on that state. *)
Theorem save_load_predict_roundtrip :
  forall (holidays : holiday_library) (Model random_state : Type)
         (predict : Model -> frame -> random_state -> result (frame * random_state))
         (pickle_dump : Model -> blob * option exn)
         (pickle_loads : blob -> result Model)
         (resolve : string -> location)
         (model : Model) (filepath file : string) (dates : dates_arg)
         (reference_df : frame) (fs : files),
    resolve filepath = File file ->
    snd (pickle_dump model) = None ->
    pickle_loads (fst (pickle_dump model)) = Ok model ->
    fst (save_model Model pickle_dump resolve model filepath fs) = Ok tt
    /\ (forall rs,
          predict_with_loaded_model holidays Model random_state predict pickle_loads
            resolve filepath dates reference_df
            (snd (save_model Model pickle_dump resolve model filepath fs)) rs
          = predict_for_dates holidays Model random_state predict
              dates model reference_df rs)
    /\ (forall rs,
          before_and_after holidays Model random_state predict pickle_dump
            pickle_loads resolve model filepath dates reference_df fs rs
          = (let* first := predict_for_dates holidays Model random_state predict
                             dates model reference_df rs in
             let* second := predict_for_dates holidays Model random_state predict
                              dates model reference_df (snd first) in
             Ok (fst first, fst second)))
    /\ ((forall future rs rs',
            match predict model future rs, predict model future rs' with
            | Ok drawn, Ok drawn' => fst drawn = fst drawn'
            | Raise e, Raise e' => e = e'
            | _, _ => False
            end) ->
        forall rs before after,
          before_and_after holidays Model random_state predict pickle_dump
            pickle_loads resolve model filepath dates reference_df fs rs
          = Ok (before, after) ->
          before = after).
Proof.
  intros holidays Model random_state predict pickle_dump pickle_loads resolve
         model filepath file dates reference_df fs Hfile Hdump Hload.
  split.
  { rewrite (save_model_written _ _ _ _ _ file _ Hfile), Hdump. reflexivity. }
  split.
  { intros rs. unfold predict_with_loaded_model.
    rewrite (load_model_after_save _ _ _ _ _ filepath filepath file fs Hfile Hfile),
      Hload.
    reflexivity. }
  split.
  { intros rs. apply (before_and_after_in_a_row _ _ _ _ _ _ _ _ _ file);
      assumption. }
  intros Hsame rs before after Hrun.
  rewrite (before_and_after_in_a_row _ _ _ _ _ _ _ _ _ file) in Hrun by assumption.
  unfold predict_for_dates in Hrun.
  destruct (future_frame holidays dates reference_df) as [future|e];
    cbn [bind] in Hrun; [|discriminate].
  destruct (predict model future rs) as [drawn|e] eqn:Hfirst;
    cbn [bind] in Hrun; [|discriminate].
  destruct (select (fst drawn) _) as [rows|e] eqn:Hrows;
    cbn [bind snd fst] in Hrun; [|discriminate].
  specialize (Hsame future rs (snd drawn)). rewrite Hfirst in Hsame.
  destruct (predict model future (snd drawn)) as [drawn'|e];
    cbn [bind] in Hrun; [|discriminate].
  rewrite <- Hsame, Hrows in Hrun. cbn [bind fst] in Hrun.
  inversion Hrun. reflexivity.
Qed.

Lemma save_load_predict_roundtrip_witness :
  fst (save_model (list Byte.byte) toy_dump flat [Byte.x01; Byte.x02]
                  "final_model.pkl" ∅) = Ok tt
  /\ (forall rs,
        predict_with_loaded_model Sample.fixed_holidays (list Byte.byte) Z toy_predict
          (fun b => Ok b) flat "final_model.pkl" Sample.requested Sample.prepared
          (snd (save_model (list Byte.byte) toy_dump flat [Byte.x01; Byte.x02]
                           "final_model.pkl" ∅)) rs
        = predict_for_dates Sample.fixed_holidays (list Byte.byte) Z toy_predict
            Sample.requested [Byte.x01; Byte.x02] Sample.prepared rs)
  /\ (forall rs,
        before_and_after Sample.fixed_holidays (list Byte.byte) Z toy_predict toy_dump
          (fun b => Ok b) flat [Byte.x01; Byte.x02] "final_model.pkl"
          Sample.requested Sample.prepared ∅ rs
        = (let* first := predict_for_dates Sample.fixed_holidays (list Byte.byte) Z
                           toy_predict Sample.requested [Byte.x01; Byte.x02]
                           Sample.prepared rs in
           let* second := predict_for_dates Sample.fixed_holidays (list Byte.byte) Z
                            toy_predict Sample.requested [Byte.x01; Byte.x02]
                            Sample.prepared (snd first) in
           Ok (fst first, fst second)))
  /\ ((forall future rs rs',
          match toy_predict [Byte.x01; Byte.x02] future rs,
                toy_predict [Byte.x01; Byte.x02] future rs' with
          | Ok drawn, Ok drawn' => fst drawn = fst drawn'
          | Raise e, Raise e' => e = e'
          | _, _ => False
          end) ->
      forall rs before after,
        before_and_after Sample.fixed_holidays (list Byte.byte) Z toy_predict toy_dump
          (fun b => Ok b) flat [Byte.x01; Byte.x02] "final_model.pkl"
          Sample.requested Sample.prepared ∅ rs
        = Ok (before, after) ->
        before = after).
Proof.
  apply (save_load_predict_roundtrip Sample.fixed_holidays (list Byte.byte) Z
           toy_predict toy_dump (fun b => Ok b) flat [Byte.x01; Byte.x02]
           "final_model.pkl" "final_model.pkl").
  - reflexivity.
  - reflexivity.
  - reflexivity.
Defined.

(** C8 as stated fails: with a model whose interval bounds are drawn
    from the random generator, the prediction made before the save and
    the one made with the model loaded back agree on [ds] and [yhat] and
    differ in [yhat_lower] and [yhat_upper], the second one drawing from
    the generator where the first one left it. *)
Lemma save_load_predict_counterexample :
  exists before after,
    before_and_after Sample.fixed_holidays (list Byte.byte) Z toy_predict toy_dump
      (fun b => Ok b) flat [Byte.x01; Byte.x02] "final_model.pkl"
      Sample.requested Sample.prepared ∅ 5%Z
    = Ok (before, after)
    /\ getcol before "ds" = getcol after "ds"
    /\ getcol before "yhat" = getcol after "yhat"
    /\ at_row before "yhat_lower" 0 = Some (Num (-3))
    /\ at_row after "yhat_lower" 0 = Some (Num (-4))
    /\ at_row before "yhat_upper" 0 = Some (Num 7)
    /\ at_row after "yhat_upper" 0 = Some (Num 8)
    /\ before <> after.
Proof.
  do 2 eexists. split.
  { rewrite (before_and_after_in_a_row _ _ _ _ _ _ _ _ _ "final_model.pkl")
      by reflexivity.
    vm_compute. reflexivity. }
  repeat split; try reflexivity.
  intros E. apply (f_equal (fun f => at_row f "yhat_lower" 0)) in E.
  vm_compute in E. discriminate.
Qed.

(** Loading from a path that names nothing, or a file that was never
    written, fails. *)
Lemma load_model_missing (Model : Type) (pickle_loads : blob -> result Model)
      (resolve : string -> location)
      (filepath : string) (fs : files) :
  path_exists resolve filepath fs = false ->
  load_model Model pickle_loads resolve filepath fs
  = Raise (FileNotFoundError ("No model file found at " ++ filepath)).
Proof. intros H. unfold load_model. rewrite H. reflexivity. Qed.

End RoundTrip.

(** ** A failing cross-validation inside a trial *)

Section TrialFailure.
Import Py Frame Search.

Lemma objective_after_fit lib prophet_data params :
  objective lib prophet_data params
  = (let* model := fitted lib prophet_data params in
     let* df_cv := cross_validation lib model in
     let* df_p := performance_metrics lib df_cv in
     let* rmse_col := getitem df_p "rmse" in
     Ok (mktrial (series_mean rmse_col) STATUS_OK)).
Proof.
  unfold objective, fitted.
  destruct (Prophet lib params) as [m0|e]; cbn [bind]; [|reflexivity].
  destruct (for_each _ _ m0) as [m1|e]; cbn [bind]; [|reflexivity].
  destruct (fit lib m1 prophet_data) as [m2|e]; reflexivity.
Qed.

(** C5 (amended). When the cross-validation of a trial fails, the
    objective does not turn the failure into a loss: the exception
    leaves the objective, and the search evaluating that trial stops
    with it. *)
Theorem failed_trial_aborts_search :
  forall (lib : library) (prophet_data : frame) (params : hyperparams)
         (model : Model lib) (e : exn),
    fitted lib prophet_data params = Ok model ->
    cross_validation lib model = Raise e ->
    objective lib prophet_data params = Raise e
    /\ forall trials n,
        suggest lib trials = params ->
        fmin lib (objective lib prophet_data) (S n) trials = Raise e.
Proof.
  intros lib prophet_data params model e Hfit Hcv.
  assert (Hobj : objective lib prophet_data params = Raise e).
  { rewrite objective_after_fit, Hfit. cbn [bind]. rewrite Hcv. reflexivity. }
  split; [exact Hobj|].
  intros trials n Hnext. cbn [fmin]. rewrite Hnext, Hobj. reflexivity.
Qed.

Lemma failed_trial_aborts_search_witness :
  objective failing_library Sample.prepared (mkparams (1 # 20) 10 10 "additive")
  = Raise short_history
  /\ forall trials n,
      suggest failing_library trials = mkparams (1 # 20) 10 10 "additive" ->
      fmin failing_library (objective failing_library Sample.prepared) (S n) trials
      = Raise short_history.
Proof.
  apply (failed_trial_aborts_search failing_library Sample.prepared
           (mkparams (1 # 20) 10 10 "additive") tt short_history).
  - vm_compute. reflexivity.
  - reflexivity.
Defined.

(** C5 as stated fails: with a cross-validation that raises, the
    objective returns no loss at all, and the whole search raises. *)
Lemma failed_trial_counterexample :
  (forall m, cross_validation failing_library m = Raise short_history)
  /\ ~ (exists r, objective failing_library Sample.prepared
                            (mkparams (1 # 20) 10 10 "additive") = Ok r)
  /\ search failing_library Sample.prepared = Raise short_history.
Proof.
  split; [intros m; reflexivity|].
  split.
  - intros [r Hr]. vm_compute in Hr. discriminate.
  - vm_compute. reflexivity.
Qed.

End TrialFailure.
(** ** Ingestion: running the [try] block *)

Section IngestFacts.
Import Calendar Ingest App.
Variable float_of_str : string -> option Py.float64.
Variable srv : server.
Variable session_user : option string.

Lemma wp_bind {A B} (c : M A) (k : A -> M B) st Q :
  wp c st (fun r st' => match r with inr a => wp (k a) st' Q | inl e => Q (inl e) st' end) ->
  wp (bind c k) st Q.
Proof. unfold wp, bind. destruct (c st) as [[e|a] st']; auto. Qed.

Lemma wp_ret {A} (a : A) st (Q : (exn + A) -> state -> Prop) : Q (inr a) st -> wp (ret a) st Q.
Proof. auto. Qed.

Lemma wp_raise {A} e st (Q : (exn + A) -> state -> Prop) : Q (inl e) st -> wp (raise e) st Q.
Proof. auto. Qed.

Lemma wp_emit {B} ev (k : unit -> M B) st Q :
  wp (k tt) (logged st ev) Q -> wp (bind (emit ev) k) st Q.
Proof. intros H. apply wp_bind. exact H. Qed.

Lemma wp_assign_connection {B} (k : unit -> M B) st Q :
  wp (k tt) (mkstate true (cursor st) (table st) (pending st) (trace st)) Q ->
  wp (bind assign_connection k) st Q.
Proof. intros H. apply wp_bind. exact H. Qed.

Lemma wp_assign_cursor {B} (k : unit -> M B) st Q :
  wp (k tt) (mkstate (connection st) true (table st) (pending st) (trace st)) Q ->
  wp (bind assign_cursor k) st Q.
Proof. intros H. apply wp_bind. exact H. Qed.

Lemma wp_item {B} data key (k : pyval -> M B) st Q :
  (forall v, data !! key = Some v -> wp (k v) st Q) ->
  (data !! key = None -> Q (inl (Builtin (Py.KeyError key))) st) ->
  wp (bind (item data key) k) st Q.
Proof.
  intros Hs Hn. apply wp_bind. unfold item.
  destruct (data !! key) as [v|].
  - apply wp_ret. apply (Hs v eq_refl).
  - apply wp_raise. apply (Hn eq_refl).
Qed.

Lemma wp_float_item {B} data key (k : Py.float64 -> M B) st Q :
  (forall x, submitted float_of_str data key = Some x -> wp (k x) st Q) ->
  (forall e, submitted float_of_str data key = None -> Q (inl (Builtin e)) st) ->
  wp (bind (float_item float_of_str data key) k) st Q.
Proof.
  intros Hs Hn. apply wp_bind. unfold float_item, submitted, as_float in *.
  apply wp_item.
  - intros v Hv. rewrite Hv in Hs, Hn. unfold float. destruct v as [s|n|x].
    + destruct (float_of_str s) as [x|].
      * apply wp_ret. apply (Hs x eq_refl).
      * apply wp_raise. apply (Hn _ eq_refl).
    + destruct (Py.float_of_int n) as [x|e]; cbn [builtin returned] in *.
      * apply wp_ret. apply (Hs x eq_refl).
      * apply wp_raise. apply (Hn _ eq_refl).
    + apply wp_ret. apply (Hs x eq_refl).
  - intros Hv. rewrite Hv in Hn. apply (Hn _ eq_refl).
Qed.

(** [int] of a float returns exactly when the float is finite, and then
    its value truncated. *)
Lemma int_of_float_returns (x : Py.float64) :
  returned (Py.int_of_float x) = option_map Py.trunc (Py.exact x).
Proof.
  unfold Py.int_of_float. destruct (Py.exact x) as [q|]; [reflexivity|].
  destruct (PrimFloat.is_nan x); reflexivity.
Qed.

Lemma submitted_int_value data key x :
  submitted float_of_str data key = Some x ->
  submitted_int float_of_str data key = option_map Py.trunc (Py.exact x).
Proof.
  intros H. unfold submitted_int. rewrite H. apply int_of_float_returns.
Qed.

Lemma wp_int_item {B} data key (k : Z -> M B) st Q :
  (forall x q, submitted float_of_str data key = Some x ->
               Py.exact x = Some q ->
               submitted_int float_of_str data key = Some (Py.trunc q) ->
               wp (k (Py.trunc q)) st Q) ->
  (forall e, submitted_int float_of_str data key = None -> Q (inl (Builtin e)) st) ->
  wp (bind (int_item float_of_str data key) k) st Q.
Proof.
  intros Hs Hn. unfold int_item. apply wp_bind. apply wp_float_item.
  - intros x Hx. pose proof (submitted_int_value data key x Hx) as Hint.
    unfold Py.int_of_float.
    destruct (Py.exact x) as [q|] eqn:Hq; cbn [option_map] in Hint.
    + apply wp_ret. apply (Hs x q Hx Hq Hint).
    + destruct (PrimFloat.is_nan x); apply wp_raise; apply Hn, Hint.
  - intros e He. apply wp_raise. apply Hn. unfold submitted_int. rewrite He. reflexivity.
Qed.

Lemma wp_get_db_connection {B} (k : unit -> M B) st Q :
  (forall detail, connect_fault srv = Some detail ->
                  Q (inl (Exception (ConnectionFailed detail))) st) ->
  (connect_fault srv = None -> active_after_connect srv = false ->
   Q (inl (Exception ConnectionNotActive)) (logged st Connect)) ->
  (connect_fault srv = None -> active_after_connect srv = true ->
   wp (k tt) (logged st Connect) Q) ->
  wp (bind (get_db_connection srv) k) st Q.
Proof.
  intros Hf Hi Ha. apply wp_bind. unfold get_db_connection.
  destruct (connect_fault srv) as [d|]; [apply (Hf d eq_refl)|].
  apply wp_emit. destruct (active_after_connect srv); [apply Ha|apply Hi]; reflexivity.
Qed.

Lemma wp_validate {B} inv sold occ (k : unit -> M B) st Q :
  wp (k tt) (logged st (CallProc inv sold occ)) Q ->
  wp (bind (validate_with_procedure srv inv sold occ) k) st Q.
Proof.
  intros H. apply wp_bind. unfold validate_with_procedure. apply wp_emit.
  destruct (procedure_fault srv); exact H.
Qed.

Ltac wp_step :=
  lazymatch goal with
  | |- wp (bind (get_db_connection _) _) _ _ =>
      apply wp_get_db_connection; [intros ? ? | intros ? ? | intros ? ?]
  | |- wp (bind assign_connection _) _ _ => apply wp_assign_connection
  | |- wp (bind assign_cursor _) _ _ => apply wp_assign_cursor
  | |- wp (bind (emit _) _) _ _ => apply wp_emit
  | |- wp (bind (float_item _ _ _) _) _ _ => apply wp_float_item; [intros ? ? | intros ? ?]
  | |- wp (bind (int_item _ _ _) _) _ _ => apply wp_int_item; [intros ? ? ? ? ? | intros ? ?]
  | |- wp (bind (item _ _) _) _ _ => apply wp_item; [intros ? ? | intros ?]
  | |- wp (bind (validate_with_procedure _ _ _ _) _) _ _ => apply wp_validate
  | |- wp (if ?c then _ else _) _ _ => destruct c eqn:?
  | |- wp (raise _) _ _ => apply wp_raise
  | |- wp (ret _) _ _ => apply wp_ret
  end.

Lemma wp_elim {A} (c : M A) st Q r st' :
  wp c st Q -> c st = (r, st') -> Q r st'.
Proof. unfold wp. intros H E. rewrite E in H. exact H. Qed.

(** *** What the block leaves in the state *)

Lemma build_values_frame data s a st r st' :
  build_values float_of_str srv session_user data s a st = (r, st') ->
  table st' = table st /\ pending st' = pending st
  /\ exists evs, trace st' = (trace st ++ evs)%list /\ forallb quiet evs = true
       /\ (In Connect evs -> active_after_connect srv = true ->
            connection st' = true /\ cursor st' = true).
Proof.
  apply (wp_elim _ st (fun r st' =>
    table st' = table st /\ pending st' = pending st
    /\ exists evs, trace st' = (trace st ++ evs)%list /\ forallb quiet evs = true
         /\ (In Connect evs -> active_after_connect srv = true ->
              connection st' = true /\ cursor st' = true))).
  unfold build_values. repeat wp_step.
  all: simpl; split; [reflexivity|]; split; [reflexivity|].
  all: rewrite <- ?app_assoc.
  all: try (eexists; split; [reflexivity|]; split; [reflexivity|];
            intros; first [split; reflexivity | congruence]).
  exists []. rewrite app_nil_r. split; [reflexivity|]. split; [reflexivity|].
  intros [].
Qed.

(** *** Range conditions *)

Lemma build_values_error data s a st e st' :
  build_values float_of_str srv session_user data s a st = (inl e, st') ->
  is_mysql e = false
  /\ (range_error (Unexpected e) = true -> range_violation float_of_str data).
Proof.
  apply (wp_elim _ st (fun r _ =>
    match r with
    | inl e => is_mysql e = false
               /\ (range_error (Unexpected e) = true -> range_violation float_of_str data)
    | inr _ => True
    end)).
  unfold build_values. repeat wp_step.
  all: try exact I.
  all: split; [reflexivity|]; simpl; try discriminate; intros _.
  - left. eexists. split; [eassumption|].
    match goal with
    | Hor : _ || _ = true |- _ => apply orb_prop in Hor; exact Hor
    end.
  - right. left. do 2 eexists. split; [eassumption|]. split; [eassumption|].
    match goal with Hgt : (_ >? _)%Z = true |- _ => apply Z.gtb_lt in Hgt; lia end.
  - right. right. left. eexists. split; eassumption.
  - right. right. right. eexists. split; eassumption.
Qed.

Lemma build_values_ok data s a st row st' :
  build_values float_of_str srv session_user data s a st = (inr row, st') ->
  ~ range_violation float_of_str data /\ stored_as float_of_str session_user data s a row.
Proof.
  apply (wp_elim _ st (fun r _ =>
    match r with
    | inr row => ~ range_violation float_of_str data /\ stored_as float_of_str session_user data s a row
    | inl _ => True
    end)).
  unfold build_values. repeat wp_step.
  all: try exact I.
  split.
  - repeat match goal with
           | H : _ || _ = false |- _ => apply orb_false_elim in H as [? ?]
           | H : (_ >? _)%Z = false |- _ =>
               rewrite Z.gtb_ltb in H; apply Z.ltb_ge in H
           end.
    intros [(x' & Hx & [Hlt|Hlt]) | [(sold & inv & Hs & Hi & Hgt)
            | [(x' & Hx & Hlt) | (x' & Hx & Hlt)]]].
    all: repeat match goal with
                | H1 : submitted _ ?d ?k = Some _, H2 : submitted _ ?d ?k = Some _ |- _ =>
                    rewrite H1 in H2; apply some_eq in H2; subst
                | H1 : submitted_int _ ?d ?k = Some _,
                  H2 : submitted_int _ ?d ?k = Some _ |- _ =>
                    rewrite H1 in H2; apply some_eq in H2; subst
                end.
    all: first [congruence | lia].
  - unfold stored_as. simpl.
    repeat split; try assumption.
    + intros key get Hin.
      repeat (destruct Hin as [E|Hin]; [inversion E; subst; assumption|]).
      destruct Hin.
    + intros key get Hin.
      repeat (destruct Hin as [E|Hin];
              [inversion E; subst; do 2 eexists;
               split; [eassumption|split; [eassumption|reflexivity]]|]).
      destruct Hin.
Qed.

(** *** The values do not depend on the state of the store *)

Lemma blind_bind {A B} (c : M A) (k : A -> M B) :
  state_blind c -> (forall a, state_blind (k a)) -> state_blind (bind c k).
Proof.
  intros Hc Hk st st'. unfold bind. specialize (Hc st st').
  destruct (c st) as [[e|a] st1], (c st') as [[e'|a'] st1'];
    simpl in Hc; try discriminate; inversion Hc; subst; auto.
  apply Hk.
Qed.

Lemma blind_pure {A} (r : exn + A) (f : state -> state) :
  state_blind (fun st => (r, f st)).
Proof. intros st st'. reflexivity. Qed.

Lemma blind_item data key : state_blind (item data key).
Proof. unfold item. destruct (data !! key); intros st st'; reflexivity. Qed.

Lemma blind_builtin {A} (r : Py.result A) : state_blind (builtin r).
Proof. destruct r; intros st st'; reflexivity. Qed.

Lemma blind_float v : state_blind (float float_of_str v).
Proof.
  unfold float. destruct v as [s|n|x];
    [destruct (float_of_str s)|apply blind_builtin|];
    intros st st'; reflexivity.
Qed.

Lemma blind_float_item data key : state_blind (float_item float_of_str data key).
Proof.
  unfold float_item. apply blind_bind; [apply blind_item|]. intros v. apply blind_float.
Qed.

Lemma blind_int_item data key : state_blind (int_item float_of_str data key).
Proof.
  unfold int_item. apply blind_bind; [apply blind_float_item|].
  intros x. apply blind_builtin.
Qed.

Lemma blind_get_db_connection : state_blind (get_db_connection srv).
Proof.
  unfold get_db_connection. destruct (connect_fault srv).
  - intros st st'. reflexivity.
  - apply blind_bind; [intros st st'; reflexivity|]. intros _.
    destruct (active_after_connect srv); intros st st'; reflexivity.
Qed.

Lemma blind_validate inv sold occ :
  state_blind (validate_with_procedure srv inv sold occ).
Proof.
  unfold validate_with_procedure. apply blind_bind; [intros st st'; reflexivity|].
  intros _. destruct (procedure_fault srv); intros st st'; reflexivity.
Qed.

Ltac blind_step :=
  lazymatch goal with
  | |- state_blind (bind _ _) => apply blind_bind; [|intros ?]
  | |- state_blind (if ?c then _ else _) => destruct c
  | |- state_blind (get_db_connection _) => apply blind_get_db_connection
  | |- state_blind (float_item _ _ _) => apply blind_float_item
  | |- state_blind (int_item _ _ _) => apply blind_int_item
  | |- state_blind (item _ _) => apply blind_item
  | |- state_blind (validate_with_procedure _ _ _ _) => apply blind_validate
  | |- state_blind _ => intros ? ?; reflexivity
  end.

Lemma build_values_blind data s a :
  state_blind (build_values float_of_str srv session_user data s a).
Proof. unfold build_values. repeat blind_step. Qed.

(** *** The four ways a call can go *)

Lemma close_all_trace st : trace (close_all srv st) = (trace st ++ closing srv st)%list.
Proof.
  unfold close_all, closing. simpl.
  destruct (cursor st), (connection st && connected_at_exit srv); simpl;
    rewrite <- ?app_assoc, ?app_nil_r; reflexivity.
Qed.

Lemma execute_insert_run row st :
  execute_insert srv row st
  = match insert_fault srv with
    | Some e => (inl (MySQL e), logged st (ExecuteInsert row))
    | None =>
        if existsb (same_key row) (table st ++ pending st)
        then (inl (MySQL (mkerr IntegrityError (duplicate_text srv))),
              logged st (ExecuteInsert row))
        else (inr tt, mkstate (connection st) (cursor st) (table st)
                              (pending st ++ [row])
                              (trace st ++ [ExecuteInsert row]))
    end.
Proof.
  unfold execute_insert, bind, emit, raise, logged.
  destruct (insert_fault srv); reflexivity.
Qed.

Lemma commit_run st :
  commit srv st
  = match commit_fault srv with
    | Some e => (inl (MySQL e), logged st Commit)
    | None => (inr tt, mkstate (connection st) (cursor st)
                               (table st ++ pending st) []
                               (trace st ++ [Commit]))
    end.
Proof.
  unfold commit, bind, emit, raise, logged.
  destruct (commit_fault srv); reflexivity.
Qed.

Lemma save_try_run data s a st :
  save_try float_of_str srv session_user data s a st
  = match build_values float_of_str srv session_user data s a st with
    | (inl e, st1) => (inl e, st1)
    | (inr row, st1) =>
        match execute_insert srv row st1 with
        | (inl e, st2) => (inl e, st2)
        | (inr _, st2) => commit srv st2
        end
    end.
Proof.
  unfold save_try, bind.
  destruct (build_values _ _ _ _ _ _ st) as [[e|row] st1]; [reflexivity|].
  destruct (execute_insert srv row st1) as [[e|[]] st2]; reflexivity.
Qed.

Lemma save_hotel_data_run data s a db r st :
  save_try float_of_str srv session_user data s a (initial db) = (r, st) ->
  save_hotel_data float_of_str srv session_user data s a db
  = mkrun match r with inr _ => None | inl e => Some (save_except e) end
          (table st) (trace st ++ closing srv st).
Proof.
  intros H. unfold save_hotel_data. rewrite H.
  rewrite <- close_all_trace. destruct r; reflexivity.
Qed.

Lemma save_cases data s a db :
  save_path float_of_str srv session_user data s a db
            (save_hotel_data float_of_str srv session_user data s a db).
Proof.
  destruct (save_try float_of_str srv session_user data s a (initial db))
    as [r st] eqn:Hrun.
  rewrite (save_hotel_data_run data s a db r st Hrun).
  rewrite save_try_run in Hrun.
  destruct (build_values float_of_str srv session_user data s a (initial db))
    as [[e|row] st1] eqn:Hbv.
  - inversion Hrun. subst r st.
    destruct (build_values_frame _ _ _ _ _ _ Hbv) as (Ht & _ & _).
    eapply path_rejected; [exact Hbv|reflexivity|exact Ht|reflexivity].
  - destruct (build_values_frame _ _ _ _ _ _ Hbv) as (Ht & Hp & _).
    simpl in Ht, Hp.
    rewrite execute_insert_run, Ht, Hp, app_nil_r in Hrun.
    destruct (insert_fault srv) as [me|] eqn:Hins.
    { inversion Hrun. subst r st.
      eapply path_insert_refused;
        [exact Hbv|left; exact Hins|reflexivity|exact Ht|].
      unfold logged, closing. simpl. rewrite <- app_assoc. reflexivity. }
    destruct (existsb (same_key row) db) eqn:Hdup.
    { inversion Hrun. subst r st.
      eapply path_insert_refused;
        [exact Hbv|right; split; [exact Hins|split; [exact Hdup|reflexivity]]
        |reflexivity|exact Ht|].
      unfold logged, closing. simpl. rewrite <- app_assoc. reflexivity. }
    rewrite commit_run in Hrun. simpl in Hrun.
    destruct (commit_fault srv) as [me|] eqn:Hcom; inversion Hrun; subst r st.
    + eapply path_commit_failed;
        [exact Hbv|exact Hins|exact Hdup|exact Hcom|reflexivity|reflexivity|].
      unfold logged, closing. simpl. rewrite <- !app_assoc. reflexivity.
    + eapply path_stored;
        [exact Hbv|exact Hins|exact Hdup|exact Hcom|reflexivity|reflexivity|].
      unfold closing. simpl. rewrite <- !app_assoc. reflexivity.
Qed.

End IngestFacts.

(** ** Ingestion: validation, duplicates, stored values, connections *)

Section IngestTheorems.
Import Calendar Ingest App.

Lemma range_error_mysql (me : mysql_error) :
  range_error (save_except (MySQL me)) = false.
Proof.
  destruct me as [[| |] t]; simpl; repeat case_match; reflexivity.
Qed.

Lemma save_except_plain (e : exn) :
  is_mysql e = false -> save_except e = Unexpected e.
Proof. destruct e; simpl; intros H; try reflexivity; discriminate. Qed.

Lemma quiet_events (evs : list event) :
  forallb quiet evs = true ->
  ~ In Commit evs /\ forall r, ~ In (ExecuteInsert r) evs.
Proof.
  intros H. rewrite forallb_forall in H.
  split; [|intros r]; intros Hin; apply H in Hin; discriminate.
Qed.

Lemma closing_events srv (st : state) :
  ~ In Commit (closing srv st) /\ forall r, ~ In (ExecuteInsert r) (closing srv st).
Proof.
  unfold closing.
  destruct (cursor st), (connection st && connected_at_exit srv); simpl;
    (split; [|intros r]); intros H;
    repeat (destruct H as [H|H]; [discriminate|]); destruct H.
Qed.

(** C10. Whenever [save_hotel_data] raises a range-validation error
    (occupancy outside [0, 100], rooms sold above the inventory, negative
    revenue or ARR), no INSERT was executed and no commit issued, and the
    table is as it was before the call. *)
Theorem validation_failure_is_atomic :
  forall float_of_str srv session_user data s a db e,
    outcome (save_hotel_data float_of_str srv session_user data s a db) = Some e ->
    range_error e = true ->
    table_after (save_hotel_data float_of_str srv session_user data s a db) = db
    /\ ~ In Commit (events (save_hotel_data float_of_str srv session_user data s a db))
    /\ forall r, ~ In (ExecuteInsert r)
                   (events (save_hotel_data float_of_str srv session_user data s a db)).
Proof.
  intros float_of_str srv session_user data s a db e Hout Hrange.
  destruct (save_cases float_of_str srv session_user data s a db)
    as [e0 st1 Hbv Ho Ht Hev | row st1 me Hbv _ Ho Ht Hev
        | row st1 me Hbv _ _ _ Ho Ht Hev | row st1 Hbv _ _ _ Ho Ht Hev];
    rewrite Ho in Hout; [| | |discriminate]; apply some_eq in Hout; subst e.
  - split; [exact Ht|]. rewrite Hev.
    destruct (build_values_frame _ _ _ _ _ _ _ _ _ Hbv) as (_ & _ & evs & Htr & Hq & _).
    simpl in Htr. rewrite Htr.
    destruct (quiet_events evs Hq) as [Hc Hi].
    destruct (closing_events srv st1) as [Hc' Hi'].
    split; [|intros r; specialize (Hi r); specialize (Hi' r)];
      rewrite in_app_iff; tauto.
  - rewrite range_error_mysql in Hrange. discriminate.
  - rewrite range_error_mysql in Hrange. discriminate.
Qed.

Lemma validation_failure_is_atomic_witness :
  table_after (Submissions.save (Submissions.submission (Int 5) (Int 10) (Float 101) (Float 2000)) []) = []
  /\ ~ In Commit (events (Submissions.save (Submissions.submission (Int 5) (Int 10) (Float 101) (Float 2000)) []))
  /\ forall r, ~ In (ExecuteInsert r)
                 (events (Submissions.save (Submissions.submission (Int 5) (Int 10) (Float 101) (Float 2000)) [])).
Proof.
  apply (validation_failure_is_atomic Submissions.numbers_only Submissions.healthy
           (Some "alice") (Submissions.submission (Int 5) (Int 10) (Float 101) (Float 2000))
           Submissions.snapshot Submissions.arrival []
           (Unexpected (Exception (OccupancyOutOfRange 101)))).
  - vm_compute. reflexivity.
  - reflexivity.
Defined.

(** C3 (amended). [save_hotel_data] raises an error and stores nothing
    when [float] of the occupancy is below 0 or above 100 (101 is
    rejected), when [int(float(...))] of the rooms sold exceeds
    [int(float(...))] of the inventory, or when [float] of the room
    revenue or of the ARR is below 0; a submission for which none of
    these tests holds is not rejected with a range error. *)
Theorem range_validation :
  forall float_of_str srv session_user data s a db,
    (range_violation float_of_str data ->
     (exists e, outcome (save_hotel_data float_of_str srv session_user data s a db)
                = Some e)
     /\ table_after (save_hotel_data float_of_str srv session_user data s a db) = db)
    /\ (~ range_violation float_of_str data ->
        forall e,
          outcome (save_hotel_data float_of_str srv session_user data s a db) = Some e ->
          range_error e = false).
Proof.
  intros float_of_str srv session_user data s a db.
  destruct (save_cases float_of_str srv session_user data s a db)
    as [e0 st1 Hbv Ho Ht Hev | row st1 me Hbv _ Ho Ht Hev
        | row st1 me Hbv _ _ _ Ho Ht Hev | row st1 Hbv _ _ _ Ho Ht Hev].
  - split.
    + intros _. split; [eexists; exact Ho | exact Ht].
    + intros Hno e He. rewrite Ho in He. apply some_eq in He. subst e.
      destruct (build_values_error _ _ _ _ _ _ _ _ _ Hbv) as [Hplain Hrange].
      rewrite (save_except_plain e0 Hplain).
      destruct (range_error (Unexpected e0)) eqn:E; [|reflexivity].
      exfalso. apply Hno, Hrange. reflexivity.
  - split.
    + intros _. split; [eexists; exact Ho | exact Ht].
    + intros _ e He. rewrite Ho in He. apply some_eq in He. subst e.
      apply range_error_mysql.
  - split.
    + intros _. split; [eexists; exact Ho | exact Ht].
    + intros _ e He. rewrite Ho in He. apply some_eq in He. subst e.
      apply range_error_mysql.
  - destruct (build_values_ok _ _ _ _ _ _ _ _ _ Hbv) as [Hno _].
    split.
    + intros Hv. contradiction.
    + intros _ e He. rewrite Ho in He. discriminate.
Qed.

Lemma range_validation_witness :
  (exists e, outcome (Submissions.save (Submissions.submission (Int 5) (Int 10) (Float 101) (Float 2000)) [])
             = Some e)
  /\ table_after (Submissions.save (Submissions.submission (Int 5) (Int 10) (Float 101) (Float 2000)) []) = [].
Proof.
  apply (proj1 (range_validation Submissions.numbers_only Submissions.healthy
                  (Some "alice") (Submissions.submission (Int 5) (Int 10) (Float 101) (Float 2000))
                  Submissions.snapshot Submissions.arrival [])).
  left. exists 101%float. split; [reflexivity|]. right. reflexivity.
Defined.

(** C3 as stated fails.  10.5 rooms sold against an inventory of 10 is
    not rejected: both are truncated to 10 before they are compared, and
    the row is stored with 10 rooms sold.  Nor is 2^53 + 1 rooms sold
    against an inventory of 2^53: [float] rounds both to 2^53.  And an
    occupancy that is NaN is neither below 0 nor above 100: it passes the
    test and the row that holds it is handed to the INSERT. *)
Lemma range_validation_counterexample :
  (claimed_range_violation Submissions.numbers_only
     (Submissions.submission (Float 10.5) (Int 10) (Float 50) (Float 1000))
   /\ outcome (Submissions.save
                 (Submissions.submission (Float 10.5) (Int 10) (Float 50) (Float 1000)) [])
      = None
   /\ exists row,
       table_after (Submissions.save
                      (Submissions.submission (Float 10.5) (Int 10) (Float 50) (Float 1000)) [])
       = [row]
       /\ rooms_sold row = 10%Z /\ total_room_inventory row = 10%Z)
  /\
  (claimed_range_violation Submissions.numbers_only
     (Submissions.submission (Int (Submissions.two53 + 1)) (Int Submissions.two53)
                             (Float 50) (Float 1000))
   /\ outcome (Submissions.save
                 (Submissions.submission (Int (Submissions.two53 + 1))
                                         (Int Submissions.two53)
                                         (Float 50) (Float 1000)) [])
      = None
   /\ exists row,
       table_after (Submissions.save
                      (Submissions.submission (Int (Submissions.two53 + 1))
                                              (Int Submissions.two53)
                                              (Float 50) (Float 1000)) [])
       = [row]
       /\ rooms_sold row = Submissions.two53
       /\ total_room_inventory row = Submissions.two53)
  /\
  (exists row,
      In (ExecuteInsert row)
         (events (Submissions.save
                    (Submissions.submission (Int 5) (Int 10) (Float PrimFloat.nan)
                                            (Float 1000)) []))
      /\ occupancy_percentage row = PrimFloat.nan).
Proof.
  split; [|split].
  - split.
    { right. left. eexists _, (inject_Z 10).
      split; [vm_compute; reflexivity|]. split; [reflexivity|].
      vm_compute. reflexivity. }
    split; [vm_compute; reflexivity|].
    eexists. split; [vm_compute; reflexivity|]. split; reflexivity.
  - split.
    { right. left.
      exists (inject_Z (Submissions.two53 + 1)), (inject_Z Submissions.two53).
      split; [reflexivity|]. split; [reflexivity|]. reflexivity. }
    split; [vm_compute; reflexivity|].
    eexists. split; [vm_compute; reflexivity|]. split; reflexivity.
  - eexists. split.
    + vm_compute. right. right. right. left. reflexivity.
    + reflexivity.
Qed.

Lemma trunc_integral (q : Q) (z : Z) :
  (q == inject_Z z)%Q -> Py.trunc q = z.
Proof.
  unfold Qeq, Py.trunc, inject_Z. simpl. intros H.
  rewrite Z.mul_1_r in H. rewrite H. apply Z.quot_mul. discriminate.
Qed.

(** *** Integers that are doubles *)

Lemma digits2_pos_shifted (m k : positive) :
  Z.pos (digits2_pos (Pos.iter xO m k)) = (Z.pos (digits2_pos m) + Z.pos k)%Z.
Proof.
  revert m. induction k using Pos.peano_ind; intros m.
  - simpl. lia.
  - rewrite Pos.iter_succ. simpl digits2_pos. rewrite Pos2Z.inj_succ, IHk. lia.
Qed.

Lemma shifted_value (m k : positive) :
  Z.pos (Pos.iter xO m k) = (Z.pos m * 2 ^ Z.pos k)%Z.
Proof.
  revert m. induction k using Pos.peano_ind; intros m.
  - simpl. lia.
  - rewrite Pos.iter_succ.
    rewrite Pos2Z.inj_xO, IHk, Pos2Z.inj_succ, Z.pow_succ_r by lia. lia.
Qed.

Lemma digits2_pos_bound (m : positive) (n : Z) :
  (0 <= n)%Z -> (Z.pos m < 2 ^ n)%Z -> (Z.pos (digits2_pos m) <= n)%Z.
Proof.
  revert n. induction m as [m IH|m IH|]; intros n Hn H.
  - simpl digits2_pos. rewrite Pos2Z.inj_succ.
    assert (Hn0 : n <> 0%Z) by (intros ->; simpl in H; lia).
    assert (Hm : (Z.pos m < 2 ^ (n - 1))%Z).
    { replace n with (Z.succ (n - 1)) in H by lia.
      rewrite Z.pow_succ_r in H by lia. lia. }
    specialize (IH (n - 1)%Z ltac:(lia) Hm). lia.
  - simpl digits2_pos. rewrite Pos2Z.inj_succ.
    assert (Hn0 : n <> 0%Z) by (intros ->; simpl in H; lia).
    assert (Hm : (Z.pos m < 2 ^ (n - 1))%Z).
    { replace n with (Z.succ (n - 1)) in H by lia.
      rewrite Z.pow_succ_r in H by lia. lia. }
    specialize (IH (n - 1)%Z ltac:(lia) Hm). lia.
  - simpl. assert (n <> 0%Z) by (intros ->; simpl in H; lia). lia.
Qed.

(** Rounding a positive integer below 2^53 to a double shifts it to 53
    digits and loses nothing. *)
Lemma binary_round_small (s : bool) (m : positive) :
  (Z.pos m < 2 ^ 53)%Z ->
  exists m' e, binary_round prec emax s m 0 = S754_finite s m' e
    /\ (e <= 0)%Z /\ Z.pos m' = (Z.pos m * 2 ^ (- e))%Z
    /\ valid_binary (S754_finite s m' e) = true.
Proof.
  intros H.
  pose proof (digits2_pos_bound m 53 ltac:(lia) H) as Hd.
  assert (Hd1 : (1 <= Z.pos (digits2_pos m))%Z) by lia.
  unfold binary_round.
  assert (Hf : fexp prec emax (Z.pos (digits2_pos m) + 0)
               = (Z.pos (digits2_pos m) - 53)%Z).
  { unfold fexp, SpecFloat.emin, prec, emax. lia. }
  rewrite Hf. unfold shl_align.
  destruct (Z.pos (digits2_pos m) - 53 - 0)%Z as [|p|p] eqn:E; try lia.
  - exists m, 0%Z.
    unfold binary_round_aux, shr_fexp. simpl Zdigits2.
    assert (Hf' : (fexp prec emax (Z.pos (digits2_pos m) + 0) - 0 = 0)%Z).
    { rewrite Hf. lia. }
    rewrite Hf'.
    cbn [shr shr_record_of_loc shr_m loc_of_shr_record round_nearest_even Zdigits2].
    rewrite Hf'. cbn [shr shr_m].
    split; [reflexivity|]. split; [lia|]. split; [simpl; lia|].
    unfold SpecFloat.valid_binary, bounded, canonical_mantissa.
    rewrite Z.add_0_r in Hf. rewrite Z.add_0_r, Hf.
    apply andb_true_intro. split; [apply Z.eqb_eq; lia | reflexivity].
  - exists (Pos.iter xO m p), (Z.pos (digits2_pos m) - 53)%Z.
    assert (Hdig : Z.pos (digits2_pos (Pos.iter xO m p)) = 53%Z).
    { rewrite digits2_pos_shifted. lia. }
    unfold binary_round_aux, shr_fexp. simpl Zdigits2.
    assert (Hf' : (fexp prec emax (Z.pos (digits2_pos (Pos.iter xO m p))
                                   + (Z.pos (digits2_pos m) - 53))
                   - (Z.pos (digits2_pos m) - 53) = 0)%Z).
    { rewrite Hdig. unfold fexp, SpecFloat.emin, prec, emax. lia. }
    rewrite Hf'.
    cbn [shr shr_record_of_loc shr_m loc_of_shr_record round_nearest_even Zdigits2].
    rewrite Hf'. cbn [shr shr_m].
    assert (Hle : (Z.pos (digits2_pos m) - 53 <=? emax - prec)%Z = true).
    { apply Z.leb_le. unfold emax, prec. lia. }
    rewrite Hle.
    split; [reflexivity|]. split; [lia|]. split.
    + rewrite shifted_value. f_equal. f_equal. lia.
    + unfold SpecFloat.valid_binary, bounded, canonical_mantissa.
      rewrite Hle, andb_true_r. apply Z.eqb_eq. rewrite Hdig.
      unfold fexp, SpecFloat.emin, prec, emax. lia.
Qed.

Lemma finite_is_not_infinity (s : bool) (m : positive) (e : Z) :
  valid_binary (S754_finite s m e) = true ->
  PrimFloat.is_infinity (SF2Prim (S754_finite s m e)) = false.
Proof.
  intros Hv. unfold PrimFloat.is_infinity.
  rewrite FloatAxioms.eqb_spec, FloatAxioms.abs_spec,
    (FloatAxioms.Prim2SF_SF2Prim _ Hv).
  reflexivity.
Qed.

Lemma exact_finite (s : bool) (m : positive) (e : Z) :
  valid_binary (S754_finite s m e) = true ->
  (e <= 0)%Z ->
  exists q, Py.exact (SF2Prim (S754_finite s m e)) = Some q
            /\ (q * inject_Z (2 ^ (- e))
                == inject_Z (if s then Z.neg m else Z.pos m))%Q.
Proof.
  intros Hv He. unfold Py.exact. rewrite (FloatAxioms.Prim2SF_SF2Prim _ Hv).
  eexists. split; [reflexivity|].
  destruct e as [|p|p]; try lia.
  - simpl. unfold Qeq. simpl. destruct s; lia.
  - unfold Qeq, Qmult, inject_Z. cbn [Qnum Qden].
    change (- Z.neg p)%Z with (Z.pos p).
    rewrite Pos2Z.inj_mul, Pos2Z.inj_pow. lia.
Qed.

(** [float] of an integer of magnitude up to 2^53 is that integer. *)
Lemma float_of_small_int (n : Z) :
  (Z.abs n <= 2 ^ 53)%Z ->
  exists x q, Py.float_of_int n = Py.Ok x /\ Py.exact x = Some q
              /\ (q == inject_Z n)%Q.
Proof.
  intros Hn.
  destruct (Z.eq_dec n (2 ^ 53)%Z) as [->|Hhi].
  { do 2 eexists. split; [vm_compute; reflexivity|].
    split; [vm_compute; reflexivity|]. reflexivity. }
  destruct (Z.eq_dec n (- 2 ^ 53)%Z) as [->|Hlo].
  { do 2 eexists. split; [vm_compute; reflexivity|].
    split; [vm_compute; reflexivity|]. reflexivity. }
  unfold Py.float_of_int.
  destruct n as [|m|m].
  - exists 0%float, 0%Q. repeat split; reflexivity.
  - destruct (binary_round_small false m ltac:(lia)) as (m' & e & Hr & He & Hm & Hv).
    cbn [binary_normalize]. rewrite Hr, (finite_is_not_infinity _ _ _ Hv).
    destruct (exact_finite _ _ _ Hv He) as (q & Hq & Hval).
    exists (SF2Prim (S754_finite false m' e)), q.
    split; [reflexivity|]. split; [exact Hq|].
    rewrite Hm in Hval.
    assert (Hpos : (0 < 2 ^ (- e))%Z) by (apply Z.pow_pos_nonneg; lia).
    unfold Qeq, Qmult, inject_Z in *. cbn [Qnum Qden] in *. nia.
  - destruct (binary_round_small true m ltac:(lia)) as (m' & e & Hr & He & Hm & Hv).
    cbn [binary_normalize]. rewrite Hr, (finite_is_not_infinity _ _ _ Hv).
    destruct (exact_finite _ _ _ Hv He) as (q & Hq & Hval).
    exists (SF2Prim (S754_finite true m' e)), q.
    split; [reflexivity|]. split; [exact Hq|].
    assert (Hneg : Z.neg m' = (- (Z.pos m * 2 ^ (- e)))%Z) by lia.
    rewrite Hneg in Hval.
    assert (Hpos : (0 < 2 ^ (- e))%Z) by (apply Z.pow_pos_nonneg; lia).
    unfold Qeq, Qmult, inject_Z in *. cbn [Qnum Qden] in *. nia.
Qed.

(** C7 (amended). For every submission accepted by [save_hotel_data],
    one row is appended.  Each of its float-valued fields (occupancy,
    revenue, ARR, revenue difference) holds [float] of the value
    submitted, and each of its integer-valued fields holds the exact
    value of that float truncated toward zero: the number submitted
    whenever [float] of it is that integer, as it is for every integer
    of magnitude up to 2^53, which is stored unchanged in either kind of
    field. *)
Theorem accepted_values_persisted :
  forall float_of_str srv session_user data s a db,
    outcome (save_hotel_data float_of_str srv session_user data s a db) = None ->
    exists row,
      table_after (save_hotel_data float_of_str srv session_user data s a db)
      = (db ++ [row])%list
      /\ stored_as float_of_str session_user data s a row
      /\ (forall key get x q z,
            In (key, get) int_fields ->
            submitted float_of_str data key = Some x ->
            Py.exact x = Some q ->
            (q == inject_Z z)%Q ->
            get row = z)
      /\ (forall key get n,
            In (key, get) int_fields ->
            data !! key = Some (Int n) ->
            (Z.abs n <= 2 ^ 53)%Z ->
            get row = n)
      /\ (forall key get n,
            In (key, get) float_fields ->
            data !! key = Some (Int n) ->
            (Z.abs n <= 2 ^ 53)%Z ->
            exists q, Py.exact (get row) = Some q /\ (q == inject_Z n)%Q).
Proof.
  intros float_of_str srv session_user data s a db Hout.
  destruct (save_cases float_of_str srv session_user data s a db)
    as [e0 st1 Hbv Ho Ht Hev | row st1 me Hbv _ Ho Ht Hev
        | row st1 me Hbv _ _ _ Ho Ht Hev | row st1 Hbv _ _ _ Ho Ht Hev];
    rewrite Ho in Hout; try discriminate.
  destruct (build_values_ok _ _ _ _ _ _ _ _ _ Hbv) as [_ Hrow].
  exists row. split; [exact Ht|]. split; [exact Hrow|].
  destruct Hrow as (Hfloats & Hints & _).
  assert (Hintegral : forall key get x q z,
             In (key, get) int_fields ->
             submitted float_of_str data key = Some x ->
             Py.exact x = Some q ->
             (q == inject_Z z)%Q ->
             get row = z).
  { intros key get x q z Hin Hx Hq Hz.
    destruct (Hints key get Hin) as (x' & q' & Hx' & Hq' & ->).
    rewrite Hx in Hx'. apply some_eq in Hx'. subst x'.
    rewrite Hq in Hq'. apply some_eq in Hq'. subst q'.
    apply trunc_integral, Hz. }
  assert (Hsmall : forall key n,
             data !! key = Some (Int n) -> (Z.abs n <= 2 ^ 53)%Z ->
             exists x q, submitted float_of_str data key = Some x
                         /\ Py.exact x = Some q /\ (q == inject_Z n)%Q).
  { intros key n Hkey Hn.
    destruct (float_of_small_int n Hn) as (x & q & Hx & Hq & Hval).
    exists x, q. unfold submitted, as_float. rewrite Hkey, Hx. auto. }
  split; [exact Hintegral|]. split.
  - intros key get n Hin Hkey Hn.
    destruct (Hsmall key n Hkey Hn) as (x & q & Hx & Hq & Hval).
    exact (Hintegral key get x q n Hin Hx Hq Hval).
  - intros key get n Hin Hkey Hn.
    destruct (Hsmall key n Hkey Hn) as (x & q & Hx & Hq & Hval).
    rewrite (Hfloats key get Hin) in Hx. apply some_eq in Hx. subst x.
    exists q. auto.
Qed.

Lemma accepted_values_persisted_witness :
  exists row,
    table_after (Submissions.save (Submissions.submission (Int 5) (Int 10) (Float 50) (Float 1000)) [])
    = ([] ++ [row])%list
    /\ stored_as Submissions.numbers_only (Some "alice")
                 (Submissions.submission (Int 5) (Int 10) (Float 50) (Float 1000))
                 Submissions.snapshot Submissions.arrival row
    /\ (forall key get x q z,
          In (key, get) int_fields ->
          submitted Submissions.numbers_only
                    (Submissions.submission (Int 5) (Int 10) (Float 50) (Float 1000)) key
          = Some x ->
          Py.exact x = Some q ->
          (q == inject_Z z)%Q ->
          get row = z)
    /\ (forall key get n,
          In (key, get) int_fields ->
          Submissions.submission (Int 5) (Int 10) (Float 50) (Float 1000) !! key
          = Some (Int n) ->
          (Z.abs n <= 2 ^ 53)%Z ->
          get row = n)
    /\ (forall key get n,
          In (key, get) float_fields ->
          Submissions.submission (Int 5) (Int 10) (Float 50) (Float 1000) !! key
          = Some (Int n) ->
          (Z.abs n <= 2 ^ 53)%Z ->
          exists q, Py.exact (get row) = Some q /\ (q == inject_Z n)%Q).
Proof.
  apply (accepted_values_persisted Submissions.numbers_only Submissions.healthy
           (Some "alice") (Submissions.submission (Int 5) (Int 10) (Float 50) (Float 1000))
           Submissions.snapshot Submissions.arrival []).
  vm_compute. reflexivity.
Defined.

(** C7 as stated fails.  10.5 rooms sold is accepted without any error
    and stored as 10; 2^53 + 1 rooms sold is accepted and stored as
    2^53, and a room revenue of 2^53 + 1 is stored as the float 2^53. *)
Lemma accepted_values_counterexample :
  (outcome (Submissions.save
              (Submissions.submission (Float 10.5) (Int 20) (Float 50) (Float 1000)) [])
   = None
   /\ exists row,
       table_after (Submissions.save
                      (Submissions.submission (Float 10.5) (Int 20) (Float 50)
                                              (Float 1000)) [])
       = [row]
       /\ rooms_sold row = 10%Z
       /\ ~ persisted_as_submitted Submissions.numbers_only
             (Submissions.submission (Float 10.5) (Int 20) (Float 50) (Float 1000)) row)
  /\
  (outcome (Submissions.save
              (Submissions.submission (Int (Submissions.two53 + 1))
                                      (Int (Submissions.two53 + 2)) (Float 50)
                                      (Int (Submissions.two53 + 1))) [])
   = None
   /\ exists row,
       table_after (Submissions.save
                      (Submissions.submission (Int (Submissions.two53 + 1))
                                              (Int (Submissions.two53 + 2)) (Float 50)
                                              (Int (Submissions.two53 + 1))) [])
       = [row]
       /\ rooms_sold row = Submissions.two53
       /\ Py.exact (room_revenue row) = Some (inject_Z Submissions.two53)
       /\ ~ persisted_as_submitted Submissions.numbers_only
             (Submissions.submission (Int (Submissions.two53 + 1))
                                     (Int (Submissions.two53 + 2)) (Float 50)
                                     (Int (Submissions.two53 + 1))) row).
Proof.
  split.
  - split; [vm_compute; reflexivity|].
    eexists. split; [vm_compute; reflexivity|]. split; [reflexivity|].
    intros [_ Hints].
    destruct (Hints "Rooms Sold" rooms_sold) as (q & Hq & Heq).
    { right. left. reflexivity. }
    vm_compute in Hq. apply some_eq in Hq. subst q.
    vm_compute in Heq. discriminate.
  - split; [vm_compute; reflexivity|].
    eexists. split; [vm_compute; reflexivity|]. split; [reflexivity|].
    split; [vm_compute; reflexivity|].
    intros [_ Hints].
    destruct (Hints "Rooms Sold" rooms_sold) as (q & Hq & Heq).
    { right. left. reflexivity. }
    vm_compute in Hq. apply some_eq in Hq. subst q.
    vm_compute in Heq. discriminate.
Qed.

(** *** Duplicates *)

Lemma date_eqb_refl (d : date) : date_eqb d d = true.
Proof. unfold date_eqb. rewrite !Z.eqb_refl. reflexivity. Qed.

Lemma pyval_eqb_refl (v : pyval) : pyval_eqb v v = true.
Proof.
  destruct v as [s|n|x]; simpl.
  - apply String.eqb_refl.
  - apply Z.eqb_refl.
  - apply FloatAxioms.Leibniz.eqb_spec. reflexivity.
Qed.

Lemma same_key_matching (r1 r2 : hotel_row) :
  snapshot_date r1 = snapshot_date r2 ->
  arrival_date r1 = arrival_date r2 ->
  actual_or_forecast r1 = actual_or_forecast r2 ->
  same_key r1 r2 = true.
Proof.
  intros Hs Ha Hf. unfold same_key. rewrite Hs, Ha, Hf.
  rewrite !date_eqb_refl, pyval_eqb_refl. reflexivity.
Qed.

Lemma filter_none {A} (p : A -> bool) (l : list A) :
  existsb p l = false -> List.filter p l = [].
Proof.
  induction l as [|x l IH]; simpl; [reflexivity|].
  intros H. apply orb_false_elim in H as [Hx Hl]. rewrite Hx. exact (IH Hl).
Qed.

Lemma duplicate_is_domain_error (srv : server) :
  unique_key srv = "unique_entry" ->
  save_except (MySQL (mkerr IntegrityError (duplicate_text srv)))
  = Exception DuplicateRecord.
Proof. intros H. unfold duplicate_text. rewrite H. reflexivity. Qed.

(** C4. Two submissions with the same (snapshot date, arrival date,
    actual/forecast), each acceptable on its own: once the first is
    stored, the second is rejected with the duplicate-record message of
    the application (the unique index being the one the handler looks
    for), and the table keeps the first row only. *)
Theorem duplicate_submission_rejected :
  forall float_of_str srv session_user data1 data2 s a db,
    unique_key srv = "unique_entry" ->
    data1 !! "actual_or_forecast" = data2 !! "actual_or_forecast" ->
    outcome (save_hotel_data float_of_str srv session_user data1 s a db) = None ->
    outcome (save_hotel_data float_of_str srv session_user data2 s a db) = None ->
    let first := save_hotel_data float_of_str srv session_user data1 s a db in
    let second :=
      save_hotel_data float_of_str srv session_user data2 s a (table_after first) in
    outcome second = Some (Exception DuplicateRecord)
    /\ table_after second = table_after first
    /\ exists row1,
        table_after first = (db ++ [row1])%list
        /\ stored_as float_of_str session_user data1 s a row1
        /\ List.filter (same_key row1) (table_after second) = [row1].
Proof.
  intros float_of_str srv session_user data1 data2 s a db Hkey Hsame H1 H2
         first second.
(* the first submission is stored *)
destruct (save_cases float_of_str srv session_user data1 s a db)
  as [e0 st1 Hbv Ho Ht Hev | row st1 me Hbv _ Ho Ht Hev
      | row st1 me Hbv _ _ _ Ho Ht Hev | row1 st1 Hbv1 _ Hfresh _ _ Ht1 _];
  try (rewrite Ho in H1; discriminate).
destruct (build_values_ok _ _ _ _ _ _ _ _ _ Hbv1) as [_ Hrow1].
(* the second one alone would be stored too *)
destruct (save_cases float_of_str srv session_user data2 s a db)
  as [e0 st2 Hbv Ho Ht Hev | row st2 me Hbv _ Ho Ht Hev
      | row st2 me Hbv _ _ _ Ho Ht Hev | row2 st2 Hbv2 Hins _ Hcom _ _ _];
  try (rewrite Ho in H2; discriminate).
destruct (build_values_ok _ _ _ _ _ _ _ _ _ Hbv2) as [_ Hrow2].
assert (Hclash : same_key row2 row1 = true).
{ destruct Hrow1 as (_ & _ & Hf1 & _ & Hs1 & Ha1 & _).
  destruct Hrow2 as (_ & _ & Hf2 & _ & Hs2 & Ha2 & _).
  apply same_key_matching; congruence. }
assert (Hdup : existsb (same_key row2) (table_after first) = true).
{ unfold first. rewrite Ht1, existsb_app. simpl. rewrite Hclash.
  rewrite !orb_true_r. reflexivity. }
assert (Hvalues : forall st row,
           build_values float_of_str srv session_user data2 s a
                        (initial (table_after first)) = (inr row, st) ->
           row = row2).
{ intros st row Hbv.
  pose proof (build_values_blind float_of_str srv session_user data2 s a
                (initial (table_after first)) (initial db)) as Hb.
  rewrite Hbv, Hbv2 in Hb. simpl in Hb. congruence. }
assert (Hsecond : outcome second = Some (Exception DuplicateRecord)
                  /\ table_after second = table_after first).
{ unfold second.
  destruct (save_cases float_of_str srv session_user data2 s a (table_after first))
    as [e0 st3 Hbv Ho Ht Hev | row st3 me Hbv Hwhy Ho Ht Hev
        | row st3 me Hbv _ Hnew _ Ho Ht Hev | row st3 Hbv _ Hnew _ Ho Ht Hev].
  - pose proof (build_values_blind float_of_str srv session_user data2 s a
                  (initial (table_after first)) (initial db)) as Hb.
    rewrite Hbv, Hbv2 in Hb. simpl in Hb. discriminate.
  - destruct Hwhy as [Hfault | (_ & _ & ->)]; [congruence|].
    rewrite Ho, (duplicate_is_domain_error srv Hkey). split; [reflexivity|exact Ht].
  - rewrite (Hvalues _ _ Hbv) in Hnew. congruence.
  - rewrite (Hvalues _ _ Hbv) in Hnew. congruence. }
destruct Hsecond as [Hout Htab].
split; [exact Hout|]. split; [exact Htab|].
exists row1. split; [exact Ht1|]. split; [exact Hrow1|].
rewrite Htab. unfold first. rewrite Ht1, List.filter_app, (filter_none _ _ Hfresh).
simpl. rewrite same_key_matching by reflexivity. reflexivity.
Qed.

Lemma duplicate_submission_rejected_witness :
  let first := Submissions.save (Submissions.submission (Int 5) (Int 10) (Float 50) (Float 1000)) [] in
  let second :=
    save_hotel_data Submissions.numbers_only Submissions.healthy (Some "alice")
      (Submissions.submission (Int 6) (Int 10) (Float 60) (Float 1200)) Submissions.snapshot
      Submissions.arrival (table_after first) in
  outcome second = Some (Exception DuplicateRecord)
  /\ table_after second = table_after first
  /\ exists row1,
      table_after first = ([] ++ [row1])%list
      /\ stored_as Submissions.numbers_only (Some "alice")
                   (Submissions.submission (Int 5) (Int 10) (Float 50) (Float 1000))
                   Submissions.snapshot Submissions.arrival row1
      /\ List.filter (same_key row1) (table_after second) = [row1].
Proof.
  apply (duplicate_submission_rejected Submissions.numbers_only
           Submissions.healthy (Some "alice")
           (Submissions.submission (Int 5) (Int 10) (Float 50) (Float 1000))
           (Submissions.submission (Int 6) (Int 10) (Float 60) (Float 1200))
           Submissions.snapshot Submissions.arrival []).
  - reflexivity.
  - vm_compute. reflexivity.
  - vm_compute. reflexivity.
  - vm_compute. reflexivity.
Defined.

(** *** Connections *)

(** [save_hotel_data] closes the connection it obtained, on every path. *)
Lemma save_hotel_data_closes_connection :
  forall float_of_str srv session_user data s a db,
    In Connect (events (save_hotel_data float_of_str srv session_user data s a db)) ->
    active_after_connect srv = true ->
    connected_at_exit srv = true ->
    In CloseConnection
       (events (save_hotel_data float_of_str srv session_user data s a db)).
Proof.
  intros float_of_str srv session_user data s a db Hin Hact Hexit.
  assert (Hclose : forall r st1,
             build_values float_of_str srv session_user data s a (initial db)
             = (r, st1) ->
             forall extra,
               ~ In Connect extra ->
               In Connect (trace st1 ++ extra ++ closing srv st1) ->
               In CloseConnection (trace st1 ++ extra ++ closing srv st1)).
  { intros r st1 Hbv extra Hextra Hc.
    destruct (build_values_frame _ _ _ _ _ _ _ _ _ Hbv)
      as (_ & _ & evs & Htr & _ & Hflags).
    simpl in Htr. rewrite !in_app_iff in Hc.
    destruct Hc as [Hc|[Hc|Hc]].
    - rewrite Htr in Hc. destruct (Hflags Hc Hact) as [Hconn Hcur].
      rewrite !in_app_iff. right. right.
      unfold closing. rewrite Hconn, Hcur, Hexit. simpl. auto.
    - contradiction.
    - exfalso. unfold closing in Hc.
      destruct (cursor st1), (connection st1 && connected_at_exit srv);
        simpl in Hc; repeat (destruct Hc as [Hc|Hc]; [discriminate|]);
        destruct Hc. }
  destruct (save_cases float_of_str srv session_user data s a db)
    as [e0 st1 Hbv Ho Ht Hev | row st1 me Hbv _ Ho Ht Hev
        | row st1 me Hbv _ _ _ Ho Ht Hev | row st1 Hbv _ _ _ Ho Ht Hev];
    rewrite Hev in *.
  - apply (Hclose _ _ Hbv []); [intros []|exact Hin].
  - apply (Hclose _ _ Hbv [ExecuteInsert row]); [|exact Hin].
    intros [H|[]]. discriminate.
  - apply (Hclose _ _ Hbv [ExecuteInsert row; Commit]); [|exact Hin].
    intros [H|[H|[]]]; discriminate.
  - apply (Hclose _ _ Hbv [ExecuteInsert row; Commit]); [|exact Hin].
    intros [H|[H|[]]]; discriminate.
Qed.

(** C6. The health check does not release its connection on every exit
    path: when the query fails after the connection was opened, the
    handler answers 500 and returns without closing the connection. *)
Theorem health_check_leaks_connection :
  health_check Submissions.dropping [] = (500%Z, [Connect; OpenCursor; ExecuteSelect])
  /\ In Connect (snd (health_check Submissions.dropping []))
  /\ ~ In CloseConnection (snd (health_check Submissions.dropping [])).
Proof.
  split; [reflexivity|]. split; [left; reflexivity|].
  intros H. simpl in H. repeat (destruct H as [H|H]; [discriminate|]). destruct H.
Qed.

(** On the same server [save_hotel_data] does close its connection. *)
Lemma save_hotel_data_closes_on_dropping_server :
  In CloseConnection
     (events (save_hotel_data Submissions.numbers_only Submissions.dropping
                (Some "alice") (Submissions.submission (Int 5) (Int 10) (Float 101) (Float 2000))
                Submissions.snapshot Submissions.arrival [])).
Proof.
  apply save_hotel_data_closes_connection.
  - vm_compute. tauto.
  - reflexivity.
  - reflexivity.
Qed.

End IngestTheorems.

(* ===================================================================== *)
(** * Further properties of the feature tables *)
(* ===================================================================== *)

Section FrameShape.
Import Py Calendar Frame Pipeline.

Lemma In_columns_setcol (f : frame) (n x : string) (c : column) :
  In x (columns (setcol f n c)) <-> x = n \/ In x (columns f).
Proof.
  induction f as [|[k v] f IH]; simpl.
  - intuition.
  - destruct (String.eqb k n) eqn:E; simpl.
    + apply String.eqb_eq in E. subst. intuition.
    + rewrite IH. intuition.
Qed.

Lemma In_setcol (f : frame) (n m : string) (c col : column) :
  In (m, col) (setcol f n c) -> (m = n /\ col = c) \/ In (m, col) f.
Proof.
  induction f as [|[k v] f IH]; simpl.
  - intros [H|[]]. inversion H. auto.
  - destruct (String.eqb k n) eqn:E; simpl.
    + apply String.eqb_eq in E. subst.
      intros [H|H]; [inversion H; auto | auto].
    + intros [H|H]; [auto|]. destruct (IH H); auto.
Qed.

Lemma getcol_Some_In (f : frame) (n : string) (c : column) :
  getcol f n = Some c -> In (n, c) f.
Proof.
  induction f as [|[k v] f IH]; simpl; [discriminate|].
  destruct (String.eqb k n) eqn:E.
  - apply String.eqb_eq in E. intros H. inversion H. subst. auto.
  - auto.
Qed.

Lemma In_columns_getcol (f : frame) (n : string) :
  In n (columns f) -> exists c, getcol f n = Some c /\ In (n, c) f.
Proof.
  induction f as [|[k v] f IH]; simpl; [intros []|].
  destruct (String.eqb k n) eqn:E.
  - apply String.eqb_eq in E. subst. intros _. exists v. auto.
  - intros [H|H]; [apply String.eqb_neq in E; contradiction|].
    destruct (IH H) as (c & Hc & Hin). exists c. auto.
Qed.

Lemma columns_bfill_all (f : frame) :
  columns (map (fun nc => (fst nc, bfill (snd nc))) f) = columns f.
Proof. unfold columns. rewrite map_map. reflexivity. Qed.

Lemma In_bfill_all (f : frame) (n : string) (c : column) :
  In (n, c) (map (fun nc => (fst nc, bfill (snd nc))) f) ->
  exists c0, In (n, c0) f /\ c = bfill c0.
Proof.
  rewrite in_map_iff. intros ([k v] & H & Hin). inversion H. subst.
  exists v. auto.
Qed.

Lemma lookup_In {A} (l : list A) (i : nat) (x : A) : l !! i = Some x -> In x l.
Proof.
  revert i. induction l as [|a l IH]; intros [|i] H; simpl in *; try discriminate.
  - inversion H. auto.
  - right. exact (IH i H).
Qed.

(** Once a back-filled column is missing at a row, it is missing below. *)
Lemma bfill_head_missing (col : column) (t : column) :
  bfill col = NaN :: t -> forall x, In x (bfill col) -> x = NaN.
Proof.
  revert t. induction col as [|a col IH]; intros t H x Hx; simpl in *.
  - destruct Hx.
  - destruct a; try discriminate.
    destruct (bfill col) as [|y r] eqn:E.
    + destruct Hx as [Hx|[]]. auto.
    + inversion H. subst y t.
      destruct Hx as [Hx|Hx]; [auto|]. exact (IH r eq_refl x Hx).
Qed.

Lemma bfill_settled (col : column) (i j : nat) (x : cell) :
  (i <= j)%nat ->
  bfill col !! i = Some NaN -> bfill col !! j = Some x -> x = NaN.
Proof.
  revert i j. induction col as [|a col IH]; intros i j Hij Hi Hj.
  - simpl in Hi. destruct i; discriminate.
  - destruct (bfill_cons a col) as [y Hy]. rewrite Hy in Hi, Hj.
    destruct i as [|i].
    + simpl in Hi. inversion Hi. subst y.
      apply (bfill_head_missing (a :: col) (bfill col) Hy).
      rewrite Hy. exact (lookup_In _ j x Hj).
    + destruct j as [|j]; [lia|]. simpl in Hi, Hj.
      apply (IH i j); [lia | exact Hi | exact Hj].
Qed.

Lemma bfill_unfold (x : cell) (rest : column) :
  bfill (x :: rest)
  = match x with
    | NaN => match bfill rest with y :: _ => y | [] => NaN end
    | _ => x
    end :: bfill rest.
Proof. destruct x; reflexivity. Qed.

Lemma bfill_idempotent (col : column) : bfill (bfill col) = bfill col.
Proof.
  induction col as [|a col IH]; [reflexivity|].
  rewrite (bfill_unfold a col).
  destruct a.
  - destruct (bfill col) as [|y r] eqn:E; [reflexivity|].
    rewrite bfill_unfold, IH. destruct y; reflexivity.
  - rewrite bfill_unfold, IH. reflexivity.
  - rewrite bfill_unfold, IH. reflexivity.
  - rewrite bfill_unfold, IH. reflexivity.
Qed.

End FrameShape.

Section PreparedShape.
Import Py Calendar Frame Pipeline.

Variable holidays : holiday_library.
Variable pandas_rolling : rolling_library.

Lemma setcol_all (P : column -> Prop) (f : frame) (n : string) (c : column) :
  (forall m col, In (m, col) f -> P col) -> P c ->
  forall m col, In (m, col) (setcol f n c) -> P col.
Proof.
  intros Hf Hc m col H. apply In_setcol in H as [[_ ->]|H]; [exact Hc|].
  exact (Hf m col H).
Qed.

Lemma add_exogenous_all (P : column -> Prop) (df : dataframe)
      (exog : list string) (f : frame) :
  (forall m col, In (m, col) f -> P col) ->
  (forall m col, getcol (data df) m = Some col -> P col) ->
  forall m col, In (m, col) (add_exogenous df exog f) -> P col.
Proof.
  unfold add_exogenous. revert f.
  induction exog as [|c exog IH]; intros f Hf Hdf; simpl; [exact Hf|].
  apply IH; [|exact Hdf].
  destruct (getcol (data df) c) as [v|] eqn:E; [|exact Hf].
  apply setcol_all; [exact Hf|]. exact (Hdf c v E).
Qed.

Lemma add_exogenous_columns (df : dataframe) (exog : list string)
      (f : frame) (x : string) :
  In x (columns (add_exogenous df exog f)) ->
  In x (columns f) \/ (In x exog /\ is_Some (getcol (data df) x)).
Proof.
  unfold add_exogenous. revert f.
  induction exog as [|c exog IH]; intros f H; simpl in *; [auto|].
  apply IH in H as [H|[H1 H2]]; [|auto].
  destruct (getcol (data df) c) as [v|] eqn:E; [|auto].
  apply In_columns_setcol in H as [->|H]; [|auto].
  right. split; [auto|]. rewrite E. eexists; reflexivity.
Qed.

Lemma rolling_values_length (W : nat) (agg : column -> cell) (y : column) :
  length (rolling_values W agg y) = length y.
Proof. unfold rolling_values. apply length_imap. Qed.

Lemma calendar_columns_all (P : column -> Prop) (f1 : frame) (dl : list date) :
  (forall m col, In (m, col) f1 -> P col) ->
  (forall col, length col = length dl -> P col) ->
  forall m col, In (m, col) (calendar_columns holidays f1 dl) -> P col.
Proof.
  intros Hf HP. unfold calendar_columns. cbn [fold_left seq].
  repeat (apply setcol_all;
          [| apply HP; unfold eq_int, isin_int, int_column;
             rewrite !length_map; reflexivity]).
  exact Hf.
Qed.

Lemma calendar_columns_names (f1 : frame) (dl : list date) (x : string) :
  In x (columns (calendar_columns holidays f1 dl)) ->
  In x (columns f1) \/ In x calendar_names.
Proof.
  unfold calendar_columns. cbn [fold_left seq].
  rewrite !In_columns_setcol. unfold calendar_names. cbn.
  intuition.
Qed.

Lemma rolled_all (P : column -> Prop) (y : column) (fc : frame) :
  (forall m col, In (m, col) fc -> P col) ->
  (forall col, length col = length y -> P col) ->
  forall m col, In (m, col) (rolled pandas_rolling y fc) -> P col.
Proof.
  intros Hf HP. unfold rolled.
  repeat (apply setcol_all; [| apply HP; apply rolling_values_length]).
  exact Hf.
Qed.

Lemma rolled_names (y : column) (fc : frame) (x : string) :
  In x (columns (rolled pandas_rolling y fc)) -> In x (columns fc) \/ In x rolling_names.
Proof.
  unfold rolled. rewrite !In_columns_setcol. unfold rolling_names. cbn.
  intuition.
Qed.

Lemma stamps_inj (l1 l2 : list date) : map Stamp l1 = map Stamp l2 -> l1 = l2.
Proof.
  revert l2. induction l1 as [|a l1 IH]; intros [|b l2] H; simpl in H;
    try discriminate; [reflexivity|].
  inversion H. f_equal. auto.
Qed.

(** Every column of the prepared table has one row per input date. *)
Lemma prepare_lengths df target exog f :
  prepare_prophet_data holidays pandas_rolling df target exog = Ok f ->
  (forall n c, getcol (data df) n = Some c -> length c = length (index df)) ->
  forall n c, In (n, c) f -> length c = length (index df).
Proof.
  intros H Hwf. apply prepare_inv in H as (y & dl & fr & Hy & Hds & Hfr & ->).
  assert (Hbase : forall m col, In (m, col) (base_columns df exog y) ->
                                length col = length (index df)).
  { unfold base_columns. apply add_exogenous_all; [|exact Hwf].
    intros m col [H|[H|[]]]; inversion H; subst.
    - apply length_map.
    - exact (Hwf _ _ Hy). }
  assert (Hdl : length dl = length (index df)).
  { rewrite <- (Hbase "ds" (map Stamp dl) (getcol_Some_In _ _ _ Hds)).
    symmetry. apply length_map. }
  assert (Hfc : forall m col,
             In (m, col) (calendar_columns holidays (base_columns df exog y) dl) ->
             length col = length (index df)).
  { apply calendar_columns_all; [exact Hbase|]. intros col Hc. congruence. }
  assert (Hall : forall m col, In (m, col) fr -> length col = length (index df)).
  { destruct (negb (forallb isna y)).
    - rewrite add_rolling_unfold in Hfr. destruct (numeric y); [|discriminate].
      inversion Hfr. apply rolled_all; [exact Hfc|].
      intros col Hc. rewrite Hc. exact (Hwf _ _ Hy).
    - inversion Hfr. subst fr. exact Hfc. }
  intros n c Hin. apply In_bfill_all in Hin as (c0 & Hin & ->).
  rewrite bfill_length. exact (Hall n c0 Hin).
Qed.

(** The names of the columns of a prepared table. *)
Lemma prepare_columns df target exog f x :
  prepare_prophet_data holidays pandas_rolling df target exog = Ok f ->
  In x (columns f) ->
  In x ["ds"; "y"] \/ (In x exog /\ is_Some (getcol (data df) x))
  \/ In x calendar_names \/ In x rolling_names.
Proof.
  intros H Hx. apply prepare_inv in H as (y & dl & fr & Hy & Hds & Hfr & ->).
  rewrite columns_bfill_all in Hx.
  assert (Hfc : forall x,
             In x (columns (calendar_columns holidays (base_columns df exog y) dl)) ->
             In x ["ds"; "y"] \/ (In x exog /\ is_Some (getcol (data df) x))
             \/ In x calendar_names).
  { intros z Hz. apply calendar_columns_names in Hz as [Hz|Hz]; [|auto].
    unfold base_columns in Hz. apply add_exogenous_columns in Hz as [Hz|Hz]; auto. }
  destruct (negb (forallb isna y)).
  - rewrite add_rolling_unfold in Hfr. destruct (numeric y); [|discriminate].
    inversion Hfr. subst fr. apply rolled_names in Hx as [Hx|Hx]; [|auto].
    destruct (Hfc x Hx) as [?|[?|?]]; auto.
  - inversion Hfr. subst fr. destruct (Hfc x Hx) as [?|[?|?]]; auto.
Qed.

End PreparedShape.

Section PreparedTable.
Import Py Calendar Frame Pipeline.

Lemma isna_numeric (y : column) : forallb isna y = true -> numeric y = true.
Proof.
  induction y as [|a y IH]; simpl; [reflexivity|].
  intros H. apply andb_prop in H as [Ha Hy]. destruct a; try discriminate.
  exact (IH Hy).
Qed.

Lemma add_exogenous_reads (df : dataframe) (exog : list string) (f : frame)
      (c : string) (col : column) :
  In c exog -> getcol (data df) c = Some col ->
  getcol (add_exogenous df exog f) c = Some col.
Proof.
  unfold add_exogenous. revert f.
  induction exog as [|a exog IH]; intros f Hin Hc; simpl; [destruct Hin|].
  destruct (in_dec string_dec c exog) as [Hlater|Hlater].
  - apply IH; assumption.
  - destruct Hin as [->|Hin]; [|contradiction].
    fold (add_exogenous df exog
            match getcol (data df) c with Some c0 => setcol f c c0 | None => f end).
    rewrite add_exogenous_other by exact Hlater.
    rewrite Hc. apply getcol_setcol_same.
Qed.

Lemma not_in_eqb (c : string) (names : list string) (n : string) :
  ~ In c names -> In n names -> String.eqb n c = false.
Proof.
  intros Hc Hn. apply String.eqb_neq. intros ->. contradiction.
Qed.

Lemma calendar_columns_other holidays (f1 : frame) (dl : list date) (c : string) :
  ~ In c calendar_names ->
  getcol (calendar_columns holidays f1 dl) c = getcol f1 c.
Proof.
  intros Hc. unfold calendar_columns. cbn [fold_left seq].
  repeat (rewrite getcol_setcol_ne;
          [| apply (not_in_eqb c calendar_names); [exact Hc | cbn; tauto]]).
  reflexivity.
Qed.

Lemma in_list_In (c : string) (names : list string) :
  in_list c names = false <-> ~ In c names.
Proof.
  unfold in_list. induction names as [|n names IH]; simpl.
  - split; [tauto | reflexivity].
  - rewrite orb_false_iff, IH, String.eqb_neq. intuition.
Qed.

Lemma int_column_complete (g : date -> Z) (dl : list date) :
  forallb (fun c => negb (isna c)) (int_column (map (fun d => Some (g d)) dl)) = true.
Proof. induction dl as [|d dl IH]; simpl; [reflexivity|]. exact IH. Qed.

(** The [ds] column of a prepared table is that of the table before the
    calendar columns were added. *)
Lemma prepare_ds_of_base holidays pandas_rolling df target exog f y :
  prepare_prophet_data holidays pandas_rolling df target exog = Ok f ->
  getcol (data df) target = Some y ->
  getcol f "ds" = getcol (base_columns df exog y) "ds".
Proof.
  intros H Hy0.
  apply prepare_inv in H as (y1 & dl & fr & Hy & Hds & Hfr & ->).
  rewrite Hy0 in Hy. apply some_eq in Hy. subst y1.
  rewrite getcol_bfill_all, (getcol_after_rolling pandas_rolling y _ fr "ds" Hfr eq_refl).
  unfold calendar_columns. cbn [fold_left seq].
  rewrite !getcol_setcol_ne by reflexivity.
  rewrite Hds. simpl. rewrite bfill_complete by apply stamps_complete. reflexivity.
Qed.

(** The calendar columns of a prepared table other than the indicators. *)
Lemma prepare_reads_calendar holidays pandas_rolling df target exog f dl :
  prepare_prophet_data holidays pandas_rolling df target exog = Ok f ->
  getcol f "ds" = Some (map Stamp dl) ->
  getcol f "is_weekend"
  = Some (isin_int [5%Z; 6%Z] (map (fun d => Some (dayofweek d)) dl))
  /\ getcol f "month" = Some (int_column (map (fun d => Some (month d)) dl))
  /\ getcol f "quarter" = Some (int_column (map (fun d => Some (quarter d)) dl)).
Proof.
  intros H Hdsf.
  pose proof H as H0.
  apply prepare_inv in H as (y & dl1 & fr & Hy & Hds & Hfr & ->).
  assert (dl1 = dl) as ->.
  { rewrite (prepare_ds_of_base _ _ _ _ _ _ y H0 Hy), Hds in Hdsf.
    apply some_eq in Hdsf. apply stamps_inj. exact Hdsf. }
  rewrite !getcol_bfill_all.
  rewrite (getcol_after_rolling pandas_rolling y _ fr "is_weekend" Hfr eq_refl),
    (getcol_after_rolling pandas_rolling y _ fr "month" Hfr eq_refl),
    (getcol_after_rolling pandas_rolling y _ fr "quarter" Hfr eq_refl).
  unfold calendar_columns.
  repeat split;
    repeat first [ rewrite getcol_setcol_same
                 | rewrite getcol_setcol_ne by reflexivity ];
    simpl; f_equal; apply bfill_complete.
  - unfold isin_int. rewrite map_map. apply of_bool_complete.
  - apply int_column_complete.
  - apply int_column_complete.
Qed.

(** X1. When every column of the input table has one cell per date of its
    index and no exogenous column is named [ds], the table returned by
    [prepare_prophet_data] has the input dates, in order, as its [ds]
    column, and each of its columns has one row per input date. *)
Theorem prepared_table_aligned_with_dates :
  forall holidays pandas_rolling df target exog f,
    prepare_prophet_data holidays pandas_rolling df target exog = Ok f ->
    (forall n c, getcol (data df) n = Some c -> length c = length (index df)) ->
    ~ In "ds" exog ->
    getcol f "ds" = Some (map Stamp (index df))
    /\ forall n c, In (n, c) f -> length c = length (index df).
Proof.
  intros holidays pandas_rolling df target exog f H Hwf Hds. split.
  - pose proof H as H0.
    apply prepare_inv in H as (y & dl & fr & Hy & _ & _ & _).
    rewrite (prepare_ds_of_base _ _ _ _ _ _ y H0 Hy).
    unfold base_columns. rewrite add_exogenous_other by exact Hds. reflexivity.
  - exact (prepare_lengths holidays pandas_rolling df target exog f H Hwf).
Qed.

Lemma prepared_table_aligned_with_dates_witness :
  getcol Sample.prepared "ds" = Some (map Stamp (index Sample.history))
  /\ forall n c, In (n, c) Sample.prepared -> length c = length (index Sample.history).
Proof.
  apply (prepared_table_aligned_with_dates Sample.fixed_holidays Sample.exact_rolling
           Sample.history "Room Revenue" ["Pax"; "ARR"] Sample.prepared).
  - vm_compute. reflexivity.
  - intros n c H. unfold Sample.history in H. cbn [data getcol] in H.
    destruct (String.eqb "Room Revenue" n); [inversion H; reflexivity|].
    destruct (String.eqb "Pax" n); [inversion H; reflexivity|]. discriminate.
  - simpl. intros [H|[H|[]]]; discriminate.
Defined.

(** X2. In every column of a table returned by [prepare_prophet_data] a
    missing value is followed by missing values only, and back-filling the
    column again changes nothing: what is still missing lies at the bottom
    of the column. *)
Theorem prepared_columns_have_no_gap :
  forall holidays pandas_rolling df target exog f n c,
    prepare_prophet_data holidays pandas_rolling df target exog = Ok f ->
    In (n, c) f ->
    bfill c = c
    /\ forall i j x, (i <= j)%nat -> c !! i = Some NaN -> c !! j = Some x -> x = NaN.
Proof.
  intros holidays pandas_rolling df target exog f n c H Hin.
  apply prepare_inv in H as (y & dl & fr & _ & _ & _ & ->).
  apply In_bfill_all in Hin as (c0 & _ & ->). split.
  - apply bfill_idempotent.
  - intros i j x. apply bfill_settled.
Qed.

Lemma prepared_columns_have_no_gap_witness :
  exists f c,
    prepare_prophet_data Sample.fixed_holidays Sample.exact_rolling
                         Sample.gapped "Room Revenue" [] = Ok f
    /\ getcol f "rolling_mean_7d" = Some c
    /\ bfill c = c
    /\ forall i j x, (i <= j)%nat -> c !! i = Some NaN -> c !! j = Some x -> x = NaN.
Proof.
  destruct (prepare_prophet_data Sample.fixed_holidays Sample.exact_rolling
              Sample.gapped "Room Revenue" []) as [f|e] eqn:E;
    [|vm_compute in E; discriminate].
  destruct (getcol f "rolling_mean_7d") as [c|] eqn:Ec;
    [|vm_compute in E; inversion E; subst f; vm_compute in Ec; discriminate].
  exists f, c. split; [reflexivity|]. split; [exact Ec|].
  apply (prepared_columns_have_no_gap Sample.fixed_holidays Sample.exact_rolling
           Sample.gapped "Room Revenue" [] f "rolling_mean_7d" c E).
  apply getcol_Some_In. exact Ec.
Defined.

(** X3. Naming an exogenous column that the input table lacks changes
    nothing: [prepare_prophet_data] returns what it returns for the list
    without the absent names. *)
Theorem absent_exogenous_columns_ignored :
  forall holidays pandas_rolling df target exog,
    prepare_prophet_data holidays pandas_rolling df target exog
    = prepare_prophet_data holidays pandas_rolling df target
        (List.filter (fun c => in_list c (columns (data df))) exog).
Proof.
  intros holidays pandas_rolling df target exog.
  assert (Hadd : forall f,
             add_exogenous df exog f
             = add_exogenous df (List.filter (fun c => in_list c (columns (data df))) exog) f).
  { unfold add_exogenous. induction exog as [|c exog IH]; intros f; simpl; [reflexivity|].
    destruct (in_list c (columns (data df))) eqn:Hc; simpl.
    - apply IH.
    - apply in_list_In in Hc.
      destruct (getcol (data df) c) as [v|] eqn:E; [|apply IH].
      exfalso. apply Hc. exact (getcol_In _ _ _ E). }
  unfold prepare_prophet_data.
  destruct (getitem (data df) target) as [y|e]; cbn [bind]; [|reflexivity].
  cbv zeta. rewrite Hadd. reflexivity.
Qed.

(** X4. An exogenous column that the input table has, and whose name is not
    that of a derived column, is in the prepared table as the input column,
    back-filled. *)
Theorem exogenous_columns_carried :
  forall holidays pandas_rolling df target exog f c col,
    prepare_prophet_data holidays pandas_rolling df target exog = Ok f ->
    In c exog ->
    getcol (data df) c = Some col ->
    ~ In c (calendar_names ++ rolling_names) ->
    getcol f c = Some (bfill col).
Proof.
  intros holidays pandas_rolling df target exog f c col H Hin Hc Hname.
  apply prepare_inv in H as (y & dl & fr & Hy & Hds & Hfr & ->).
  rewrite getcol_bfill_all.
  rewrite (getcol_after_rolling pandas_rolling y _ fr c Hfr).
  2:{ apply in_list_In. intros Hr. apply Hname. apply in_or_app. right. exact Hr. }
  rewrite calendar_columns_other.
  2:{ intros Hr. apply Hname. apply in_or_app. left. exact Hr. }
  unfold base_columns. rewrite (add_exogenous_reads df exog _ c col Hin Hc).
  reflexivity.
Qed.

Lemma exogenous_columns_carried_witness :
  getcol Sample.prepared "Pax"
  = Some (bfill (map (fun k => Num (inject_Z (Z.of_nat (20 + k)))) (seq 1 15))).
Proof.
  apply (exogenous_columns_carried Sample.fixed_holidays Sample.exact_rolling
           Sample.history "Room Revenue" ["Pax"; "ARR"] Sample.prepared "Pax").
  - vm_compute. reflexivity.
  - simpl. auto.
  - reflexivity.
  - vm_compute. intros H. repeat (destruct H as [H|H]; [discriminate|]). destruct H.
Defined.

(** X5. With no exogenous column named [ds], [prepare_prophet_data] raises
    [KeyError] for the target when the input table lacks it, returns a table
    when the target column holds numbers and missing values only, and raises
    when it holds anything else. *)
Theorem prepare_succeeds_iff_target_numeric :
  forall holidays pandas_rolling df target exog,
    ~ In "ds" exog ->
    match getcol (data df) target with
    | None =>
        prepare_prophet_data holidays pandas_rolling df target exog = Raise (KeyError target)
    | Some y =>
        if numeric y
        then exists f, prepare_prophet_data holidays pandas_rolling df target exog = Ok f
        else exists e, prepare_prophet_data holidays pandas_rolling df target exog = Raise e
    end.
Proof.
  intros holidays pandas_rolling df target exog Hds.
  destruct (getcol (data df) target) as [y|] eqn:Hy.
  - destruct (numeric y) eqn:Hn.
    + exact (prepare_prophet_data_returns holidays pandas_rolling df target exog y Hy Hn Hds).
    + assert (Hbase : getcol (base_columns df exog y) "ds" = Some (map Stamp (index df))).
      { unfold base_columns. rewrite add_exogenous_other by exact Hds. reflexivity. }
      rewrite (prepare_on_stamps holidays pandas_rolling df target exog y (index df) Hy Hbase).
      destruct (forallb isna y) eqn:Hna.
      * apply isna_numeric in Hna. congruence.
      * cbn [negb]. rewrite add_rolling_unfold, Hn. eexists. reflexivity.
  - unfold prepare_prophet_data, getitem. rewrite Hy. reflexivity.
Qed.

Lemma prepare_succeeds_iff_target_numeric_witness :
  (exists f, prepare_prophet_data Sample.fixed_holidays Sample.exact_rolling
               Sample.history "Room Revenue" ["Pax"; "ARR"] = Ok f)
  /\ prepare_prophet_data Sample.fixed_holidays Sample.exact_rolling
       Sample.history "Revenue" ["Pax"; "ARR"] = Raise (KeyError "Revenue").
Proof.
  split.
  - apply (prepare_succeeds_iff_target_numeric Sample.fixed_holidays Sample.exact_rolling
             Sample.history "Room Revenue" ["Pax"; "ARR"]).
    simpl. intros [H|[H|[]]]; discriminate.
  - apply (prepare_succeeds_iff_target_numeric Sample.fixed_holidays Sample.exact_rolling
             Sample.history "Revenue" ["Pax"; "ARR"]).
    simpl. intros [H|[H|[]]]; discriminate.
Defined.

End PreparedTable.

Section FutureShape.
Import Py Calendar Frame Pipeline Forecasts.

Variable holidays : holiday_library.

Lemma regressor_column_length reference_df dl c v :
  regressor_column holidays reference_df dl c = Ok v -> length v = length dl.
Proof.
  unfold regressor_column.
  destruct (startswith c "day_").
  { destruct (Py.getitem (split c "_"%char) 1); cbn [bind]; [|discriminate].
    destruct (int_of_str a); cbn [bind]; [|discriminate].
    intros H. inversion H. unfold eq_int. rewrite !length_map. reflexivity. }
  repeat match goal with
         | |- context [String.eqb c ?s] => destruct (String.eqb c s)
         end;
    try (intros H; inversion H; unfold isin_int, int_column;
         rewrite !length_map; reflexivity).
  destruct (getitem reference_df c); cbn [bind]; [|discriminate].
  destruct (iloc_last a); cbn [bind]; [|discriminate].
  intros H; inversion H. rewrite !length_map. reflexivity.
Qed.

(** A loop that ends has computed a column for every reference column
    it does not skip. *)
Lemma future_loop_total reference_df dl cols fd ff :
  for_each (future_regressor reference_df (holidays IN)) cols fd = Ok ff ->
  getcol fd "ds" = Some (map Stamp dl) ->
  forall c, In c cols -> in_list c ["ds"; "y"] = false ->
            exists v, regressor_column holidays reference_df dl c = Ok v.
Proof.
  revert fd. induction cols as [|a cols IH]; intros fd Hrun Hds c Hin Hc.
  - destruct Hin.
  - cbn [for_each] in Hrun.
    destruct (in_list a ["ds"; "y"]) eqn:Ha.
    + assert (Hskip : future_regressor reference_df (holidays IN) fd a = Ok fd).
      { unfold future_regressor. rewrite Ha. reflexivity. }
      rewrite Hskip in Hrun. cbn [bind] in Hrun.
      destruct Hin as [->|Hin]; [congruence|].
      exact (IH fd Hrun Hds c Hin Hc).
    + rewrite (future_regressor_on_stamps holidays reference_df fd dl a Hds Ha) in Hrun.
      destruct (regressor_column holidays reference_df dl a) as [va|e] eqn:Hva;
        cbn [bind] in Hrun; [|discriminate].
      destruct Hin as [->|Hin]; [exists va; exact Hva|].
      apply (IH (setcol fd a va) Hrun); [|exact Hin|exact Hc].
      rewrite getcol_setcol, (in_list_ds_y a Ha). exact Hds.
Qed.

(** The columns of the frame the loop ends with, and their lengths. *)
Lemma future_loop_shape reference_df dl cols fd ff :
  for_each (future_regressor reference_df (holidays IN)) cols fd = Ok ff ->
  getcol fd "ds" = Some (map Stamp dl) ->
  (forall x, In x (columns ff)
             <-> In x (columns fd) \/ (In x cols /\ in_list x ["ds"; "y"] = false))
  /\ ((forall m col, In (m, col) fd -> length col = length dl) ->
      forall m col, In (m, col) ff -> length col = length dl).
Proof.
  revert fd. induction cols as [|a cols IH]; intros fd Hrun Hds.
  - simpl in Hrun. inversion Hrun. subst ff. split; [|auto].
    intros x. simpl. tauto.
  - cbn [for_each] in Hrun.
    destruct (in_list a ["ds"; "y"]) eqn:Ha.
    + assert (Hskip : future_regressor reference_df (holidays IN) fd a = Ok fd).
      { unfold future_regressor. rewrite Ha. reflexivity. }
      rewrite Hskip in Hrun. cbn [bind] in Hrun.
      destruct (IH fd Hrun Hds) as [Hnames Hlen]. split; [|exact Hlen].
      intros x. rewrite Hnames. cbn [In]. split.
      * intros [H|[H1 H2]]; auto.
      * intros [H|[[->|H1] H2]]; [auto | congruence | auto].
    + rewrite (future_regressor_on_stamps holidays reference_df fd dl a Hds Ha) in Hrun.
      destruct (regressor_column holidays reference_df dl a) as [va|e] eqn:Hva;
        cbn [bind] in Hrun; [|discriminate].
      assert (Hds1 : getcol (setcol fd a va) "ds" = Some (map Stamp dl)).
      { rewrite getcol_setcol, (in_list_ds_y a Ha). exact Hds. }
      destruct (IH (setcol fd a va) Hrun Hds1) as [Hnames Hlen]. split.
      * intros x. rewrite Hnames, In_columns_setcol. cbn [In]. split.
        -- intros [[->|H]|[H1 H2]]; auto.
        -- intros [H|[[->|H1] H2]]; auto.
      * intros Hfd. apply Hlen. apply setcol_all; [exact Hfd|].
        exact (regressor_column_length _ _ _ _ Hva).
Qed.

End FutureShape.

Section FutureTheorems.
Import Py Calendar Frame Pipeline Forecasts.

(** X6. The frame [predict_for_dates] hands to the model has the column [ds]
    and every column of the reference table except [y], and no other; each
    of its columns has one row per requested date. *)
Theorem future_frame_columns :
  forall holidays dates reference_df ff,
    future_frame holidays dates reference_df = Ok ff ->
    (forall c, In c (columns ff)
               <-> c = "ds" \/ (In c (columns reference_df) /\ c <> "y"))
    /\ (forall n col, In (n, col) ff -> length col = length (to_datetime dates)).
Proof.
  intros holidays dates reference_df ff H. unfold future_frame in H.
  destruct (future_loop_shape holidays reference_df (to_datetime dates) _ _ ff H eq_refl)
    as [Hnames Hlen].
  split.
  - intros c. rewrite Hnames, in_list_In. cbn [columns map fst In]. split.
    + intros [[H1|[]]|[H1 H2]]; [auto|]. right. split; [exact H1|]. intros ->. tauto.
    + intros [->|[H1 H2]]; [auto|].
      destruct (string_dec c "ds") as [->|Hne]; [auto|].
      right. split; [exact H1|]. intros [E|[E|[]]]; congruence.
  - apply Hlen. intros m col [E|[]]. inversion E. apply length_map.
Qed.

Lemma future_frame_columns_witness :
  (forall c, In c (columns Sample.future)
             <-> c = "ds" \/ (In c (columns Sample.prepared) /\ c <> "y"))
  /\ (forall n col, In (n, col) Sample.future
                    -> length col = length (to_datetime Sample.requested)).
Proof.
  apply (future_frame_columns Sample.fixed_holidays Sample.requested
           Sample.prepared Sample.future).
  vm_compute. reflexivity.
Defined.

(** X7. A reference column that is neither [ds], [y], a calendar feature nor
    named [day_...] is held constant: in the frame built for the requested
    dates every row of that column holds the last value of the reference
    column. *)
Theorem other_regressors_held_at_last_value :
  forall holidays dates reference_df ff c col,
    future_frame holidays dates reference_df = Ok ff ->
    getcol reference_df c = Some col ->
    startswith c "day_" = false ->
    ~ In c ["ds"; "y"; "is_weekend"; "month"; "quarter"; "is_holiday"] ->
    exists v,
      iloc_last col = Ok v
      /\ getcol ff c = Some (map (fun _ => v) (to_datetime dates)).
Proof.
  intros holidays dates reference_df ff c col H Hc Hday Hname.
  assert (Hskip : in_list c ["ds"; "y"] = false).
  { apply in_list_In. intros Hin. apply Hname. simpl in *. tauto. }
  assert (Hcol : regressor_column holidays reference_df (to_datetime dates) c
                 = (let* v := iloc_last col in
                    Ok (map (fun _ => v) (map Stamp (to_datetime dates))))).
  { unfold regressor_column. rewrite Hday.
    assert (forall n, In n ["is_weekend"; "month"; "quarter"; "is_holiday"] ->
                      String.eqb c n = false) as Hne.
    { intros n Hn. apply String.eqb_neq. intros ->. apply Hname. simpl in *. tauto. }
    rewrite !Hne by (simpl; tauto).
    unfold getitem. rewrite Hc. reflexivity. }
  unfold future_frame in H.
  destruct (future_loop_total holidays reference_df (to_datetime dates) _ _ ff H
              eq_refl c (getcol_In _ _ _ Hc) Hskip) as [v0 Hv0].
  pose proof Hv0 as Hv1. rewrite Hcol in Hv1.
  destruct (iloc_last col) as [v|e]; cbn [bind] in Hv1; [|discriminate].
  exists v. split; [reflexivity|].
  rewrite map_map in Hv1. inversion Hv1. subst v0.
  destruct (future_loop holidays reference_df (to_datetime dates) _ _ ff H eq_refl)
    as [_ Hread].
  apply Hread; [exact Hskip | exact Hv0 |]. left. exact (getcol_In _ _ _ Hc).
Qed.

Lemma other_regressors_held_at_last_value_witness :
  exists v,
    iloc_last (bfill (map (fun k => Num (inject_Z (Z.of_nat (20 + k)))) (seq 1 15)))
    = Ok v
    /\ getcol Sample.future "Pax"
       = Some (map (fun _ => v) (to_datetime Sample.requested)).
Proof.
  apply (other_regressors_held_at_last_value Sample.fixed_holidays Sample.requested
           Sample.prepared Sample.future "Pax").
  - vm_compute. reflexivity.
  - vm_compute. reflexivity.
  - reflexivity.
  - simpl. intros H. repeat (destruct H as [H|H]; [discriminate|]). destruct H.
Defined.

(** X8. A reference table with a column whose name starts with [day_] and
    whose second underscore-separated part is not an integer ([day_of_week],
    say) makes [predict_for_dates] raise, whatever the dates and the model. *)
Theorem malformed_day_column_fails_prediction :
  forall holidays (Model random_state : Type)
         (predict : Model -> frame -> random_state -> result (frame * random_state))
         dates model reference_df rs c e0,
    In c (columns reference_df) ->
    startswith c "day_" = true ->
    (let* part := Py.getitem (split c "_"%char) 1 in int_of_str part) = Raise e0 ->
    exists e,
      predict_for_dates holidays Model random_state predict dates model reference_df rs
      = Raise e.
Proof.
  intros holidays Model random_state predict dates model reference_df rs c e0
         Hin Hday Hint.
  assert (Hname : ~ In c ["ds"; "y"]).
  { intros [<-|[<-|[]]]; discriminate. }
  unfold predict_for_dates.
  destruct (future_frame holidays dates reference_df) as [ff|e] eqn:Hff;
    cbn [bind]; [|eexists; reflexivity].
  exfalso. unfold future_frame in Hff.
  apply in_list_In in Hname.
  destruct (future_loop_total holidays reference_df (to_datetime dates) _ _ ff Hff
              eq_refl c Hin Hname) as [v Hv].
  unfold regressor_column in Hv. rewrite Hday in Hv.
  destruct (Py.getitem (split c "_"%char) 1) as [part|e1]; cbn [bind] in *;
    [|discriminate].
  rewrite Hint in Hv. discriminate.
Qed.

Lemma malformed_day_column_fails_prediction_witness :
  exists e,
    predict_for_dates Sample.fixed_holidays (list Byte.byte) Z toy_predict
      Sample.requested [Byte.x01]
      [("ds", [Stamp (mkdate 2025 7 1)]); ("y", [Num 1]); ("day_of_week", [Num 1])]
      5%Z
    = Raise e.
Proof.
  apply (malformed_day_column_fails_prediction Sample.fixed_holidays (list Byte.byte) Z
           toy_predict Sample.requested [Byte.x01] _ 5%Z "day_of_week"
           (ValueError "invalid literal for int() with base 10")).
  - simpl. auto.
  - reflexivity.
  - reflexivity.
Defined.

End FutureTheorems.

Section MoreFutureTheorems.
Import Py Calendar Frame Pipeline Forecasts.

Lemma iloc_last_nonempty (col : column) :
  col <> [] -> exists v, iloc_last col = Ok v.
Proof.
  intros H. unfold iloc_last.
  assert (exists v, List.last (map Some col) None = Some v) as [v ->].
  { induction col as [|a col IH]; [contradiction|].
    destruct col as [|b col]; [exists a; reflexivity|].
    destruct IH as [v Hv]; [discriminate|]. exists v. exact Hv. }
  eexists; reflexivity.
Qed.

Lemma lookup_map_at {A B} (g : A -> B) (l : list A) (i : nat) (a : A) :
  l !! i = Some a -> map g l !! i = Some (g a).
Proof. intros H. rewrite lookup_map, H. reflexivity. Qed.

Lemma at_row_ds (f : frame) (dl : list date) (i : nat) (d : date) :
  getcol f "ds" = Some (map Stamp dl) ->
  at_row f "ds" i = Some (Stamp d) -> dl !! i = Some d.
Proof.
  intros Hds H. unfold at_row in H. rewrite Hds in H.
  apply lookup_stamps in H as (d' & Hd & E). inversion E. subst. exact Hd.
Qed.

Lemma day_name_not_skipped (k : nat) :
  (k < 7)%nat -> in_list (day_name k) ["ds"; "y"] = false.
Proof. intros Hk. do 7 (destruct k as [|k]; [reflexivity|]). lia. Qed.

Lemma In_calendar_names (c : string) :
  In c calendar_names ->
  (exists k, (k < 7)%nat /\ c = day_name k)
  \/ In c ["is_weekend"; "month"; "quarter"; "is_holiday"].
Proof.
  unfold calendar_names. intros H. apply in_app_or in H as [H|H]; [left|right; exact H].
  apply in_map_iff in H as (k & <- & Hk). apply in_seq in Hk.
  exists k. split; [lia|reflexivity].
Qed.

(** The calendar columns of a prepared table, as functions of the date
    of the row. *)
Lemma prepared_calendar_columns holidays pandas_rolling df target exog f :
  prepare_prophet_data holidays pandas_rolling df target exog = Ok f ->
  exists dl,
    getcol f "ds" = Some (map Stamp dl)
    /\ forall c, In c calendar_names ->
         regressor_column (fun _ => holidays US) f dl c = getitem f c
         /\ exists g, getcol f c = Some (map g dl)
                      /\ forall dl', regressor_column (fun _ => holidays US) f dl' c
                                     = Ok (map g dl').
Proof.
  intros H.
  pose proof (prepare_reads holidays pandas_rolling df target exog f H)
    as (y & dl & _ & Hds & Hdays & Hhol & _).
  destruct (prepare_reads_calendar holidays pandas_rolling df target exog f dl H Hds)
    as (Hwk & Hmo & Hq).
  exists dl. split; [exact Hds|].
  intros c Hc. apply In_calendar_names in Hc as [(k & Hk & ->)|Hc].
  - rewrite regressor_column_day by exact Hk.
    unfold getitem. rewrite (Hdays k Hk). split; [reflexivity|].
    exists (fun d => of_bool (dayofweek d =? Z.of_nat k)%Z). split.
    + unfold eq_int. rewrite map_map. reflexivity.
    + intros dl'. rewrite regressor_column_day by exact Hk.
      unfold eq_int. rewrite map_map. reflexivity.
  - unfold getitem.
    destruct Hc as [<-|[<-|[<-|[<-|[]]]]].
    + rewrite Hwk. split; [reflexivity|].
      exists (fun d => of_bool (existsb (Z.eqb (dayofweek d)) [5%Z; 6%Z])). split.
      * unfold isin_int. rewrite map_map. reflexivity.
      * intros dl'. unfold regressor_column, isin_int. simpl. rewrite map_map.
        reflexivity.
    + rewrite Hmo. split; [reflexivity|].
      exists (fun d => of_int (month d)). split.
      * unfold int_column. rewrite map_map. reflexivity.
      * intros dl'. unfold regressor_column, int_column. simpl. rewrite map_map.
        reflexivity.
    + rewrite Hq. split; [reflexivity|].
      exists (fun d => of_int (quarter d)). split.
      * unfold int_column. rewrite map_map. reflexivity.
      * intros dl'. unfold regressor_column, int_column. simpl. rewrite map_map.
        reflexivity.
    + rewrite Hhol. split; [reflexivity|].
      exists (fun d => of_bool (holidays US d)). split; [reflexivity|].
      intros dl'. reflexivity.
Qed.

Lemma calendar_name_not_skipped (c : string) :
  In c calendar_names -> in_list c ["ds"; "y"] = false.
Proof.
  intros Hc. apply In_calendar_names in Hc as [(k & Hk & ->)|Hc].
  - exact (day_name_not_skipped k Hk).
  - destruct Hc as [<-|[<-|[<-|[<-|[]]]]]; reflexivity.
Qed.

(** X9. [add_regressors] with a prepared table as reference gives a date the
    calendar features ([day_0] to [day_6], [is_weekend], [month], [quarter],
    [is_holiday]) that the prepared table holds in the row of that date. *)
Theorem add_regressors_matches_training :
  forall holidays pandas_rolling df target exog reference_df future_df fa dl i j d c,
    prepare_prophet_data holidays pandas_rolling df target exog = Ok reference_df ->
    getcol future_df "ds" = Some (map Stamp dl) ->
    add_regressors holidays future_df reference_df = Ok fa ->
    at_row reference_df "ds" i = Some (Stamp d) ->
    dl !! j = Some d ->
    In c calendar_names ->
    is_Some (at_row fa c j)
    /\ at_row fa c j = at_row reference_df c i.
Proof.
  intros holidays pandas_rolling df target exog reference_df future_df fa dl i j d c
         Hprep Hds Hrun Hrow Hj Hc.
  destruct (prepared_calendar_columns holidays pandas_rolling df target exog reference_df Hprep)
    as (dlr & Hdsr & Hcols).
  destruct (Hcols c Hc) as (_ & g & Hg & Hreg).
  pose proof (at_row_ds reference_df dlr i d Hdsr Hrow) as Hi.
  unfold add_regressors in Hrun.
  destruct (future_loop (fun _ => holidays US) reference_df dl _ _ fa Hrun Hds)
    as [_ Hread].
  assert (Hfa : getcol fa c = Some (map g dl)).
  { apply Hread.
    - exact (calendar_name_not_skipped c Hc).
    - apply Hreg.
    - left. exact (getcol_In _ _ _ Hg). }
  unfold at_row. rewrite Hfa, Hg.
  rewrite (lookup_map_at g dl j d Hj), (lookup_map_at g dlr i d Hi).
  split; [eexists; reflexivity | reflexivity].
Qed.

Lemma add_regressors_matches_training_witness :
  exists fa,
    add_regressors Sample.fixed_holidays
      [("ds", map Stamp [mkdate 2025 7 20; mkdate 2025 7 4])] Sample.prepared = Ok fa
    /\ is_Some (at_row fa "is_holiday" 1)
    /\ at_row fa "is_holiday" 1 = at_row Sample.prepared "is_holiday" 3.
Proof.
  destruct (add_regressors Sample.fixed_holidays
              [("ds", map Stamp [mkdate 2025 7 20; mkdate 2025 7 4])] Sample.prepared)
    as [fa|e] eqn:E; [|vm_compute in E; discriminate].
  exists fa. split; [reflexivity|].
  apply (add_regressors_matches_training Sample.fixed_holidays Sample.exact_rolling
           Sample.history "Room Revenue" ["Pax"; "ARR"] Sample.prepared
           [("ds", map Stamp [mkdate 2025 7 20; mkdate 2025 7 4])] fa
           [mkdate 2025 7 20; mkdate 2025 7 4] 3%nat 1%nat (mkdate 2025 7 4)).
  - vm_compute. reflexivity.
  - reflexivity.
  - exact E.
  - vm_compute. reflexivity.
  - reflexivity.
  - vm_compute. tauto.
Defined.

(** X10. In every feature row, of a prepared table and of the frame built
    for requested dates from a reference table that has [day_5], [day_6] and
    [is_weekend], the weekend flag is the disjunction of the Saturday and
    Sunday indicators. *)
Theorem weekend_flag_matches_days :
  (forall holidays pandas_rolling df target exog f i c,
      prepare_prophet_data holidays pandas_rolling df target exog = Ok f ->
      at_row f "ds" i = Some c ->
      exists b5 b6,
        at_row f "day_5" i = Some (of_bool b5)
        /\ at_row f "day_6" i = Some (of_bool b6)
        /\ at_row f "is_weekend" i = Some (of_bool (b5 || b6)))
  /\
  (forall holidays dates reference_df ff i c,
      future_frame holidays dates reference_df = Ok ff ->
      In "day_5" (columns reference_df) ->
      In "day_6" (columns reference_df) ->
      In "is_weekend" (columns reference_df) ->
      at_row ff "ds" i = Some c ->
      exists b5 b6,
        at_row ff "day_5" i = Some (of_bool b5)
        /\ at_row ff "day_6" i = Some (of_bool b6)
        /\ at_row ff "is_weekend" i = Some (of_bool (b5 || b6))).
Proof.
  assert (Hrows : forall (f : frame) dl i c,
             getcol f "ds" = Some (map Stamp dl) ->
             getcol f "day_5" = Some (eq_int 5 (map (fun d => Some (dayofweek d)) dl)) ->
             getcol f "day_6" = Some (eq_int 6 (map (fun d => Some (dayofweek d)) dl)) ->
             getcol f "is_weekend"
             = Some (isin_int [5%Z; 6%Z] (map (fun d => Some (dayofweek d)) dl)) ->
             at_row f "ds" i = Some c ->
             exists b5 b6,
               at_row f "day_5" i = Some (of_bool b5)
               /\ at_row f "day_6" i = Some (of_bool b6)
               /\ at_row f "is_weekend" i = Some (of_bool (b5 || b6))).
  { intros f dl i c Hds H5 H6 Hw Hrow. unfold at_row in *.
    rewrite Hds in Hrow. apply lookup_stamps in Hrow as (d & Hd & _).
    rewrite H5, H6, Hw. unfold eq_int, isin_int. rewrite !lookup_map, Hd. simpl.
    exists (dayofweek d =? 5)%Z, (dayofweek d =? 6)%Z.
    rewrite orb_false_r. auto. }
  split.
  - intros holidays pandas_rolling df target exog f i c H Hrow.
    pose proof (prepare_reads holidays pandas_rolling df target exog f H)
      as (y & dl & _ & Hds & Hdays & _).
    destruct (prepare_reads_calendar holidays pandas_rolling df target exog f dl H Hds)
      as (Hwk & _).
    apply (Hrows f dl i c Hds (Hdays 5%nat ltac:(lia)) (Hdays 6%nat ltac:(lia)) Hwk Hrow).
  - intros holidays dates reference_df ff i c H H5 H6 Hw Hrow.
    apply future_frame_reads in H as [Hds Hread].
    apply (Hrows ff (to_datetime dates) i c Hds); [| | |exact Hrow];
      apply Hread; auto.
Qed.

Lemma weekend_flag_matches_days_witness :
  (exists b5 b6,
      at_row Sample.prepared "day_5" 4 = Some (of_bool b5)
      /\ at_row Sample.prepared "day_6" 4 = Some (of_bool b6)
      /\ at_row Sample.prepared "is_weekend" 4 = Some (of_bool (b5 || b6)))
  /\ at_row Sample.prepared "is_weekend" 4 = Some (Num 1).
Proof.
  split; [|vm_compute; reflexivity].
  apply (proj1 weekend_flag_matches_days Sample.fixed_holidays Sample.exact_rolling
               Sample.history "Room Revenue" ["Pax"; "ARR"] Sample.prepared
               4%nat (Stamp (mkdate 2025 7 5))).
  - vm_compute. reflexivity.
  - vm_compute. reflexivity.
Defined.

(** X11. A table returned by [prepare_prophet_data] for a non-empty input
    whose columns have one cell per date, with no exogenous column whose
    name starts with [day_], can serve as reference table: the regressor
    frame of [predict_for_dates] is built for any dates. *)
Theorem prepared_table_serves_as_reference :
  forall holidays pandas_rolling df target exog reference_df dates,
    prepare_prophet_data holidays pandas_rolling df target exog = Ok reference_df ->
    (forall n c, getcol (data df) n = Some c -> length c = length (index df)) ->
    index df <> [] ->
    (forall c, In c exog -> startswith c "day_" = false) ->
    exists ff, future_frame holidays dates reference_df = Ok ff.
Proof.
  intros holidays pandas_rolling df target exog reference_df dates H Hwf Hrows Hexog.
  apply future_frame_returns. intros c Hin Hskip.
  assert (Helse : startswith c "day_" = false ->
                  exists v, regressor_column holidays reference_df (to_datetime dates) c
                            = Ok v).
  { intros Hday. unfold regressor_column. rewrite Hday.
    repeat match goal with
           | |- context [String.eqb c ?s] =>
               destruct (String.eqb c s); [eexists; reflexivity|]
           end.
    destruct (In_columns_getcol _ _ Hin) as (col & Hcol & Hmem).
    unfold getitem. rewrite Hcol. cbn [bind].
    destruct (iloc_last_nonempty col) as [v Hv].
    { intros ->. apply Hrows.
      pose proof (prepare_lengths holidays pandas_rolling df target exog reference_df H Hwf
                    c [] Hmem) as Hlen.
      destruct (index df); [reflexivity|discriminate]. }
    rewrite Hv. cbn [bind]. eexists; reflexivity. }
  destruct (prepare_columns holidays pandas_rolling df target exog reference_df c H Hin)
    as [Hc|[[Hc _]|[Hc|Hc]]].
  - apply in_list_In in Hskip. contradiction.
  - exact (Helse (Hexog c Hc)).
  - apply In_calendar_names in Hc as [(k & Hk & ->)|Hc].
    + rewrite regressor_column_day by exact Hk. eexists; reflexivity.
    + apply Helse. destruct Hc as [<-|[<-|[<-|[<-|[]]]]]; reflexivity.
  - apply Helse. destruct Hc as [<-|[<-|[<-|[<-|[]]]]]; reflexivity.
Qed.

Lemma prepared_table_serves_as_reference_witness :
  exists ff, future_frame Sample.fixed_holidays Sample.requested Sample.prepared = Ok ff.
Proof.
  apply (prepared_table_serves_as_reference Sample.fixed_holidays Sample.exact_rolling
           Sample.history "Room Revenue" ["Pax"; "ARR"] Sample.prepared).
  - vm_compute. reflexivity.
  - intros n c H. unfold Sample.history in H. cbn [data getcol] in H.
    destruct (String.eqb "Room Revenue" n); [inversion H; reflexivity|].
    destruct (String.eqb "Pax" n); [inversion H; reflexivity|]. discriminate.
  - discriminate.
  - intros c [<-|[<-|[]]]; reflexivity.
Defined.

End MoreFutureTheorems.

Section Persistence.
Import Py Calendar Frame Pipeline Retraining.

Lemma retrain_prepares holidays pandas_rolling (lib : forecaster) df exog_cols
      model prophet_data :
  retrain holidays pandas_rolling lib df exog_cols = Ok (model, prophet_data) ->
  prepare_prophet_data holidays pandas_rolling df "Room Revenue" exog_cols
  = Ok prophet_data.
Proof.
  unfold retrain. intros E.
  destruct (prepare_prophet_data holidays pandas_rolling df "Room Revenue" exog_cols)
    as [pd|e]; cbn [bind] in E; [|discriminate].
  destruct (Prophet lib _) as [m0|e]; cbn [bind] in E; [|discriminate].
  destruct (for_each _ _ m0) as [m1|e]; cbn [bind] in E; [|discriminate].
  destruct (fit lib m1 pd) as [m2|e]; cbn [bind] in E; [|discriminate].
  inversion E. reflexivity.
Qed.

(** The ways a retraining can go. *)
Lemma retrain_model_cases holidays pandas_rolling (lib : forecaster) resolve
      df exog_cols model_path fs :
  retrain_model_with_new_data holidays pandas_rolling lib resolve df exog_cols
                              model_path fs
  = match retrain holidays pandas_rolling lib df exog_cols with
    | Raise e => (Raise e, fs)
    | Ok (model, prophet_data) =>
        match path_given model_path with
        | None => (Ok (model, prophet_data), fs)
        | Some path =>
            match resolve path with
            | Nowhere =>
                (Raise (FileNotFoundError ("No such file or directory: " ++ path)), fs)
            | Directory =>
                (Raise (IsADirectoryError ("Is a directory: " ++ path)), fs)
            | File file =>
                (match snd (pickle_dump lib model) with
                 | None => Ok (model, prophet_data)
                 | Some e => Raise e
                 end, <[file := fst (pickle_dump lib model)]> fs)
            end
        end
    end.
Proof.
  unfold retrain_model_with_new_data.
  destruct (retrain holidays pandas_rolling lib df exog_cols)
    as [[model prophet_data]|e]; [|reflexivity].
  destruct (path_given model_path) as [path|]; [|reflexivity].
  destruct (resolve path) as [| |file] eqn:Hfile.
  - unfold save_model. rewrite Hfile. reflexivity.
  - unfold save_model. rewrite Hfile. reflexivity.
  - rewrite (save_model_written _ _ _ _ _ file _ Hfile).
    destruct (snd (pickle_dump lib model)); reflexivity.
Qed.

(** X13. [retrain_model_with_new_data] touches at most the file its path
    names, and only after the preparation and the fit have succeeded.
    When the preparation, the construction or the fit raises, it raises
    the same and the files are unchanged.  When it returns a model and a
    table, the table is the prepared table and either no path was given
    (or an empty one) and the files are unchanged, or the file the path
    names holds the dump of the returned model.  Once the fit has
    succeeded and the path names a file, that file holds what the dump
    wrote, also when the dump failed: the call then raises and the
    former content of the file is lost. *)
Theorem retraining_saves_only_a_fitted_model :
  forall holidays pandas_rolling (lib : forecaster) resolve
         df exog_cols model_path fs,
    let run := retrain_model_with_new_data holidays pandas_rolling lib resolve
                 df exog_cols model_path fs in
    (forall e, retrain holidays pandas_rolling lib df exog_cols = Raise e ->
               run = (Raise e, fs))
    /\ (forall model prophet_data,
          fst run = Ok (model, prophet_data) ->
          prepare_prophet_data holidays pandas_rolling df "Room Revenue" exog_cols
          = Ok prophet_data
          /\ match path_given model_path with
             | None => snd run = fs
             | Some path =>
                 exists file,
                   resolve path = File file
                   /\ snd (pickle_dump lib model) = None
                   /\ snd run = <[file := fst (pickle_dump lib model)]> fs
             end)
    /\ (forall other,
          (forall path, path_given model_path = Some path ->
                        resolve path <> File other) ->
          snd run !! other = fs !! other)
    /\ (forall path file model prophet_data,
          path_given model_path = Some path ->
          resolve path = File file ->
          retrain holidays pandas_rolling lib df exog_cols = Ok (model, prophet_data) ->
          snd run !! file = Some (fst (pickle_dump lib model))
          /\ forall e, snd (pickle_dump lib model) = Some e -> fst run = Raise e).
Proof.
  intros holidays pandas_rolling lib resolve df exog_cols model_path fs run.
  subst run. rewrite retrain_model_cases.
  split; [|split; [|split]].
  - intros e He. rewrite He. reflexivity.
  - intros model prophet_data Hrun.
    destruct (retrain holidays pandas_rolling lib df exog_cols)
      as [[m t]|e] eqn:E; [|discriminate].
    destruct (path_given model_path) as [path|].
    + destruct (resolve path) as [| |file]; [discriminate|discriminate|].
      destruct (snd (pickle_dump lib m)) eqn:Hdump; [discriminate|].
      cbn [fst snd] in *. inversion Hrun. subst m t.
      split; [exact (retrain_prepares _ _ _ _ _ _ _ E)|].
      exists file. auto.
    + cbn [fst snd] in *. inversion Hrun. subst m t.
      split; [exact (retrain_prepares _ _ _ _ _ _ _ E)|reflexivity].
  - intros other Hother.
    destruct (retrain holidays pandas_rolling lib df exog_cols)
      as [[m t]|e]; [|reflexivity].
    destruct (path_given model_path) as [path|]; [|reflexivity].
    destruct (resolve path) as [| |file] eqn:Hfile; [reflexivity|reflexivity|].
    cbn [snd]. apply lookup_insert_ne. intros ->.
    exact (Hother path eq_refl Hfile).
  - intros path file model prophet_data Hpath Hfile Hfit.
    rewrite Hfit, Hpath, Hfile. cbn [fst snd]. split.
    + apply lookup_insert_eq.
    + intros e He. rewrite He. reflexivity.
Qed.

(** With a serialiser that fails, the retraining raises and the model
    file it was to replace holds the byte written before the failure. *)
Lemma failed_dump_loses_the_model_file :
  let run := retrain_model_with_new_data Sample.fixed_holidays Sample.exact_rolling
               unpicklable_forecaster flat Sample.history ["Pax"]
               (Some "final_model.pkl")
               (<["final_model.pkl" := [Byte.x07; Byte.x08; Byte.x09]]> ∅) in
  fst run = Raise (TypeError "cannot pickle object")
  /\ snd run !! "final_model.pkl" = Some [Byte.x01].
Proof.
  cbv zeta. rewrite retrain_model_cases.
  assert (Hfit : exists t,
             retrain Sample.fixed_holidays Sample.exact_rolling unpicklable_forecaster
                     Sample.history ["Pax"]
             = Ok (repeat Byte.x01 16, t)).
  { eexists. vm_compute. reflexivity. }
  destruct Hfit as [t ->].
  cbn [path_given String.eqb Ascii.eqb Bool.eqb flat unpicklable_forecaster
       pickle_dump repeat fst snd].
  split; [reflexivity|]. apply lookup_insert_eq.
Qed.

End Persistence.

(* ===================================================================== *)
(** * Further properties of the ingestion *)
(* ===================================================================== *)

Section MoreIngestTheorems.
Import Calendar Ingest App.

(** X14. Whenever [save_hotel_data] raises, whatever the reason (a rejected
    value, a refused INSERT, a failed commit, a lost connection), the table
    is left as it was. *)
Theorem failed_save_stores_nothing :
  forall float_of_str srv session_user data s a db e,
    outcome (save_hotel_data float_of_str srv session_user data s a db) = Some e ->
    table_after (save_hotel_data float_of_str srv session_user data s a db) = db.
Proof.
  intros float_of_str srv session_user data s a db e Ho.
  destruct (save_cases float_of_str srv session_user data s a db)
    as [e0 st1 _ _ Ht _ | row st1 me _ _ _ Ht _
        | row st1 me _ _ _ _ _ Ht _ | row st1 _ _ _ _ Hnone _ _].
  - exact Ht.
  - exact Ht.
  - exact Ht.
  - congruence.
Qed.

Lemma failed_save_stores_nothing_witness :
  In Commit (events (save_hotel_data Submissions.numbers_only commit_failing
                       (Some "alice") (Submissions.submission (Int 5) (Int 10) (Float 50) (Float 1000))
                       Submissions.snapshot Submissions.arrival []))
  /\ table_after (save_hotel_data Submissions.numbers_only commit_failing
                    (Some "alice") (Submissions.submission (Int 5) (Int 10) (Float 50) (Float 1000))
                    Submissions.snapshot Submissions.arrival []) = [].
Proof.
  split.
  - vm_compute. tauto.
  - apply (failed_save_stores_nothing Submissions.numbers_only commit_failing
             (Some "alice") (Submissions.submission (Int 5) (Int 10) (Float 50) (Float 1000))
             Submissions.snapshot Submissions.arrival []
             (Exception (SaveFailed "2013 (HY000): Lost connection to MySQL server during query"))).
    vm_compute. reflexivity.
Defined.

Lemma quiet_not_release (evs : list event) :
  forallb quiet evs = true -> forallb (fun ev => negb (releases ev)) evs = true.
Proof.
  induction evs as [|ev evs IH]; simpl; [reflexivity|].
  intros H. apply andb_prop in H as [H1 H2]. rewrite (IH H2).
  destruct ev; try discriminate; reflexivity.
Qed.

(** X15. On every path of [save_hotel_data] on which a connection was
    obtained (and is still connected at exit), the calls end with the
    closing of the cursor and then of the connection, and nothing is closed
    before that. *)
Theorem save_releases_connection_last :
  forall float_of_str srv session_user data s a db,
    In Connect (events (save_hotel_data float_of_str srv session_user data s a db)) ->
    active_after_connect srv = true ->
    connected_at_exit srv = true ->
    exists before,
      events (save_hotel_data float_of_str srv session_user data s a db)
      = (before ++ [CloseCursor; CloseConnection])%list
      /\ forallb (fun ev => negb (releases ev)) before = true.
Proof.
  intros float_of_str srv session_user data s a db Hin Hact Hexit.
  assert (Hclose : forall r st1 extra,
             build_values float_of_str srv session_user data s a (initial db)
             = (r, st1) ->
             forallb (fun ev => negb (releases ev)) extra = true ->
             ~ In Connect extra ->
             In Connect (trace st1 ++ extra ++ closing srv st1) ->
             exists before,
               (trace st1 ++ extra ++ closing srv st1
                = before ++ [CloseCursor; CloseConnection])%list
               /\ forallb (fun ev => negb (releases ev)) before = true).
  { intros r st1 extra Hbv Hextra Hnot Hc.
    destruct (build_values_frame _ _ _ _ _ _ _ _ _ Hbv)
      as (_ & _ & evs & Htr & Hquiet & Hflags).
    simpl in Htr.
    assert (Hevs : In Connect evs).
    { rewrite !in_app_iff in Hc. destruct Hc as [Hc|[Hc|Hc]].
      - rewrite Htr in Hc. exact Hc.
      - contradiction.
      - exfalso. unfold closing in Hc.
        destruct (cursor st1), (connection st1 && connected_at_exit srv);
          simpl in Hc; repeat (destruct Hc as [Hc|Hc]; [discriminate|]);
          destruct Hc. }
    destruct (Hflags Hevs Hact) as [Hconn Hcur].
    exists (evs ++ extra)%list. split.
    - unfold closing. rewrite Hconn, Hcur, Hexit, Htr. simpl.
      rewrite <- app_assoc. reflexivity.
    - rewrite forallb_app, (quiet_not_release evs Hquiet), Hextra. reflexivity. }
  destruct (save_cases float_of_str srv session_user data s a db)
    as [e0 st1 Hbv Ho Ht Hev | row st1 me Hbv _ Ho Ht Hev
        | row st1 me Hbv _ _ _ Ho Ht Hev | row st1 Hbv _ _ _ Ho Ht Hev];
    rewrite Hev in *.
  - destruct (Hclose _ st1 [] Hbv eq_refl (fun H => H)) as [before Hb];
      [rewrite app_nil_l; exact Hin|].
    exists before. rewrite app_nil_l in Hb. exact Hb.
  - apply (Hclose _ st1 [ExecuteInsert row] Hbv eq_refl); [|exact Hin].
    intros [H|[]]. discriminate.
  - apply (Hclose _ st1 [ExecuteInsert row; Commit] Hbv eq_refl); [|exact Hin].
    intros [H|[H|[]]]; discriminate.
  - apply (Hclose _ st1 [ExecuteInsert row; Commit] Hbv eq_refl); [|exact Hin].
    intros [H|[H|[]]]; discriminate.
Qed.

Lemma save_releases_connection_last_witness :
  exists before,
    events (Submissions.save (Submissions.submission (Int 5) (Int 10) (Float 101) (Float 2000)) [])
    = (before ++ [CloseCursor; CloseConnection])%list
    /\ forallb (fun ev => negb (releases ev)) before = true.
Proof.
  apply (save_releases_connection_last Submissions.numbers_only Submissions.healthy
           (Some "alice") (Submissions.submission (Int 5) (Int 10) (Float 101) (Float 2000))
           Submissions.snapshot Submissions.arrival []).
  - vm_compute. tauto.
  - reflexivity.
  - reflexivity.
Defined.

(** The health check answers 200 exactly when the probe ran and
    succeeded, and has then closed the cursor and the connection. *)
Lemma health_check_reports_the_probe :
  forall srv db,
    (fst (health_check srv db) = 200%Z
     <-> connect_fault srv = None /\ active_after_connect srv = true
         /\ select_fault srv = None)
    /\ (fst (health_check srv db) = 200%Z \/ fst (health_check srv db) = 500%Z)
    /\ (fst (health_check srv db) = 200%Z ->
        snd (health_check srv db)
        = [Connect; OpenCursor; ExecuteSelect; CloseCursor; CloseConnection]).
Proof.
  intros srv db. unfold health_check, health_try, get_db_connection.
  destruct (connect_fault srv) as [d|];
    [cbn; repeat split; try tauto; try discriminate; intros (H & _); discriminate|].
  destruct (active_after_connect srv);
    [|cbn; repeat split; try tauto; try discriminate; intros (_ & H & _); discriminate].
  destruct (select_fault srv) as [e|];
    [cbn; repeat split; try tauto; try discriminate; intros (_ & _ & H); discriminate|].
  cbn. repeat split; tauto.
Qed.

End MoreIngestTheorems.

(* ===================================================================== *)
(** * Sessions, the form handler and the paginated read *)
(* ===================================================================== *)

Section ConnectorFacts.
Import Ingest.

(** The two embeddings of [get_db_connection] raise the same exceptions
    and ask for the connection in the same cases. *)
Lemma get_db_connection_agrees {S Q : Type} (srv : server)
      (st : Db.state S Q) (st' : state) :
  fst (Db.get_db_connection srv st) = fst (App.get_db_connection srv st')
  /\ (Db.trace (snd (Db.get_db_connection srv st))
      = Db.trace st ++ match connect_fault srv with
                      | Some _ => []
                      | None => [Db.Connect]
                      end)%list
  /\ (trace (snd (App.get_db_connection srv st'))
      = trace st' ++ match connect_fault srv with
                     | Some _ => []
                     | None => [Connect]
                     end)%list.
Proof.
  unfold Db.get_db_connection, App.get_db_connection.
  destruct (connect_fault srv) as [d|].
  - cbn. rewrite !app_nil_r. auto.
  - destruct (active_after_connect srv); cbn; auto.
Qed.

End ConnectorFacts.

Section AuthTheorems.
Import Calendar Ingest Db Auth.

Ltac run_verify srv :=
  unfold verify_user, verify_user_try, get_db_connection, execute_update,
    commit, execute, hash_password;
  destruct srv as [cf act pf inf comf self cae uk];
  cbn [connect_fault active_after_connect select_fault commit_fault
       connected_at_exit].

(** X16. When [verify_user] returns an account, it is that of a row of
    [users] that is active and whose name and password hash equal, for the
    comparison of the server, the given name and the hash of the given
    password; [last_login] has then been set for the rows of that name, and
    committed. *)
Theorem verified_account_is_active_and_matches :
  forall srv update_fault sha256_hex same_text now name password db a,
    verified (verify_user srv update_fault sha256_hex same_text now name password db)
    = Some a ->
    (exists u,
        In u db /\ a = account_of u /\ is_active u = true
        /\ same_text (username u) name = true
        /\ same_text (password_hash u) (sha256_hex password) = true)
    /\ users_after (verify_user srv update_fault sha256_hex same_text now
                                name password db)
       = map (touch same_text now name) db
    /\ In Commit (calls (verify_user srv update_fault sha256_hex same_text now
                                     name password db)).
Proof.
  intros srv update_fault sha256_hex same_text now name password db a.
  run_verify srv.
  destruct cf as [d|]; [cbn; discriminate|].
  destruct act; [|cbn; discriminate].
  destruct self as [e|]; [cbn; discriminate|].
  cbn.
  destruct (List.find (matches same_text name (sha256_hex password)) db) as [u|] eqn:Hu;
    [|cbn; discriminate].
  destruct update_fault as [e|]; [cbn; discriminate|].
  destruct comf as [e|]; [cbn; discriminate|].
  cbn. intros H. apply some_eq in H. subst a.
  apply find_some in Hu as [Hin Hm]. unfold matches in Hm.
  apply andb_prop in Hm as [Hm Hact]. apply andb_prop in Hm as [Hname Hhash].
  split; [|split].
  - exists u. repeat split; assumption.
  - reflexivity.
  - destruct cae; simpl; tauto.
Qed.

Lemma verified_account_is_active_and_matches_witness :
  (exists u,
      In u Accounts.people /\ account_of Accounts.alice = account_of u
      /\ is_active u = true
      /\ String.eqb (username u) "alice" = true
      /\ String.eqb (password_hash u) (Accounts.toy_digest "secret") = true)
  /\ users_after (Accounts.check "alice" "secret")
     = map (touch String.eqb 1700000000 "alice") Accounts.people
  /\ In Commit (calls (Accounts.check "alice" "secret")).
Proof.
  apply (verified_account_is_active_and_matches Submissions.healthy None
           Accounts.toy_digest String.eqb 1700000000 "alice" "secret"
           Accounts.people (account_of Accounts.alice)).
  vm_compute. reflexivity.
Defined.

Lemma verify_user_refused :
  forall srv update_fault sha256_hex same_text now name password db,
    verified (verify_user srv update_fault sha256_hex same_text now name password db)
    = None ->
    users_after (verify_user srv update_fault sha256_hex same_text now
                             name password db) = db.
Proof.
  intros srv update_fault sha256_hex same_text now name password db.
  run_verify srv.
  destruct cf as [d|]; [cbn; reflexivity|].
  destruct act; [|cbn; reflexivity].
  destruct self as [e|]; [cbn; reflexivity|].
  cbn.
  destruct (List.find (matches same_text name (sha256_hex password)) db) as [u|] eqn:Hu;
    [|cbn; reflexivity].
  destruct update_fault as [e|]; [cbn; reflexivity|].
  destruct comf as [e|]; [cbn; reflexivity|].
  cbn. discriminate.
Qed.

(** X17. When [verify_user] returns [None], for want of a matching row or
    after a database error (also one raised after the UPDATE), the [users]
    table is unchanged; and when no active row matches the name and the
    hash, neither the UPDATE nor a commit is sent. *)
Theorem refused_verification_changes_nothing :
  forall srv update_fault sha256_hex same_text now name password db,
    verified (verify_user srv update_fault sha256_hex same_text now name password db)
    = None ->
    users_after (verify_user srv update_fault sha256_hex same_text now
                             name password db) = db
    /\ (List.find (matches same_text name (hash_password sha256_hex password)) db = None ->
        forallb (fun ev => negb (updates ev))
                (calls (verify_user srv update_fault sha256_hex same_text now
                                    name password db)) = true).
Proof.
  intros srv update_fault sha256_hex same_text now name password db.
  run_verify srv.
  destruct cf as [d|]; [cbn; auto|].
  destruct act; [|cbn; auto].
  destruct self as [e|]; [cbn; destruct cae; auto|].
  cbn.
  destruct (List.find (matches same_text name (sha256_hex password)) db) as [u|] eqn:Hu;
    [|cbn; destruct cae; auto].
  destruct update_fault as [e|]; [cbn; split; [reflexivity|discriminate]|].
  destruct comf as [e|]; [cbn; split; [reflexivity|discriminate]|].
  cbn. discriminate.
Qed.

Lemma refused_verification_changes_nothing_witness :
  verified (Accounts.check "bob" "hunter2") = None
  /\ users_after (Accounts.check "bob" "hunter2") = Accounts.people
  /\ forallb (fun ev => negb (updates ev)) (calls (Accounts.check "bob" "hunter2"))
     = true.
Proof.
  split; [vm_compute; reflexivity|].
  destruct (refused_verification_changes_nothing Submissions.healthy None
              Accounts.toy_digest String.eqb 1700000000 "bob" "hunter2" Accounts.people)
    as [Hsame Hquiet].
  - vm_compute. reflexivity.
  - split; [exact Hsame|]. apply Hquiet. vm_compute. reflexivity.
Defined.

(** X18. On every path of [verify_user] on which a connection was obtained
    (and is still connected at exit), the calls end with the closing of the
    cursor and then of the connection, and nothing is closed before that. *)
Theorem verify_user_releases_connection :
  forall srv update_fault sha256_hex same_text now name password db,
    In Connect (calls (verify_user srv update_fault sha256_hex same_text now
                                   name password db)) ->
    active_after_connect srv = true ->
    connected_at_exit srv = true ->
    exists before,
      calls (verify_user srv update_fault sha256_hex same_text now name password db)
      = (before ++ [CloseCursor; CloseConnection])%list
      /\ forallb (fun ev => negb (released ev)) before = true.
Proof.
  intros srv update_fault sha256_hex same_text now name password db.
  run_verify srv.
  destruct cf as [d|]; [cbn; intros []|].
  intros _ Hact Hexit. cbn in Hact, Hexit. subst act cae.
  destruct self as [e|];
    [cbn; eexists [_; _; _]; split; reflexivity|].
  cbn.
  destruct (List.find (matches same_text name (sha256_hex password)) db) as [u|] eqn:Hu;
    [|cbn; eexists [_; _; _]; split; reflexivity].
  destruct update_fault as [e|];
    [cbn; eexists [_; _; _; _]; split; reflexivity|].
  destruct comf as [e|]; cbn; eexists [_; _; _; _; _]; split; reflexivity.
Qed.

Lemma verify_user_releases_connection_witness :
  exists before,
    calls (Accounts.check "alice" "wrong")
    = (before ++ [CloseCursor; CloseConnection])%list
    /\ forallb (fun ev => negb (released ev)) before = true.
Proof.
  apply (verify_user_releases_connection Submissions.healthy None
           Accounts.toy_digest String.eqb 1700000000 "alice" "wrong" Accounts.people).
  - vm_compute. tauto.
  - reflexivity.
  - reflexivity.
Defined.

End AuthTheorems.

Section SessionTheorems.
Import Calendar Ingest Db Auth.

(** X19. [login] redirects to the form only when [verify_user] returned an
    account for the stripped name and password; the session then holds the
    name, role and full name of that account and [require_login] lets
    requests through.  With any other answer the session and the [users]
    table are unchanged, and with a blank name or password no call is made
    on the connector. *)
Theorem login_opens_session_only_when_verified :
  forall srv update_fault sha256_hex same_text now is_get form s db
         answer s' db' made,
    login srv update_fault sha256_hex same_text now is_get form s db
    = (answer, s', db', made) ->
    (answer = RedirectToForm ->
     exists a,
       verified (verify_user srv update_fault sha256_hex same_text now
                   (Py.strip (default "" (form !! "username")))
                   (Py.strip (default "" (form !! "password"))) db) = Some a
       /\ s' !! "user" = Some (account_username a)
       /\ s' !! "user_role" = Some (account_role a)
       /\ s' !! "user_full_name" = Some (account_full_name a)
       /\ forall (A : Type) (f : A) is_json, require_login s' is_json f = Served f)
    /\ (answer <> RedirectToForm -> s' = s /\ db' = db)
    /\ (Py.strip (default "" (form !! "username")) = ""
        \/ Py.strip (default "" (form !! "password")) = "" ->
        answer <> RedirectToForm /\ made = []).
Proof.
  intros srv update_fault sha256_hex same_text now is_get form s db
         answer s' db' made Hrun.
  unfold login in Hrun.
  destruct is_get.
  { inversion Hrun. subst. repeat split; try discriminate; auto. }
  set (name := Py.strip (default "" (form !! "username"))) in *.
  set (password := Py.strip (default "" (form !! "password"))) in *.
  destruct (String.eqb name "" || String.eqb password "") eqn:Hblank.
  { inversion Hrun. subst. repeat split; try discriminate; auto. }
  apply orb_false_elim in Hblank as [Hn Hp].
  apply String.eqb_neq in Hn, Hp.
  destruct (verified (verify_user srv update_fault sha256_hex same_text now
                        name password db)) as [a|] eqn:Hv.
  - inversion Hrun. subst. split; [|split].
    + intros _. exists a. split; [reflexivity|].
      assert (Huser : (<["user_full_name":=account_full_name a]>
                         (<["user_role":=account_role a]>
                            (<["user":=account_username a]> s)) : session)
                      !! "user" = Some (account_username a)).
      { rewrite lookup_insert_ne by discriminate.
        rewrite lookup_insert_ne by discriminate.
        apply lookup_insert_eq. }
      split; [exact Huser|]. split.
      { rewrite lookup_insert_ne by discriminate. apply lookup_insert_eq. }
      split; [apply lookup_insert_eq|].
      intros A f is_json. unfold require_login. rewrite Huser. reflexivity.
    + intros H. contradiction.
    + intros [H|H]; contradiction.
  - inversion Hrun. subst. split; [|split].
    + discriminate.
    + intros _. split; [reflexivity|].
      exact (verify_user_refused _ _ _ _ _ _ _ _ Hv).
    + intros [H|H]; contradiction.
Qed.

Lemma login_opens_session_only_when_verified_witness :
  exists s' db' made,
    login Submissions.healthy None Accounts.toy_digest String.eqb 1700000000 false
          (list_to_map [("username", " alice "); ("password", "secret")])
          ∅ Accounts.people
    = (RedirectToForm, s', db', made)
    /\ s' !! "user" = Some "alice"
    /\ s' !! "user_role" = Some "manager".
Proof.
  assert (Ha : fst (fst (fst (login Submissions.healthy None Accounts.toy_digest
                                String.eqb 1700000000 false
                                (list_to_map [("username", " alice ");
                                              ("password", "secret")])
                                ∅ Accounts.people))) = RedirectToForm).
  { vm_compute. reflexivity. }
  destruct (login Submissions.healthy None Accounts.toy_digest String.eqb 1700000000
              false (list_to_map [("username", " alice "); ("password", "secret")])
              ∅ Accounts.people) as [[[answer s'] db'] made] eqn:E.
  cbn [fst] in Ha. subst answer. exists s', db', made. split; [reflexivity|].
  destruct (login_opens_session_only_when_verified _ _ _ _ _ _ _ _ _ _ _ _ _ E)
    as [Hok _].
  destruct (Hok eq_refl) as (a & Hv & Hu & Hr & _).
  assert (Hacc : verified (verify_user Submissions.healthy None Accounts.toy_digest
                             String.eqb 1700000000 "alice" "secret" Accounts.people)
                 = Some (account_of Accounts.alice)).
  { vm_compute. reflexivity. }
  assert (Hname : Py.strip (default "" ((list_to_map [("username", " alice ");
                                                     ("password", "secret")]
                                         : gmap string string) !! "username"))
                  = "alice") by (vm_compute; reflexivity).
  assert (Hpass : Py.strip (default "" ((list_to_map [("username", " alice ");
                                                     ("password", "secret")]
                                         : gmap string string) !! "password"))
                  = "secret") by (vm_compute; reflexivity).
  rewrite Hname, Hpass, Hacc in Hv. apply some_eq in Hv. subst a.
  split; assumption.
Defined.

(** X20. After [logout], [require_login] turns every request away (the 401
    answer for JSON, the redirect otherwise), whatever the session held;
    [logout] removes the key [user] only, so the role and the full name stay
    in the session. *)
Theorem logout_ends_session :
  forall s : session,
    (forall (A : Type) (f : A) is_json,
        require_login (logout s) is_json f
        = if is_json then AuthenticationRequired else RedirectToLogin)
    /\ (forall key, key <> "user" -> logout s !! key = s !! key).
Proof.
  intros s. unfold logout, require_login. split.
  - intros A f is_json. rewrite lookup_delete_eq. reflexivity.
  - intros key Hkey. apply lookup_delete_ne. auto.
Qed.

End SessionTheorems.

Section FormTheorems.
Import Calendar Ingest App Auth Forms.

Variable float_of_str : string -> option Py.float64.
Variable strptime : string -> option date.
Variable srv : server.

Lemma cleaned_fold (form : gmap string string) (fields : list string)
      (d : gmap string pyval) (k : string) :
  fold_left (fun data field =>
               match form !! field with
               | Some v => <[field := Text (Py.strip v)]> data
               | None => data
               end) fields d !! k
  = match form !! k with
    | Some v => if in_dec string_dec k fields
                then Some (Text (Py.strip v))
                else d !! k
    | None => d !! k
    end.
Proof.
  revert d. induction fields as [|a fields IH]; intros d.
  - cbn [fold_left]. destruct (form !! k); reflexivity.
  - cbn [fold_left]. rewrite IH.
    destruct (string_dec a k) as [->|Hne].
    + destruct (form !! k) as [v|] eqn:Hk; [|reflexivity].
      destruct (in_dec string_dec k (k :: fields)) as [_|Hn];
        [|exfalso; apply Hn; left; reflexivity].
      destruct (in_dec string_dec k fields); [reflexivity|].
      apply lookup_insert_eq.
    + assert (Hstep : match form !! a with
                      | Some v => <[a:=Text (Py.strip v)]> d
                      | None => d
                      end !! k = d !! k).
      { destruct (form !! a); [|reflexivity]. apply lookup_insert_ne. exact Hne. }
      rewrite Hstep.
      destruct (form !! k) as [v|]; [|reflexivity].
      destruct (in_dec string_dec k fields) as [Hin|Hin];
        destruct (in_dec string_dec k (a :: fields)) as [Hin'|Hin'];
        try reflexivity.
      * exfalso. apply Hin'. right. exact Hin.
      * exfalso. destruct Hin' as [E|Hin']; [exact (Hne E)|exact (Hin Hin')].
Qed.

Lemma cleaned_lookup (form : gmap string string) (k : string) :
  In k required_fields ->
  cleaned form !! k = option_map (fun v => Text (Py.strip v)) (form !! k).
Proof.
  intros Hk. unfold cleaned. rewrite cleaned_fold.
  destruct (form !! k); [|reflexivity].
  destruct (in_dec string_dec k required_fields) as [_|Hn]; [reflexivity|contradiction].
Qed.

Lemma append_one_differs {A} (l : list A) (x : A) : l <> (l ++ [x])%list.
Proof.
  intros H. apply (f_equal (@length A)) in H. rewrite length_app in H.
  simpl in H. lia.
Qed.

Lemma parse_date_reply data key r :
  parse_date strptime data key = inl r -> r <> Saved.
Proof.
  unfold parse_date. destruct (data !! key) as [[v|n|x]|].
  - destruct (strptime v); intros H; inversion H; discriminate.
  - intros H; inversion H; discriminate.
  - intros H; inversion H; discriminate.
  - intros H; inversion H; discriminate.
Qed.

Lemma check_numbers_reply data fields r :
  check_numbers float_of_str data fields = Some r -> r <> Saved.
Proof.
  induction fields as [|a fields IH]; simpl; [discriminate|].
  destruct (data !! a) as [[v|n|x]|].
  - destruct (float_of_str v); [exact IH|]. intros H; inversion H; discriminate.
  - destruct (Py.float_of_int n); [exact IH|]. intros H; inversion H; discriminate.
  - exact IH.
  - intros H; inversion H; discriminate.
Qed.

(** The ways a request can go through the body of [submit]. *)
Lemma submit_body_cases (s : session) (form : gmap string string)
      (db : list hotel_row) :
  (exists r, submit_body float_of_str strptime srv s form db = mkhandled r db []
             /\ r <> Saved)
  \/ (exists snapshot_date arrival_date,
         missing_fields form = []
         /\ parse_date strptime (cleaned form) "snapshot_date" = inr snapshot_date
         /\ parse_date strptime (cleaned form) "arrival_date" = inr arrival_date
         /\ submit_body float_of_str strptime srv s form db
            = let r := save_hotel_data float_of_str srv (s !! "user") (cleaned form)
                                       snapshot_date arrival_date db in
              mkhandled match outcome r with
                        | Some e => InternalError e
                        | None => Saved
                        end (table_after r) (events r)).
Proof.
  unfold submit_body.
  destruct (missing_fields form) as [|m ms] eqn:Hm.
  2:{ left. eexists. split; [reflexivity|discriminate]. }
  destruct (parse_date strptime (cleaned form) "snapshot_date") as [r|sd] eqn:Hs.
  { left. exists r. split; [reflexivity|]. exact (parse_date_reply _ _ _ Hs). }
  destruct (parse_date strptime (cleaned form) "arrival_date") as [r|ad] eqn:Ha.
  { left. exists r. split; [reflexivity|]. exact (parse_date_reply _ _ _ Ha). }
  destruct (check_numbers float_of_str (cleaned form) numeric_fields) as [r|] eqn:Hc.
  { left. exists r. split; [reflexivity|]. exact (check_numbers_reply _ _ _ Hc). }
  right. exists sd, ad. repeat split.
  cbv zeta. destruct (outcome _); reflexivity.
Qed.

End FormTheorems.

Section FormAnswers.
Import Calendar Ingest App Auth Forms.

(** X21. The answer of [submit] tells what happened to the table: the
    redirect to the form is sent exactly when one row was appended; with any
    other answer the table is unchanged, and a request answered with status
    400 made no call on the connector. *)
Theorem submit_answer_tells_what_was_stored :
  forall float_of_str strptime srv (s : session) form db,
    let h := submit_body float_of_str strptime srv s form db in
    (reply h = Saved <-> exists row, rows_after h = (db ++ [row])%list)
    /\ (reply h <> Saved -> rows_after h = db)
    /\ (status (reply h) = 400%Z -> connector_calls h = []).
Proof.
  intros float_of_str strptime srv s form db h. subst h.
  destruct (submit_body_cases float_of_str strptime srv s form db)
    as [(r & -> & Hr)|(sd & ad & _ & _ & _ & ->)].
  - cbn [reply rows_after connector_calls]. split; [|split].
    + split; [contradiction|]. intros [row H]. exfalso.
      exact (append_one_differs _ _ H).
    + reflexivity.
    + reflexivity.
  - cbv zeta. cbn [reply rows_after connector_calls].
    destruct (save_cases float_of_str srv (s !! "user") (cleaned form) sd ad db)
      as [e0 st1 _ Ho Ht _ | row st1 me _ _ Ho Ht _
          | row st1 me _ _ _ _ Ho Ht _ | row st1 _ _ _ _ Ho Ht _];
      rewrite Ho, Ht.
    1-3: (split; [|split];
          [ split; [discriminate|]; intros [row' H]; exfalso;
            exact (append_one_differs _ _ H)
          | reflexivity
          | cbn [status]; discriminate ]).
    split; [|split].
    + split; [|reflexivity]. intros _. exists row. reflexivity.
    + contradiction.
    + cbn [status]. discriminate.
Qed.

Lemma submit_answer_tells_what_was_stored_witness :
  reply (Posted.post (Posted.filled "5")) = Saved
  /\ exists row, rows_after (Posted.post (Posted.filled "5")) = ([] ++ [row])%list.
Proof.
  split; [vm_compute; reflexivity|].
  apply (proj1 (submit_answer_tells_what_was_stored Posted.float_of_digits
                  Posted.two_dates Submissions.healthy Posted.signed_in
                  (Posted.filled "5") [])).
  vm_compute. reflexivity.
Defined.

(** X22. When [submit] answers with the redirect, the row appended is
    attributed to the user of the session, its dates are the two date fields
    parsed from the stripped text, each float field is the number read from
    the stripped text, and each integer field is that number truncated
    toward zero. *)
Theorem saved_form_is_stored_as_typed :
  forall float_of_str strptime srv (s : session) form db user,
    s !! "user" = Some user ->
    reply (submit_body float_of_str strptime srv s form db) = Saved ->
    exists row,
      rows_after (submit_body float_of_str strptime srv s form db) = (db ++ [row])%list
      /\ created_by row = user
      /\ (exists v, form !! "snapshot_date" = Some v
                    /\ strptime (Py.strip v) = Some (snapshot_date row))
      /\ (exists v, form !! "arrival_date" = Some v
                    /\ strptime (Py.strip v) = Some (arrival_date row))
      /\ (forall key get, In (key, get) float_fields ->
            exists v, form !! key = Some v
                      /\ float_of_str (Py.strip v) = Some (get row))
      /\ (forall key get, In (key, get) int_fields ->
            exists v x, form !! key = Some v
                        /\ float_of_str (Py.strip v) = Some x
                        /\ Py.int_of_float x = Py.Ok (get row)).
Proof.
  intros float_of_str strptime srv s form db user Huser Hsaved.
  destruct (submit_body_cases float_of_str strptime srv s form db)
    as [(r & Hbody & Hr)|(sd & ad & _ & Hsd & Had & Hbody)];
    rewrite Hbody in *.
  { cbn in Hsaved. contradiction. }
  cbv zeta in *. cbn [reply rows_after] in *.
  assert (Hdate : forall key d,
             In key required_fields ->
             parse_date strptime (cleaned form) key = inr d ->
             exists v, form !! key = Some v /\ strptime (Py.strip v) = Some d).
  { intros key d Hkey H. unfold parse_date in H.
    rewrite (cleaned_lookup form key Hkey) in H.
    destruct (form !! key) as [v|]; cbn in H; [|discriminate].
    exists v. split; [reflexivity|].
    destruct (strptime (Py.strip v)); inversion H. reflexivity. }
  assert (Hnum : forall key q,
             In key required_fields ->
             submitted float_of_str (cleaned form) key = Some q ->
             exists v, form !! key = Some v /\ float_of_str (Py.strip v) = Some q).
  { intros key q Hkey H. unfold submitted in H.
    rewrite (cleaned_lookup form key Hkey) in H.
    destruct (form !! key) as [v|]; cbn in H; [|discriminate].
    exists v. split; [reflexivity|exact H]. }
  destruct (save_cases float_of_str srv (s !! "user") (cleaned form) sd ad db)
    as [e0 st1 _ Ho Ht _ | row st1 me _ _ Ho Ht _
        | row st1 me _ _ _ _ Ho Ht _ | row st1 Hbv _ _ _ Ho Ht _];
    rewrite Ho in Hsaved; try discriminate.
  exists row. split; [exact Ht|].
  apply build_values_ok in Hbv as [_ (Hfl & Hint & _ & _ & Hs & Ha & Hby)].
  rewrite Huser in Hby. split; [exact Hby|].
  split; [subst sd; apply Hdate; [cbn; tauto|exact Hsd]|].
  split; [subst ad; apply Hdate; [cbn; tauto|exact Had]|].
  split.
  - intros key get Hin. apply Hnum; [|exact (Hfl key get Hin)].
    cbn in Hin. repeat (destruct Hin as [Hin|Hin]; [inversion Hin; cbn; tauto|]).
    destruct Hin.
  - intros key get Hin. destruct (Hint key get Hin) as (x & q & Hx & Hq & Hrow).
    destruct (Hnum key x) as (v & Hv & Hf); [|exact Hx|].
    + cbn in Hin. repeat (destruct Hin as [Hin|Hin]; [inversion Hin; cbn; tauto|]).
      destruct Hin.
    + exists v, x. split; [exact Hv|]. split; [exact Hf|].
      unfold Py.int_of_float. rewrite Hq, Hrow. reflexivity.
Qed.

(** X23. A form that passes the checks of [submit] (it is not answered with
    status 400) and breaks a range condition of [save_hotel_data] is
    answered with status 500, and nothing is stored. *)
Theorem range_violation_is_answered_500 :
  forall float_of_str strptime srv (s : session) form db,
    status (reply (submit_body float_of_str strptime srv s form db)) <> 400%Z ->
    range_violation float_of_str (cleaned form) ->
    status (reply (submit_body float_of_str strptime srv s form db)) = 500%Z
    /\ rows_after (submit_body float_of_str strptime srv s form db) = db.
Proof.
  intros float_of_str strptime srv s form db Hstatus Hrange.
  destruct (submit_body_cases float_of_str strptime srv s form db)
    as [(r & Hbody & Hr)|(sd & ad & _ & _ & _ & Hbody)];
    rewrite Hbody in *; cbv zeta in *; cbn [reply rows_after] in *.
  - split; [|reflexivity].
    destruct r; cbn [status] in *; try reflexivity; contradiction.
  - destruct (save_cases float_of_str srv (s !! "user") (cleaned form) sd ad db)
      as [e0 st1 _ Ho Ht _ | row st1 me _ _ Ho Ht _
          | row st1 me _ _ _ _ Ho Ht _ | row st1 Hbv _ _ _ Ho Ht _];
      rewrite Ho, ?Ht; try (split; reflexivity).
    apply build_values_ok in Hbv as [Hno _]. contradiction.
Qed.

End FormAnswers.

Section FormWitnesses.
Import Calendar Ingest App Auth Forms.

Lemma saved_form_is_stored_as_typed_witness :
  exists row,
    rows_after (Posted.post (Posted.filled "5")) = ([] ++ [row])%list
    /\ created_by row = "alice"
    /\ (exists v, Posted.filled "5" !! "snapshot_date" = Some v
                  /\ Posted.two_dates (Py.strip v) = Some (snapshot_date row))
    /\ (exists v, Posted.filled "5" !! "arrival_date" = Some v
                  /\ Posted.two_dates (Py.strip v) = Some (arrival_date row))
    /\ (forall key get, In (key, get) float_fields ->
          exists v, Posted.filled "5" !! key = Some v
                    /\ Posted.float_of_digits (Py.strip v) = Some (get row))
    /\ (forall key get, In (key, get) int_fields ->
          exists v x, Posted.filled "5" !! key = Some v
                      /\ Posted.float_of_digits (Py.strip v) = Some x
                      /\ Py.int_of_float x = Py.Ok (get row)).
Proof.
  apply (saved_form_is_stored_as_typed Posted.float_of_digits Posted.two_dates
           Submissions.healthy Posted.signed_in (Posted.filled "5") [] "alice").
  - reflexivity.
  - vm_compute. reflexivity.
Defined.

Lemma range_violation_is_answered_500_witness :
  status (reply (Posted.post (Posted.filled "11"))) = 500%Z
  /\ rows_after (Posted.post (Posted.filled "11")) = [].
Proof.
  apply (range_violation_is_answered_500 Posted.float_of_digits Posted.two_dates
           Submissions.healthy Posted.signed_in (Posted.filled "11") []).
  - vm_compute. discriminate.
  - right. left. exists 11%Z, 10%Z. vm_compute. repeat split.
Defined.

End FormWitnesses.

Section Blanks.
Import Py.

Lemma append_cons (c : ascii) (a b : string) : String c a ++ b = String c (a ++ b).
Proof. reflexivity. Qed.

Lemma append_nil (b : string) : "" ++ b = b.
Proof. reflexivity. Qed.

Lemma append_empty_r (s : string) : s ++ "" = s.
Proof.
  induction s as [|c s IH]; [reflexivity|]. rewrite append_cons, IH. reflexivity.
Qed.

Lemma append_assoc_string (a b c : string) : (a ++ b) ++ c = a ++ (b ++ c).
Proof.
  induction a as [|x a IH]; [reflexivity|].
  rewrite !append_cons, IH. reflexivity.
Qed.

Lemma rev_string_acc (s acc : string) :
  rev_string s acc = rev_string s "" ++ acc.
Proof.
  revert acc. induction s as [|c s IH]; intros acc; [reflexivity|].
  cbn [rev_string].
  rewrite (IH (String c acc)), (IH (String c "")), append_assoc_string.
  reflexivity.
Qed.

Lemma rev_string_append (a b : string) :
  rev_string (a ++ b) "" = rev_string b "" ++ rev_string a "".
Proof.
  induction a as [|x a IH].
  - rewrite append_nil. cbn [rev_string]. rewrite append_empty_r. reflexivity.
  - rewrite append_cons. cbn [rev_string].
    rewrite (rev_string_acc (a ++ b)), IH, (rev_string_acc a (String x "")),
      append_assoc_string. reflexivity.
Qed.

Lemma rev_string_involutive (s : string) :
  rev_string (rev_string s "") "" = s.
Proof.
  induction s as [|c s IH]; [reflexivity|].
  cbn [rev_string].
  rewrite (rev_string_acc s), rev_string_append, IH. reflexivity.
Qed.

Lemma lstrip_idempotent (s : string) : lstrip (lstrip s) = lstrip s.
Proof.
  induction s as [|c s IH]; simpl; [reflexivity|].
  destruct (is_space c) eqn:E; [exact IH|]. simpl. rewrite E. reflexivity.
Qed.

Lemma lstrip_head (s : string) :
  lstrip s = "" \/ exists c rest, lstrip s = String c rest /\ is_space c = false.
Proof.
  induction s as [|c s IH]; simpl; [left; reflexivity|].
  destruct (is_space c) eqn:E; [exact IH|]. right. exists c, s. auto.
Qed.

Lemma lstrip_append_mark (a : string) (c : ascii) :
  is_space c = false ->
  lstrip (a ++ String c "") = lstrip a ++ String c "".
Proof.
  intros Hc. induction a as [|x a IH].
  - rewrite append_nil. cbn [lstrip]. rewrite Hc. reflexivity.
  - rewrite append_cons. cbn [lstrip].
    destruct (is_space x); [exact IH|reflexivity].
Qed.

(** Stripping on the right a text that has no blank on the left. *)
Lemma strip_of_marked (c : ascii) (rest : string) :
  is_space c = false ->
  rev_string (lstrip (rev_string (String c rest) "")) ""
  = String c (rev_string (lstrip (rev_string rest "")) "").
Proof.
  intros Hc. cbn [rev_string].
  rewrite (rev_string_acc rest (String c "")), (lstrip_append_mark _ c Hc),
    rev_string_append.
  reflexivity.
Qed.

(** [s.strip()] applied twice is [s.strip()]. *)
Lemma strip_idempotent (s : string) : strip (strip s) = strip s.
Proof.
  unfold strip.
  destruct (lstrip_head s) as [E|(c & rest & E & Hc)]; rewrite E.
  - reflexivity.
  - rewrite (strip_of_marked c rest Hc).
    cbn [lstrip]. rewrite Hc.
    rewrite (strip_of_marked c _ Hc).
    rewrite rev_string_involutive, lstrip_idempotent. reflexivity.
Qed.

End Blanks.

Section BlanksIgnored.
Import Calendar Ingest App Db Auth Forms.

Lemma fold_left_ext {A B} (f g : A -> B -> A) (l : list B) (a : A) :
  (forall a b, f a b = g a b) -> fold_left f l a = fold_left g l a.
Proof.
  intros H. revert a. induction l as [|b l IH]; intros a; simpl; [reflexivity|].
  rewrite H. apply IH.
Qed.

Lemma filter_ext_string (f g : string -> bool) (l : list string) :
  (forall a, f a = g a) -> List.filter f l = List.filter g l.
Proof.
  intros H. induction l as [|a l IH]; simpl; [reflexivity|].
  rewrite H, IH. reflexivity.
Qed.

(** X24. Blanks around the submitted values are ignored: [submit] and
    [login] do the same, and answer the same, for a form and for the form
    with every value stripped. *)
Theorem surrounding_blanks_are_ignored :
  (forall float_of_str strptime srv (s : session) (form : gmap string string) db,
      submit_body float_of_str strptime srv s (Py.strip <$> form) db
      = submit_body float_of_str strptime srv s form db)
  /\
  (forall srv update_fault sha256_hex same_text now is_get
          (form : gmap string string) (s : session) db,
      login srv update_fault sha256_hex same_text now is_get (Py.strip <$> form) s db
      = login srv update_fault sha256_hex same_text now is_get form s db).
Proof.
  split.
  - intros float_of_str strptime srv s form db.
    assert (Hmissing : missing_fields (Py.strip <$> form) = missing_fields form).
    { unfold missing_fields. apply filter_ext_string. intros field.
      unfold blank. rewrite lookup_fmap.
      destruct (form !! field) as [v|]; simpl; [|reflexivity].
      rewrite strip_idempotent. reflexivity. }
    assert (Hcleaned : cleaned (Py.strip <$> form) = cleaned form).
    { unfold cleaned. apply fold_left_ext. intros data field.
      rewrite lookup_fmap. destruct (form !! field) as [v|]; simpl; [|reflexivity].
      rewrite strip_idempotent. reflexivity. }
    unfold submit_body. rewrite Hmissing, Hcleaned. reflexivity.
  - intros srv update_fault sha256_hex same_text now is_get form s db.
    assert (Hfield : forall key,
               Py.strip (default "" ((Py.strip <$> form) !! key))
               = Py.strip (default "" (form !! key))).
    { intros key. rewrite lookup_fmap.
      destruct (form !! key) as [v|]; simpl; [|reflexivity].
      apply strip_idempotent. }
    unfold login. rewrite !Hfield. reflexivity.
Qed.

End BlanksIgnored.

Section ReadFacts.
Import Calendar Ingest Db Auth Reads.

Lemma fallback_in (x d : string) (l : list string) :
  In d l -> In (if Pipeline.in_list x l then x else d) l.
Proof.
  intros Hd. destruct (Pipeline.in_list x l) eqn:E; [|exact Hd].
  unfold Pipeline.in_list in E. apply existsb_exists in E as (y & Hy & Heq).
  apply String.eqb_eq in Heq. subst. exact Hy.
Qed.

Lemma ceiling_pages (total limit : Z) :
  (1 <= limit)%Z ->
  let pages := ((total + limit - 1) / limit)%Z in
  ((pages - 1) * limit < total <= pages * limit)%Z.
Proof.
  intros Hl pages. subst pages.
  pose proof (Z.div_mod (total + limit - 1) limit ltac:(lia)) as Hdm.
  pose proof (Z.mod_pos_bound (total + limit - 1) limit ltac:(lia)) as Hr.
  nia.
Qed.

Variable srv : server.
Variable page_fault : option mysql_error.
Variable strptime : string -> option date.
Variable R J : Type.
Variable matching : list condition -> list R.
Variable ordered : string -> string -> list R -> list R.
Variable jsonable : R -> J.

(** The sort the handler applies for the arguments it was given. *)
Lemma api_get_data_cases (args : gmap string string) :
  let f := api_get_data_body srv page_fault strptime R J matching ordered jsonable args in
  (* an error answer *)
  (exists status code,
      answer f = Failure status code
      /\ (status = 400%Z -> forallb (fun ev => negb (executes ev)) (calls f) = true)
      /\ (status = 400%Z -> code <> "INVALID_DATE_FORMAT" -> calls f = []))
  \/
  (* a page *)
  (exists page limit conditions sort_by sort_order,
      (1 <= page)%Z /\ (1 <= limit <= 500)%Z
      /\ In sort_by valid_sort_fields /\ In sort_order ["ASC"; "DESC"]
      /\ let total := Z.of_nat (length (matching conditions)) in
         let offset := ((page - 1) * limit)%Z in
         let pages := ((total + limit - 1) / limit)%Z in
         answer f
         = Page (map jsonable
                     (limited R limit offset
                              (ordered sort_by sort_order (matching conditions))))
                (mkpagination page limit total pages (page <? pages)%Z (page >? 1)%Z)
                sort_by (Py.lower sort_order)
         /\ exists closing,
             calls f = ([Connect; OpenCursor; Execute (CountRows conditions);
                         Execute (SelectRows conditions sort_by sort_order limit offset)]
                          ++ closing)%list).
Proof.
  intros f. subst f.
  unfold api_get_data_body, api_get_data_try, get_db_connection, execute, lift.
  destruct (int_arg args "page" 1) as [page|e].
  2:{ left. exists 500%Z, "FETCH_ERROR". cbn. repeat split; discriminate. }
  destruct (int_arg args "limit" 50) as [limit|e].
  2:{ left. exists 500%Z, "FETCH_ERROR". cbn. repeat split; discriminate. }
  cbn [bind ret].
  destruct (page <? 1)%Z eqn:Hpage.
  { left. exists 400%Z, "INVALID_PAGE". cbn. repeat split. }
  destruct (Z.min limit 500 <? 1)%Z eqn:Hlimit.
  { left. exists 400%Z, "INVALID_LIMIT". cbn. repeat split. }
  set (sort_order := if Pipeline.in_list (upper (default "desc" (args !! "sort_order")))
                          ["ASC"; "DESC"]
                     then upper (default "desc" (args !! "sort_order")) else "DESC").
  set (sort_by := if Pipeline.in_list (default "arrival_date" (args !! "sort_by"))
                       valid_sort_fields
                  then default "arrival_date" (args !! "sort_by") else "arrival_date").
  destruct srv as [cf act pf inf comf self cae uk].
  cbn [connect_fault active_after_connect select_fault connected_at_exit].
  destruct cf as [d|].
  { left. exists 500%Z, "FETCH_ERROR". cbn. repeat split; discriminate. }
  destruct act.
  2:{ left. exists 500%Z, "FETCH_ERROR". cbn. repeat split; discriminate. }
  cbn [bind emit ret raise assign_connection assign_cursor initial
       connection cursor store trace app].
  destruct (date_filter strptime (args !! "start_date") ArrivalFrom []) as [c1|].
  2:{ left. exists 400%Z, "INVALID_DATE_FORMAT". cbn.
      split; [reflexivity|]. split; [destruct cae; reflexivity|].
      intros _ H. contradiction. }
  destruct (date_filter strptime (args !! "end_date") ArrivalTo c1) as [c2|].
  2:{ left. exists 400%Z, "INVALID_DATE_FORMAT". cbn.
      split; [reflexivity|]. split; [destruct cae; reflexivity|].
      intros _ H. contradiction. }
  set (conditions := kind_filter (args !! "actual_or_forecast") c2).
  cbn [bind emit ret raise connection cursor store trace app].
  destruct self as [e|].
  { left. exists 500%Z, "FETCH_ERROR". cbn. repeat split; discriminate. }
  cbn [bind emit ret raise connection cursor store trace app].
  destruct page_fault as [e|].
  { left. exists 500%Z, "FETCH_ERROR". cbn. repeat split; discriminate. }
  right. exists page, (Z.min limit 500), conditions, sort_by, sort_order.
  apply Z.ltb_ge in Hpage, Hlimit.
  split; [lia|]. split; [lia|].
  split; [apply fallback_in; cbn; tauto|].
  split; [apply fallback_in; cbn; tauto|].
  cbv zeta. cbn [close_all connection cursor store trace answer calls andb].
  split; [reflexivity|].
  destruct cae; eexists; cbn; reflexivity.
Qed.

End ReadFacts.

Section ReadTheorems.
Import Calendar Ingest Db Auth Reads.

(** X25. Every page [api_get_data] answers with has a page number of at
    least 1 and a limit between 1 and 500, holds at most [limit] records,
    and was read by a SELECT whose ORDER BY column is one of the ten valid
    sort fields and whose direction is ASC or DESC, with offset [(page - 1)
    * limit]. *)
Theorem page_is_bounded_and_sorted_by_known_column :
  forall srv page_fault strptime (R J : Type) matching ordered (jsonable : R -> J)
         args records p sort_by sort_order,
    answer (api_get_data_body srv page_fault strptime R J matching ordered
                              jsonable args)
    = Page records p sort_by sort_order ->
    (1 <= page p)%Z /\ (1 <= limit p <= 500)%Z
    /\ (length records <= Z.to_nat (limit p))%nat
    /\ In sort_by valid_sort_fields
    /\ In sort_order ["asc"; "desc"]
    /\ exists conditions direction,
        In direction ["ASC"; "DESC"]
        /\ In (Execute (SelectRows conditions sort_by direction (limit p)
                                   ((page p - 1) * limit p)))
              (calls (api_get_data_body srv page_fault strptime R J matching
                                        ordered jsonable args))
        /\ records
           = map jsonable
                 (limited R (limit p) ((page p - 1) * limit p)
                          (ordered sort_by direction (matching conditions))).
Proof.
  intros srv page_fault strptime R J matching ordered jsonable args records p
         sort_by sort_order Hans.
  destruct (api_get_data_cases srv page_fault strptime R J matching ordered jsonable args)
    as [(status & code & Hf & _)
       |(page & limit & conditions & sb & so & Hpage & Hlimit & Hsb & Hso & Hpg
         & closing & Hcalls)].
  { rewrite Hf in Hans. discriminate. }
  cbv zeta in Hpg. rewrite Hpg in Hans. inversion Hans. subst. clear Hans.
  cbn [Reads.page Reads.limit].
  split; [exact Hpage|]. split; [exact Hlimit|].
  split.
  { rewrite length_map. unfold limited. apply firstn_le_length. }
  split; [exact Hsb|]. split.
  { destruct Hso as [<-|[<-|[]]]; cbn; tauto. }
  exists conditions, so. split; [exact Hso|]. split; [|reflexivity].
  rewrite Hcalls. cbn. tauto.
Qed.

Lemma page_is_bounded_and_sorted_by_known_column_witness :
  exists records p,
    answer (Listing.read Listing.second_page) = Page records p "arrival_date" "asc"
    /\ records = [4; 5; 6]%nat
    /\ (1 <= page p)%Z /\ (1 <= limit p <= 500)%Z
    /\ In "arrival_date" valid_sort_fields.
Proof.
  destruct (answer (Listing.read Listing.second_page)) as [st code|records p sb so] eqn:E;
    [vm_compute in E; discriminate|].
  assert (sb = "arrival_date" /\ so = "asc" /\ records = [4; 5; 6]%nat) as (-> & -> & ->).
  { vm_compute in E. inversion E. auto. }
  exists [4; 5; 6]%nat, p. split; [reflexivity|]. split; [reflexivity|].
  destruct (page_is_bounded_and_sorted_by_known_column Submissions.healthy None
              Listing.no_dates nat nat Listing.seven Listing.as_stored (fun r => r)
              Listing.second_page _ _ _ _ E) as (H1 & H2 & _ & H4 & _).
  auto.
Defined.

(** X26. In every page [api_get_data] answers with, [total_pages] is the
    least number of pages of [limit] records that hold [total_records],
    [has_next] is true exactly when records remain after this page, and
    [has_prev] exactly when the page is not the first. *)
Theorem pagination_counts_are_consistent :
  forall srv page_fault strptime (R J : Type) matching ordered (jsonable : R -> J)
         args records p sort_by sort_order,
    answer (api_get_data_body srv page_fault strptime R J matching ordered
                              jsonable args)
    = Page records p sort_by sort_order ->
    (0 <= total_records p)%Z
    /\ ((total_pages p - 1) * limit p < total_records p <= total_pages p * limit p)%Z
    /\ (has_next p = true <-> (page p * limit p < total_records p)%Z)
    /\ (has_prev p = true <-> (1 < page p)%Z).
Proof.
  intros srv page_fault strptime R J matching ordered jsonable args records p
         sort_by sort_order Hans.
  destruct (api_get_data_cases srv page_fault strptime R J matching ordered jsonable args)
    as [(status & code & Hf & _)
       |(page & limit & conditions & sb & so & Hpage & Hlimit & Hsb & Hso & Hpg & _)].
  { rewrite Hf in Hans. discriminate. }
  cbv zeta in Hpg. rewrite Hpg in Hans. inversion Hans. subst. clear Hans.
  cbn [Reads.page Reads.limit Reads.total_records Reads.total_pages
       Reads.has_next Reads.has_prev].
  set (total := Z.of_nat (length (matching conditions))).
  pose proof (ceiling_pages total limit ltac:(lia)) as Hceil. cbv zeta in Hceil.
  set (pages := ((total + limit - 1) / limit)%Z) in *.
  split; [subst total; lia|]. split; [exact Hceil|]. split.
  - rewrite Z.ltb_lt. split; intros H; nia.
  - rewrite Z.gtb_ltb, Z.ltb_lt. tauto.
Qed.

Lemma pagination_counts_are_consistent_witness :
  exists records p,
    answer (Listing.read Listing.second_page) = Page records p "arrival_date" "asc"
    /\ total_records p = 7%Z /\ total_pages p = 3%Z
    /\ (has_next p = true <-> (page p * limit p < total_records p)%Z).
Proof.
  destruct (answer (Listing.read Listing.second_page)) as [st code|records p sb so] eqn:E;
    [vm_compute in E; discriminate|].
  assert (sb = "arrival_date" /\ so = "asc"
          /\ total_records p = 7%Z /\ total_pages p = 3%Z) as (-> & -> & Ht & Hp).
  { vm_compute in E. inversion E. auto. }
  exists records, p. split; [reflexivity|]. split; [exact Ht|]. split; [exact Hp|].
  destruct (pagination_counts_are_consistent Submissions.healthy None
              Listing.no_dates nat nat Listing.seven Listing.as_stored (fun r => r)
              Listing.second_page _ _ _ _ E) as (_ & _ & H & _).
  exact H.
Defined.

(** X27. When [api_get_data] answers with status 400 no statement was
    executed; for a page or a limit below 1 the connector was not called at
    all (a date that does not parse is detected after the connection was
    opened). *)
Theorem rejected_read_executes_nothing :
  forall srv page_fault strptime (R J : Type) matching ordered (jsonable : R -> J)
         args code,
    answer (api_get_data_body srv page_fault strptime R J matching ordered
                              jsonable args)
    = Failure 400 code ->
    forallb (fun ev => negb (executes ev))
            (calls (api_get_data_body srv page_fault strptime R J matching ordered
                                      jsonable args)) = true
    /\ (code <> "INVALID_DATE_FORMAT" ->
        calls (api_get_data_body srv page_fault strptime R J matching ordered
                                 jsonable args) = []).
Proof.
  intros srv page_fault strptime R J matching ordered jsonable args code Hans.
  destruct (api_get_data_cases srv page_fault strptime R J matching ordered jsonable args)
    as [(status & code' & Hf & Hexec & Hnone)
       |(page & limit & conditions & sb & so & _ & _ & _ & _ & Hpg & _)].
  - rewrite Hf in Hans. inversion Hans. subst. split; [exact (Hexec eq_refl)|].
    exact (Hnone eq_refl).
  - cbv zeta in Hpg. rewrite Hpg in Hans. discriminate.
Qed.

Lemma rejected_read_executes_nothing_witness :
  calls (Listing.read (list_to_map [("page", "0")])) = [].
Proof.
  apply (rejected_read_executes_nothing Submissions.healthy None
           Listing.no_dates nat nat Listing.seven Listing.as_stored (fun r => r)
           (list_to_map [("page", "0")]) "INVALID_PAGE").
  - vm_compute. reflexivity.
  - discriminate.
Defined.

End ReadTheorems.

Section ReadConnection.
Import Calendar Ingest Db Auth Reads.

(** X28. On every path of [api_get_data] on which a connection was obtained
    (and is still connected at exit), also when it answers 400 for a date
    that does not parse, the calls end with the closing of the cursor and
    then of the connection, and nothing is closed before that. *)
Theorem read_releases_connection :
  forall srv page_fault strptime (R J : Type) matching ordered (jsonable : R -> J) args,
    In Connect (calls (api_get_data_body srv page_fault strptime R J matching ordered
                                         jsonable args)) ->
    active_after_connect srv = true ->
    connected_at_exit srv = true ->
    exists before,
      calls (api_get_data_body srv page_fault strptime R J matching ordered
                               jsonable args)
      = (before ++ [CloseCursor; CloseConnection])%list
      /\ forallb (fun ev => negb (released ev)) before = true.
Proof.
  intros srv page_fault strptime R J matching ordered jsonable args.
  unfold api_get_data_body, api_get_data_try, get_db_connection, execute, lift.
  destruct (int_arg args "page" 1) as [page|e]; [|cbn; intros []].
  destruct (int_arg args "limit" 50) as [limit|e]; [|cbn; intros []].
  cbn [bind ret].
  destruct (page <? 1)%Z; [cbn; intros []|].
  destruct (Z.min limit 500 <? 1)%Z; [cbn; intros []|].
  destruct srv as [cf act pf inf comf self cae uk].
  cbn [connect_fault active_after_connect select_fault connected_at_exit].
  destruct cf as [d|]; [cbn; intros []|].
  intros _ -> ->.
  cbn [bind emit ret raise assign_connection assign_cursor initial
       connection cursor store trace app].
  destruct (date_filter strptime (args !! "start_date") ArrivalFrom []) as [c1|];
    [|cbn; eexists [_; _]; split; reflexivity].
  destruct (date_filter strptime (args !! "end_date") ArrivalTo c1) as [c2|];
    [|cbn; eexists [_; _]; split; reflexivity].
  cbn [bind emit ret raise connection cursor store trace app].
  destruct self as [e|]; [cbn; eexists [_; _; _]; split; reflexivity|].
  cbn [bind emit ret raise connection cursor store trace app].
  destruct page_fault as [e|]; cbn; eexists [_; _; _; _]; split; reflexivity.
Qed.

Lemma read_releases_connection_witness :
  exists before,
    calls (Listing.read (list_to_map [("start_date", "yesterday")]))
    = (before ++ [CloseCursor; CloseConnection])%list
    /\ forallb (fun ev => negb (released ev)) before = true.
Proof.
  apply (read_releases_connection Submissions.healthy None
           Listing.no_dates nat nat Listing.seven Listing.as_stored (fun r => r)
           (list_to_map [("start_date", "yesterday")])).
  - vm_compute. tauto.
  - reflexivity.
  - reflexivity.
Defined.

End ReadConnection.

Section SettingsTheorems.
Import Py Settings.

(** X29. [DB_CONFIG] of app.py and [Config.get_db_config()] of config.py
    read the same database settings from every environment in which no
    variable is set to the empty text. *)
Theorem database_settings_agree_unless_empty :
  forall env : gmap string string,
    (forall key, env !! key <> Some "") ->
    DB_CONFIG env = get_db_config env.
Proof.
  intros env Hne.
  assert (Hget : forall key d, get_or env key d = getenv env key d).
  { intros key d. unfold get_or, getenv.
    destruct (env !! key) as [v|] eqn:E; [|reflexivity].
    destruct (String.eqb v "") eqn:Hv; [|reflexivity].
    apply String.eqb_eq in Hv. subst v. exfalso. exact (Hne key E). }
  unfold DB_CONFIG, get_db_config. rewrite !Hget.
  destruct (env !! "DB_PORT") as [v|] eqn:E; [|reflexivity].
  destruct (String.eqb v "") eqn:Hv; [|reflexivity].
  apply String.eqb_eq in Hv. subst v. exfalso. exact (Hne "DB_PORT" E).
Qed.

Lemma database_settings_agree_unless_empty_witness :
  DB_CONFIG (list_to_map [("DB_HOST", "db.internal"); ("DB_PORT", "3307")])
  = get_db_config (list_to_map [("DB_HOST", "db.internal"); ("DB_PORT", "3307")]).
Proof.
  apply (database_settings_agree_unless_empty
           (list_to_map [("DB_HOST", "db.internal"); ("DB_PORT", "3307")])).
  intros key H.
  destruct (string_dec key "DB_HOST") as [->|H1]; [vm_compute in H; discriminate|].
  destruct (string_dec key "DB_PORT") as [->|H2]; [vm_compute in H; discriminate|].
  cbn in H. rewrite lookup_insert_ne in H by auto.
  rewrite lookup_insert_ne in H by auto. rewrite lookup_empty in H. discriminate.
Defined.

End SettingsTheorems.
